(** * Azure resource modules: the reconciliation code of
      azure_rm_resourcegroup.py, azure_rm_networkinterface.py and
      azure_rm_virtualmachine.py, embedded as monadic programs over an
      abstract provider, and the properties of their check mode, tag
      handling, forced re-creation and cascading delete. *)

From Stdlib Require Import Ascii String.
From stdpp Require Import base option list strings gmap.

Local Open Scope string_scope.
Local Open Scope list_scope.

(** ** Python values shared by the three modules *)

(** A [tags] argument: a dict of string:string pairs, or [None]. *)
Abbreviation Tags := (option (gmap string string)).

(** Python truthiness of the values the modules test with [if x] / [if not x]. *)
Definition truthy_str (s : option string) : bool :=
  match s with
  | None => false
  | Some s => negb (String.eqb s "")
  end.

Definition truthy_tags (t : Tags) : bool :=
  match t with
  | None => false
  | Some m => negb (bool_decide (m = ∅))
  end.

(** [str(x)] / ["{0}".format(x)] of an optional string. *)
Definition py_str (s : option string) : string :=
  match s with
  | None => "None"
  | Some s => s
  end.

(** ** Exceptions *)

(** The exceptions the modules meet.  [CloudError] is msrestazure's;
    [Exception] stands for any other exception an SDK call raises;
    [SystemExit] is how the invocation ends after [self.fail]. *)
Inductive Exn :=
| CloudError (msg : string)
| Exception (msg : string)
| NameError (name : string)
| TypeError (msg : string)
| IndexError (msg : string)
| KeyError (key : string)
| AttributeError (msg : string)
| SystemExit (msg : string).

(** [except CloudError] *)
Definition is_CloudError (e : Exn) : bool :=
  match e with
  | CloudError _ => true
  | _ => false
  end.

(** [except Exception]: everything but [SystemExit]. *)
Definition is_Exception (e : Exn) : bool :=
  match e with
  | SystemExit _ => false
  | _ => true
  end.

(** [str(exc)] *)
Definition exn_str (e : Exn) : string :=
  match e with
  | CloudError m | Exception m | TypeError m | IndexError m | AttributeError m
  | SystemExit m => m
  | KeyError k => "'" +:+ k +:+ "'"
  | NameError n => "global name '" +:+ n +:+ "' is not defined"
  end.

(** What an SDK call may raise. *)
Inductive SdkError :=
| ErrCloud (msg : string)
| ErrOther (msg : string).

Definition sdk_exn (e : SdkError) : Exn :=
  match e with
  | ErrCloud m => CloudError m
  | ErrOther m => Exception m
  end.

Inductive Outcome (A : Type) :=
| Ok (a : A)
| Raised (e : Exn).
Arguments Ok {A} a.
Arguments Raised {A} e.

(** ** The execution monad

    A program reads the provider [Env], updates the Python frame [St]
    (the module object and the locals of the running method), may raise,
    and emits the provider calls it issues, in order. *)
Section Exec.
Context {Env St Ev : Type}.

Definition M (A : Type) : Type := Env → St → Outcome A * St * list Ev.

Definition ret {A} (a : A) : M A := λ _ s, (Ok a, s, []).

Definition bind {A B} (m : M A) (k : A → M B) : M B :=
  λ env s,
    match m env s with
    | (Ok a, s1, t1) =>
        let '(o, s2, t2) := k a env s1 in (o, s2, t1 ++ t2)
    | (Raised e, s1, t1) => (Raised e, s1, t1)
    end.

Definition raise {A} (e : Exn) : M A := λ _ s, (Raised e, s, []).

(** [try: body except <sel>, exc: handler] *)
Definition try_except {A} (body : M A) (sel : Exn → bool) (handler : Exn → M A) : M A :=
  λ env s,
    match body env s with
    | (Raised e, s1, t1) =>
        if sel e
        then let '(o, s2, t2) := handler e env s1 in (o, s2, t1 ++ t2)
        else (Raised e, s1, t1)
    | r => r
    end.

Definition get_frame : M St := λ _ s, (Ok s, s, []).
Definition modify (f : St → St) : M unit := λ _ s, (Ok tt, f s, []).
Definition ask : M Env := λ env s, (Ok env, s, []).

(** A call that leaves the module: it is recorded, then it returns or
    raises as the provider decides. *)
Definition call {A} (ev : Ev) (reply : Env → Exn + A) : M A :=
  λ env s,
    match reply env with
    | inr a => (Ok a, s, [ev])
    | inl e => (Raised e, s, [ev])
    end.

(** A call of an SDK client method. *)
Definition sdk_call {A} (ev : Ev) (reply : Env → SdkError + A) : M A :=
  call ev (λ env, match reply env with
                  | inr a => inr a
                  | inl e => inl (sdk_exn e)
                  end).

(** The value of a helper that returns or raises without leaving the
    process. *)
Definition lift {A} (r : Exn + A) : M A :=
  match r with
  | inr a => ret a
  | inl e => raise e
  end.

(** Read of a local that may not have been assigned yet. *)
Definition local {A} (name : string) (v : option A) : M A :=
  match v with
  | Some a => ret a
  | None => raise (NameError name)
  end.

Definition when (b : bool) (m : M unit) : M unit :=
  if b then m else ret tt.

(** [for x in xs: body x] *)
Fixpoint for_each {A} (xs : list A) (body : A → M unit) : M unit :=
  match xs with
  | [] => ret tt
  | x :: xs' => bind (body x) (λ _, for_each xs' body)
  end.

(** [for x in xs: acc = body acc x], for loops that build a list *)
Fixpoint fold_m {A B} (xs : list A) (acc : B) (body : B → A → M B) : M B :=
  match xs with
  | [] => ret acc
  | x :: xs' => bind (body acc x) (λ acc', fold_m xs' acc' body)
  end.

Definition trace_of {A} (r : Outcome A * St * list Ev) : list Ev := r.2.
Definition outcome_of {A} (r : Outcome A * St * list Ev) : Outcome A := r.1.1.
Definition frame_of {A} (r : Outcome A * St * list Ev) : St := r.1.2.
End Exec.

Arguments M : clear implicits.

Global Instance M_ret {Env St Ev} : MRet (M Env St Ev) := λ A, ret.
Global Instance M_bind {Env St Ev} : MBind (M Env St Ev) := λ A B k m, bind m k.

(** A helper that returns [None] or raises. *)
Definition run_check {Env St Ev} (o : option Exn) : M Env St Ev unit :=
  match o with
  | None => ret tt
  | Some e => raise e
  end.

(** [self.fail(msg)].
    Modelled from the spec: the base class AzureRMModuleBase is not part of
    the sources; a fatal error aborts the whole invocation and is surfaced
    to the caller, no result is returned. *)
Definition fail {Env St Ev A} (msg : string) : M Env St Ev A :=
  raise (SystemExit msg).

(** A long-running operation handle: what waiting for it yields. *)
Definition Poller (A : Type) : Type := Exn + A.

(** [self.get_poller_result(poller)].
    Modelled from the spec: the poll-to-completion primitive of the base
    class blocks until the operation ends and returns its result or raises. *)
Definition get_poller_result {Env St Ev A} (p : Poller A) : M Env St Ev A :=
  lift p.

(** ** Properties of programs *)

(** Every call a program issues satisfies [P], whatever the provider
    answers and whatever frame the program starts from. *)
Definition emits_only {Env St Ev A} (P : Ev → Prop) (m : M Env St Ev A) : Prop :=
  ∀ env s, Forall P (trace_of (m env s)).

(** A program leaves the part [proj] of the frame as it found it. *)
Definition keeps {Env St Ev A X} (proj : St → X) (m : M Env St Ev A) : Prop :=
  ∀ env s, proj (frame_of (m env s)) = proj s.

(** ** azure_rm_resourcegroup.py *)
Module ResourceGroup.

(** The SDK's ResourceGroup model, as far as the module reads it
    ([rg.properties.provisioning_state] is flattened). *)
Record ResourceGroup := {
  rg_id : option string;
  rg_name : option string;
  rg_location : string;
  rg_tags : Tags;
  rg_provisioning_state : option string;
}.

Inductive State := present | absent.

Global Instance State_eq_dec : EqDecision State.
Proof. solve_decision. Defined.

(** The attributes set from [kwargs]; the method never reassigns them. *)
Record Self := {
  self_name : string;
  self_state : State;
  self_location : option string;
  self_tags : Tags;
  self_force : bool;
}.

(** The dict built by [resource_group_to_dict]. *)
Record RgDict := {
  d_id : option string;
  d_name : option string;
  d_location : string;
  d_tags : Tags;
  d_provisioning_state : option string;
}.

(** The value under [results]: [dict()], a resource dict, or ['Deleted']. *)
Inductive ResultDoc :=
| EmptyDict
| Dict (d : RgDict)
| Deleted.

(** The returned [self.results]. *)
Record Results := {
  r_changed : bool;
  r_check_mode : bool;
  r_results : ResultDoc;
}.

Inductive Event :=
| EvGet (name : string)
| EvCreateOrUpdate (name : string) (params : ResourceGroup)
| EvDelete (name : string).

Definition is_mutation (ev : Event) : bool :=
  match ev with
  | EvGet _ => false
  | EvCreateOrUpdate _ _ | EvDelete _ => true
  end.

(** The provider, and what the file uses of the SDK and of the base
    class without defining it. *)
Record Cloud := {
  resource_groups_get : string → SdkError + ResourceGroup;
  resource_groups_create_or_update : string → ResourceGroup → SdkError + ResourceGroup;
  resource_groups_delete : string → SdkError + Poller unit;
  (** [self.check_provisioning_state(rg)]: returns ([None]) or raises. *)
  check_provisioning_state : ResourceGroup → option Exn;
  (** whether an SDK model object supports [obj[key]] *)
  model_subscriptable : bool;
}.

(** The mutable part of the run: [self.results] (its [check_mode] entry,
    written once in [__init__] and never reassigned, is attached when the
    dict is returned) and the locals of [exec_module_impl]. *)
Record Frame := {
  self_results_changed : bool;
  self_results_results : ResultDoc;
  results : ResultDoc;
  changed : bool;
  rg : option ResourceGroup;
}.

Abbreviation Prog := (M Cloud Frame Event).

Definition set_self_results_changed (b : bool) : Prog unit :=
  modify (λ f, {| self_results_changed := b;
                  self_results_results := self_results_results f;
                  results := results f; changed := changed f; rg := rg f |}).

Definition set_self_results_results (r : ResultDoc) : Prog unit :=
  modify (λ f, {| self_results_changed := self_results_changed f;
                  self_results_results := r;
                  results := results f; changed := changed f; rg := rg f |}).

Definition set_results (r : ResultDoc) : Prog unit :=
  modify (λ f, {| self_results_changed := self_results_changed f;
                  self_results_results := self_results_results f;
                  results := r; changed := changed f; rg := rg f |}).

Definition set_changed (b : bool) : Prog unit :=
  modify (λ f, {| self_results_changed := self_results_changed f;
                  self_results_results := self_results_results f;
                  results := results f; changed := b; rg := rg f |}).

Definition set_rg (o : option ResourceGroup) : Prog unit :=
  modify (λ f, {| self_results_changed := self_results_changed f;
                  self_results_results := self_results_results f;
                  results := results f; changed := changed f; rg := o |}).

(** [__init__]: [self.results = dict(changed=False, check_mode=..., results=dict())] *)
Definition init : Frame :=
  {| self_results_changed := false;
     self_results_results := EmptyDict;
     results := EmptyDict; changed := false; rg := None |}.

Definition resource_group_to_dict (rg : ResourceGroup) : RgDict :=
  {| d_id := rg_id rg;
     d_name := rg_name rg;
     d_location := rg_location rg;
     d_tags := rg_tags rg;
     d_provisioning_state := rg_provisioning_state rg |}.

(** [results[key]] on the local [results]. *)
Definition results_item {A} (key : string) (proj : RgDict → A) : Prog A :=
  f ← get_frame;
  match results f with
  | Dict d => mret (proj d)
  | EmptyDict => raise (KeyError key)
  | Deleted => raise (TypeError "string indices must be integers, not str")
  end.

(** [results['tags'] = v] *)
Definition results_set_tags (v : Tags) : Prog unit :=
  f ← get_frame;
  match results f with
  | Dict d =>
      set_results (Dict {| d_id := d_id d; d_name := d_name d;
                           d_location := d_location d; d_tags := v;
                           d_provisioning_state := d_provisioning_state d |})
  | EmptyDict => raise (KeyError "tags")
  | Deleted => raise (TypeError "'str' object does not support item assignment")
  end.

(** [rg[key]] on the SDK object. *)
Definition rg_item {A} (proj : ResourceGroup → A) (rg : ResourceGroup) : Prog A :=
  c ← ask;
  if model_subscriptable c then mret (proj rg)
  else raise (TypeError "'ResourceGroup' object has no attribute '__getitem__'").

Definition create_or_update_resource_group (self : Self) (params : ResourceGroup) : Prog RgDict :=
  result ← try_except
    (sdk_call (EvCreateOrUpdate (self_name self) params)
              (λ c, resource_groups_create_or_update c (self_name self) params))
    is_Exception
    (λ exc, fail ("Error creating or updating resource group " +:+ self_name self
                  +:+ " - " +:+ exn_str exc));
  mret (resource_group_to_dict result).

Definition delete_resource_group (self : Self) : Prog bool :=
  poller ← try_except
    (sdk_call (EvDelete (self_name self)) (λ c, resource_groups_delete c (self_name self)))
    is_Exception
    (λ exc, fail ("Error delete resource group " +:+ self_name self
                  +:+ " - " +:+ exn_str exc));
  get_poller_result poller;;
  set_self_results_results Deleted;;
  mret true.

(** [exec_module_impl], up to the point where [self.results] holds the
    decision (source lines 179-209). *)
Definition decide (self : Self) : Prog unit :=
  set_results EmptyDict;;
  set_changed false;;
  set_rg None;;
  try_except
    (rg ← sdk_call (EvGet (self_name self)) (λ c, resource_groups_get c (self_name self));
     set_rg (Some rg);;
     c ← ask;
     run_check (check_provisioning_state c rg);;
     set_results (Dict (resource_group_to_dict rg));;
     match self_state self with
     | absent => set_changed true
     | present =>
         when (self_force self) (set_changed true);;
         t ← results_item "tags" d_tags;
         when (bool_decide (t ≠ self_tags self))
              (set_changed true;; results_set_tags (self_tags self));;
         l ← results_item "location" d_location;
         when (bool_decide (Some l ≠ self_location self))
              (fail ("Resource group '" +:+ self_name self
                     +:+ "' already exists in location '" +:+ py_str (self_location self)
                     +:+ "' and cannot be moved."))
     end)
    is_CloudError
    (λ _, when (bool_decide (self_state self = present)) (set_changed true));;
  f ← get_frame;
  set_self_results_changed (changed f);;
  set_self_results_results (results f).

(** [return self.results] *)
Definition return_results (check_mode : bool) : Prog Results :=
  f ← get_frame;
  mret {| r_changed := self_results_changed f;
          r_check_mode := check_mode;
          r_results := self_results_results f |}.

(** The rest of [exec_module_impl] (source lines 214-238). *)
Definition apply_plan (check_mode : bool) (self : Self) : Prog Results :=
  f ← get_frame;
  when (changed f)
    (when (bool_decide (self_state self = present) && self_force self)
          (delete_resource_group self;; set_rg None);;
     match self_state self with
     | present =>
         f ← get_frame;
         params ← match rg f with
                  | None =>
                      match self_location self with
                      | Some l =>
                          if truthy_str (Some l)
                          then mret {| rg_id := None; rg_name := None; rg_location := l;
                                       rg_tags := self_tags self;
                                       rg_provisioning_state := None |}
                          else fail "Parameter error: location is required when creating a resource group."
                      | None =>
                          fail "Parameter error: location is required when creating a resource group."
                      end
                  | Some rg =>
                      l ← rg_item rg_location rg;
                      t ← rg_item rg_tags rg;
                      mret {| rg_id := None; rg_name := None; rg_location := l;
                              rg_tags := t; rg_provisioning_state := None |}
                  end;
         d ← create_or_update_resource_group self params;
         set_self_results_results (Dict d)
     | absent => delete_resource_group self;; mret tt
     end);;
  return_results check_mode.

Definition exec_module_impl (check_mode : bool) (self : Self) : Prog Results :=
  decide self;;
  if check_mode then return_results check_mode
  else apply_plan check_mode self.

(** One invocation of the module against a provider. *)
Definition run (check_mode : bool) (self : Self) (c : Cloud) :=
  exec_module_impl check_mode self c init.

End ResourceGroup.

(** ** azure_rm_networkinterface.py *)
Module NetworkInterface.

(** *** SDK models, as far as the module reads or builds them *)

Record Subnet := {
  subnet_id : option string;
  subnet_name : option string;
}.

Record PublicIPAddress := {
  pip_id : option string;
  pip_name : option string;
  pip_location : option string;
  pip_resource_guid : option string;
}.

Record NetworkSecurityGroup := {
  nsg_id : option string;
  nsg_name : option string;
  nsg_location : option string;
  nsg_resource_guid : option string;
}.

(** [private_ip_allocation_method] is kept by its [.value]. *)
Record NetworkInterfaceIPConfiguration := {
  ipc_name : option string;
  ipc_private_ip_address : option string;
  ipc_private_ip_allocation_method : string;
  ipc_subnet : option Subnet;
  ipc_public_ip_address : option PublicIPAddress;
}.

Record DnsSettings := {
  dns_servers : list string;
  applied_dns_servers : list string;
  internal_dns_name_label : option string;
  internal_fqdn : option string;
}.

Record NetworkInterface := {
  nic_id : option string;
  nic_name : option string;
  nic_type : option string;
  nic_location : option string;
  nic_tags : Tags;
  nic_ip_configurations : list NetworkInterfaceIPConfiguration;
  nic_network_security_group : option NetworkSecurityGroup;
  nic_dns_settings : option DnsSettings;
  nic_mac_address : option string;
  nic_primary : option bool;
  nic_enable_ip_forwarding : option bool;
  nic_provisioning_state : option string;
  nic_etag : option string;
}.

(** What [self.get_resource_group] returns, as far as it is read. *)
Record ResourceGroupInfo := {
  resource_group_location : option string;
}.

Inductive State := present | absent.

Global Instance State_eq_dec : EqDecision State.
Proof. solve_decision. Defined.

(** The attributes set from [kwargs] that the method never reassigns
    ([self.location] is reassigned and lives in the frame). *)
Record Self := {
  self_resource_group : string;
  self_name : string;
  arg_location : option string;
  self_security_group_name : option string;
  self_state : State;
  self_private_ip_address : option string;
  self_private_ip_allocation_method : string;
  self_public_ip_address_name : option string;
  self_subnet_name : option string;
  self_virtual_network_name : option string;
  self_tags : Tags;
}.

(** *** The dict built by [nic_to_dict] *)

(** [{}] is [None]; [{id: .., name: ..}] is [Some]. *)
Record IdName := {
  in_id : option string;
  in_name : option string;
}.

Record IpConfigurationDict := {
  ic_name : option string;
  ic_private_ip_address : option string;
  ic_private_ip_allocation_method : string;
  (** the [subnet] dict: [{}] or [{'id': v}] *)
  ic_subnet : option (option string);
  ic_public_ip_address : option IdName;
  (** the keys [public_ip_address_id] and [public_ip_address_name],
      absent until the decision writes them *)
  ic_public_ip_address_id : option (option string);
  ic_public_ip_address_name : option (option string);
}.

Record NicDict := {
  d_id : option string;
  d_name : option string;
  d_type : option string;
  d_location : option string;
  d_tags : Tags;
  d_network_security_group : option IdName;
  d_ip_configuration : IpConfigurationDict;
  d_dns_settings : DnsSettings;
  d_mac_address : option string;
  d_primary : option bool;
  d_enable_ip_forwarding : option bool;
  d_provisioning_state : option string;
  d_etag : option string;
}.

Inductive ResultDoc :=
| EmptyDict
| Dict (d : NicDict)
| Deleted.

Record Results := {
  r_changed : bool;
  r_check_mode : bool;
  r_results : ResultDoc;
}.

Inductive Event :=
| EvGetResourceGroup (name : string)
| EvSubnetGet (resource_group : string) (virtual_network subnet : option string)
| EvPublicIpGet (resource_group : string) (name : option string)
| EvSecurityGroupGet (resource_group : string) (name : option string)
| EvNicGet (resource_group name : string)
| EvNicCreateOrUpdate (resource_group name : string) (nic : NetworkInterface)
| EvNicDelete (resource_group name : string).

Definition is_mutation (ev : Event) : bool :=
  match ev with
  | EvNicCreateOrUpdate _ _ _ | EvNicDelete _ _ => true
  | _ => false
  end.

(** The provider, and what the file uses of the SDK and of the base
    class without defining it. *)
Record Cloud := {
  (** [self.get_resource_group(name)] of the base class *)
  get_resource_group : string → Exn + ResourceGroupInfo;
  subnets_get : string → option string → option string → SdkError + Subnet;
  public_ip_addresses_get : string → option string → SdkError + PublicIPAddress;
  network_security_groups_get : string → option string → SdkError + NetworkSecurityGroup;
  network_interfaces_get : string → string → SdkError + NetworkInterface;
  network_interfaces_create_or_update :
    string → string → NetworkInterface → SdkError + Poller NetworkInterface;
  network_interfaces_delete : string → string → SdkError + Poller unit;
  (** [self.check_provisioning_state(nic)]: returns ([None]) or raises. *)
  check_provisioning_state : NetworkInterface → option Exn;
  (** [azure_id_to_dict(id)] of the common module *)
  azure_id_to_dict : option string → Exn + gmap string string;
  (** [Serializer().body(nic, 'NetworkInterface')], used for logging only:
      returns ([None]) or raises. *)
  serializer_body : NetworkInterface → option Exn;
}.

(** The mutable part of the run: [self.location], [self.results] and the
    locals of [exec_module_impl] ([None] for a local not assigned yet). *)
Record Frame := {
  self_location : option string;
  self_results_changed : bool;
  self_results_results : ResultDoc;
  results : ResultDoc;
  changed : bool;
  nic : option NetworkInterface;
  subnet : option Subnet;
  public_ip : option PublicIPAddress;
  nsg : option NetworkSecurityGroup;
}.

Abbreviation Prog := (M Cloud Frame Event).

Definition set_self_location (v : option string) : Prog unit :=
  modify (λ f, Build_Frame v (self_results_changed f) (self_results_results f)
                 (results f) (changed f) (nic f) (subnet f) (public_ip f) (nsg f)).
Definition set_self_results_changed (v : bool) : Prog unit :=
  modify (λ f, Build_Frame (self_location f) v (self_results_results f)
                 (results f) (changed f) (nic f) (subnet f) (public_ip f) (nsg f)).
Definition set_self_results_results (v : ResultDoc) : Prog unit :=
  modify (λ f, Build_Frame (self_location f) (self_results_changed f) v
                 (results f) (changed f) (nic f) (subnet f) (public_ip f) (nsg f)).
Definition set_results (v : ResultDoc) : Prog unit :=
  modify (λ f, Build_Frame (self_location f) (self_results_changed f) (self_results_results f)
                 v (changed f) (nic f) (subnet f) (public_ip f) (nsg f)).
Definition set_changed (v : bool) : Prog unit :=
  modify (λ f, Build_Frame (self_location f) (self_results_changed f) (self_results_results f)
                 (results f) v (nic f) (subnet f) (public_ip f) (nsg f)).
Definition set_nic (v : option NetworkInterface) : Prog unit :=
  modify (λ f, Build_Frame (self_location f) (self_results_changed f) (self_results_results f)
                 (results f) (changed f) v (subnet f) (public_ip f) (nsg f)).
Definition set_subnet (v : option Subnet) : Prog unit :=
  modify (λ f, Build_Frame (self_location f) (self_results_changed f) (self_results_results f)
                 (results f) (changed f) (nic f) v (public_ip f) (nsg f)).
Definition set_public_ip (v : option PublicIPAddress) : Prog unit :=
  modify (λ f, Build_Frame (self_location f) (self_results_changed f) (self_results_results f)
                 (results f) (changed f) (nic f) (subnet f) v (nsg f)).
Definition set_nsg (v : option NetworkSecurityGroup) : Prog unit :=
  modify (λ f, Build_Frame (self_location f) (self_results_changed f) (self_results_results f)
                 (results f) (changed f) (nic f) (subnet f) (public_ip f) v).

(** After [__init__] and the [setattr] loop. *)
Definition init (self : Self) : Frame :=
  {| self_location := arg_location self;
     self_results_changed := false;
     self_results_results := EmptyDict;
     results := EmptyDict; changed := false; nic := None;
     subnet := None; public_ip := None; nsg := None |}.

(** *** [NAME_PATTERN = re.compile(r"^[a-z][a-z0-9-]{1,61}[a-z0-9]$")] *)

Definition is_lower (a : ascii) : bool :=
  let n := nat_of_ascii a in (97 <=? n)%nat && (n <=? 122)%nat.
Definition is_digit (a : ascii) : bool :=
  let n := nat_of_ascii a in (48 <=? n)%nat && (n <=? 57)%nat.
Definition is_hyphen (a : ascii) : bool :=
  (nat_of_ascii a =? 45)%nat.

(** The pattern against the whole of [l]. *)
Definition pattern_full (l : list ascii) : bool :=
  match l with
  | [] => false
  | c :: rest =>
      is_lower c &&
      match reverse rest with
      | [] => false
      | z :: mid =>
          (is_lower z || is_digit z) &&
          (1 <=? length mid)%nat && (length mid <=? 61)%nat &&
          forallb (λ a, is_lower a || is_digit a || is_hyphen a) mid
      end
  end.

(** [NAME_PATTERN.match(s)]: [$] also matches before a final newline. *)
Definition NAME_PATTERN_match (s : string) : bool :=
  let l := list_ascii_of_string s in
  pattern_full l ||
  match reverse l with
  | nl :: r => (nat_of_ascii nl =? 10)%nat && pattern_full (reverse r)
  | [] => false
  end.

(** *** [nic_to_dict] *)
Definition nic_to_dict (id_to_dict : option string → Exn + gmap string string)
    (nic : NetworkInterface) : Exn + NicDict :=
  match nic_ip_configurations nic with
  | [] => inl (IndexError "list index out of range")
  | ipc0 :: _ =>
      match nic_dns_settings nic with
      | None => inl (AttributeError "'NoneType' object has no attribute 'dns_servers'")
      | Some dns =>
          let network_security_group :=
            match nic_network_security_group nic with
            | Some g => Some {| in_id := nsg_id g; in_name := nsg_name g |}
            | None => None
            end in
          (* both assignments write the key 'id'; the second one stays *)
          let subnet :=
            match ipc_subnet ipc0 with
            | Some sn => Some (subnet_name sn)
            | None => None
            end in
          let finish public_ip_address :=
            inr {| d_id := nic_id nic;
                   d_name := nic_name nic;
                   d_type := nic_type nic;
                   d_location := nic_location nic;
                   d_tags := nic_tags nic;
                   d_network_security_group := network_security_group;
                   d_ip_configuration :=
                     {| ic_name := ipc_name ipc0;
                        ic_private_ip_address := ipc_private_ip_address ipc0;
                        ic_private_ip_allocation_method :=
                          ipc_private_ip_allocation_method ipc0;
                        ic_subnet := subnet;
                        ic_public_ip_address := public_ip_address;
                        ic_public_ip_address_id := None;
                        ic_public_ip_address_name := None |};
                   d_dns_settings := dns;
                   d_mac_address := nic_mac_address nic;
                   d_primary := nic_primary nic;
                   d_enable_ip_forwarding := nic_enable_ip_forwarding nic;
                   d_provisioning_state := nic_provisioning_state nic;
                   d_etag := nic_etag nic |} in
          match ipc_public_ip_address ipc0 with
          | None => finish None
          | Some pip =>
              match id_to_dict (pip_id pip) with
              | inl e => inl e
              | inr id_keys =>
                  match id_keys !! "publicIPAddresses" with
                  | None => inl (KeyError "publicIPAddresses")
                  | Some n => finish (Some {| in_id := pip_id pip; in_name := Some n |})
                  end
              end
          end
      end
  end.

(** [results] read as a dict with the keys of [nic_to_dict]. *)
Definition results_dict : Prog NicDict :=
  f ← get_frame;
  match results f with
  | Dict d => mret d
  | EmptyDict => raise (KeyError "ip_configuration")
  | Deleted => raise (TypeError "string indices must be integers, not str")
  end.

Definition with_tags (v : Tags) (d : NicDict) : NicDict :=
  {| d_id := d_id d; d_name := d_name d; d_type := d_type d;
     d_location := d_location d; d_tags := v;
     d_network_security_group := d_network_security_group d;
     d_ip_configuration := d_ip_configuration d;
     d_dns_settings := d_dns_settings d; d_mac_address := d_mac_address d;
     d_primary := d_primary d; d_enable_ip_forwarding := d_enable_ip_forwarding d;
     d_provisioning_state := d_provisioning_state d; d_etag := d_etag d |}.

Definition with_ip_configuration (v : IpConfigurationDict) (d : NicDict) : NicDict :=
  {| d_id := d_id d; d_name := d_name d; d_type := d_type d;
     d_location := d_location d; d_tags := d_tags d;
     d_network_security_group := d_network_security_group d;
     d_ip_configuration := v;
     d_dns_settings := d_dns_settings d; d_mac_address := d_mac_address d;
     d_primary := d_primary d; d_enable_ip_forwarding := d_enable_ip_forwarding d;
     d_provisioning_state := d_provisioning_state d; d_etag := d_etag d |}.

Definition with_private_ip_address (v : option string) (c : IpConfigurationDict) :=
  {| ic_name := ic_name c; ic_private_ip_address := v;
     ic_private_ip_allocation_method := ic_private_ip_allocation_method c;
     ic_subnet := ic_subnet c; ic_public_ip_address := ic_public_ip_address c;
     ic_public_ip_address_id := ic_public_ip_address_id c;
     ic_public_ip_address_name := ic_public_ip_address_name c |}.

Definition with_private_ip_allocation_method (v : string) (c : IpConfigurationDict) :=
  {| ic_name := ic_name c; ic_private_ip_address := ic_private_ip_address c;
     ic_private_ip_allocation_method := v;
     ic_subnet := ic_subnet c; ic_public_ip_address := ic_public_ip_address c;
     ic_public_ip_address_id := ic_public_ip_address_id c;
     ic_public_ip_address_name := ic_public_ip_address_name c |}.

Definition with_public_ip_keys (i n : option string) (c : IpConfigurationDict) :=
  {| ic_name := ic_name c; ic_private_ip_address := ic_private_ip_address c;
     ic_private_ip_allocation_method := ic_private_ip_allocation_method c;
     ic_subnet := ic_subnet c; ic_public_ip_address := ic_public_ip_address c;
     ic_public_ip_address_id := Some i;
     ic_public_ip_address_name := Some n |}.

(** [d.get('id')] on an [{}] / [{id, name}] dict *)
Definition get_id (d : option IdName) : option string :=
  match d with
  | Some r => in_id r
  | None => None
  end.

(** *** The methods *)

Definition get_public_ip_address (self : Self) (name : option string) : Prog PublicIPAddress :=
  try_except
    (sdk_call (EvPublicIpGet (self_resource_group self) name)
              (λ c, public_ip_addresses_get c (self_resource_group self) name))
    is_CloudError
    (λ _, fail ("Parameter error: public ip address "
                +:+ py_str (self_public_ip_address_name self)
                +:+ " not found in resource group " +:+ self_resource_group self)).

Definition get_subnet (self : Self) : Prog Subnet :=
  try_except
    (sdk_call (EvSubnetGet (self_resource_group self) (self_virtual_network_name self)
                           (self_subnet_name self))
              (λ c, subnets_get c (self_resource_group self)
                                (self_virtual_network_name self) (self_subnet_name self)))
    is_CloudError
    (λ _, fail ("Parameter error: subnet " +:+ py_str (self_subnet_name self)
                +:+ " not found in virtual network "
                +:+ py_str (self_virtual_network_name self))).

Definition get_security_group (self : Self) (name : option string) : Prog NetworkSecurityGroup :=
  try_except
    (sdk_call (EvSecurityGroupGet (self_resource_group self) name)
              (λ c, network_security_groups_get c (self_resource_group self) name))
    is_CloudError
    (λ _, fail ("Parameter error: network security group "
                +:+ py_str (self_security_group_name self) +:+ " not found.")).

Definition create_or_update_nic (self : Self) (nic : NetworkInterface) : Prog NicDict :=
  poller ← try_except
    (sdk_call (EvNicCreateOrUpdate (self_resource_group self) (self_name self) nic)
              (λ c, network_interfaces_create_or_update c (self_resource_group self)
                                                        (self_name self) nic))
    is_Exception
    (λ exc, fail ("Error creating or updating network interface " +:+ self_name self
                  +:+ " - " +:+ exn_str exc));
  new_nic ← get_poller_result poller;
  c ← ask;
  lift (nic_to_dict (azure_id_to_dict c) new_nic).

Definition delete_nic (self : Self) : Prog bool :=
  poller ← try_except
    (sdk_call (EvNicDelete (self_resource_group self) (self_name self))
              (λ c, network_interfaces_delete c (self_resource_group self) (self_name self)))
    is_Exception
    (λ exc, fail ("Error deleting network interface " +:+ self_name self
                  +:+ " - " +:+ exn_str exc));
  get_poller_result poller;;
  set_self_results_results Deleted;;
  mret true.

(** The field-by-field comparison of an existing interface
    (source lines 349-387). *)
Definition diff_present (self : Self) : Prog unit :=
  when (truthy_tags (self_tags self))
    (d ← results_dict;
     when (bool_decide (d_tags d ≠ self_tags self))
       (set_changed true;;
        set_results (Dict (with_tags (self_tags self) d))));;
  when (truthy_str (self_private_ip_address self))
    (d ← results_dict;
     when (bool_decide (ic_private_ip_address (d_ip_configuration d)
                        ≠ self_private_ip_address self))
       (set_changed true;;
        set_results (Dict (with_ip_configuration
          (with_private_ip_address (self_private_ip_address self) (d_ip_configuration d))
          d))));;
  when (truthy_str (self_public_ip_address_name self))
    (d ← results_dict;
     f ← get_frame;
     public_ip ← local "public_ip" (public_ip f);
     when (bool_decide (get_id (ic_public_ip_address (d_ip_configuration d))
                        ≠ pip_id public_ip))
       (set_changed true;;
        set_results (Dict (with_ip_configuration
          (with_public_ip_keys (pip_id public_ip) (pip_name public_ip)
                               (d_ip_configuration d))
          d))));;
  d ← results_dict;
  when (bool_decide (ic_private_ip_allocation_method (d_ip_configuration d)
                     ≠ self_private_ip_allocation_method self))
    (set_changed true;;
     set_results (Dict (with_ip_configuration
       (with_private_ip_allocation_method (self_private_ip_allocation_method self)
                                          (d_ip_configuration d))
       d))).

(** [exec_module_impl], up to the point where [self.results] holds the
    decision (source lines 318-400). *)
Definition decide (self : Self) : Prog unit :=
  set_results EmptyDict;;
  set_changed false;;
  set_nic None;;
  resource_group ← call (EvGetResourceGroup (self_resource_group self))
                        (λ c, get_resource_group c (self_resource_group self));
  f ← get_frame;
  when (negb (truthy_str (self_location f)))
       (set_self_location (resource_group_location resource_group));;
  when (negb (NAME_PATTERN_match (self_name self)))
       (fail ("Parameter error: name must begin with a letter or number, end with a letter "
              +:+ "or number and contain at least one number."));;
  when (bool_decide (self_state self = present))
    (sn ← get_subnet self;
     set_subnet (Some sn);;
     when (truthy_str (self_public_ip_address_name self))
       (p ← get_public_ip_address self (self_public_ip_address_name self);
        set_public_ip (Some p));;
     when (truthy_str (self_security_group_name self))
       (g ← get_security_group self (self_security_group_name self);
        set_nsg (Some g)));;
  try_except
    (n ← sdk_call (EvNicGet (self_resource_group self) (self_name self))
                  (λ c, network_interfaces_get c (self_resource_group self) (self_name self));
     set_nic (Some n);;
     c ← ask;
     run_check (check_provisioning_state c n);;
     d ← lift (nic_to_dict (azure_id_to_dict c) n);
     set_results (Dict d);;
     match self_state self with
     | present => diff_present self
     | absent => set_changed true
     end)
    is_CloudError
    (λ _, when (bool_decide (self_state self = present)) (set_changed true));;
  f ← get_frame;
  set_self_results_changed (changed f);;
  set_self_results_results (results f).

(** [return self.results] *)
Definition return_results (check_mode : bool) : Prog Results :=
  f ← get_frame;
  mret {| r_changed := self_results_changed f;
          r_check_mode := check_mode;
          r_results := self_results_results f |}.

(** The interface built on the create path (source lines 411-435). *)
Definition build_new (self : Self) : Prog NetworkInterface :=
  f ← get_frame;
  sn ← local "subnet" (subnet f);
  g ← (if truthy_str (self_security_group_name self)
       then g ← local "nsg" (nsg f); mret (Some g)
       else mret None);
  p ← (if truthy_str (self_public_ip_address_name self)
       then p ← local "public_ip" (public_ip f); mret (Some p)
       else mret None);
  mret {| nic_id := None;
          nic_name := Some (self_name self);
          nic_type := None;
          nic_location := self_location f;
          nic_tags := self_tags self;
          nic_ip_configurations :=
            [ {| ipc_name := Some "default";
                 ipc_private_ip_address :=
                   if truthy_str (self_private_ip_address self)
                   then self_private_ip_address self else None;
                 ipc_private_ip_allocation_method := self_private_ip_allocation_method self;
                 ipc_subnet := Some {| subnet_id := subnet_id sn; subnet_name := None |};
                 ipc_public_ip_address := p |} ];
          nic_network_security_group := g;
          nic_dns_settings := None;
          nic_mac_address := None;
          nic_primary := None;
          nic_enable_ip_forwarding := None;
          nic_provisioning_state := None;
          nic_etag := None |}.

(** The interface built on the update path (source lines 438-466). *)
Definition build_update (self : Self) : Prog NetworkInterface :=
  d ← results_dict;
  f ← get_frame;
  sn ← local "subnet" (subnet f);
  p ← (if truthy_str (get_id (ic_public_ip_address (d_ip_configuration d)))
       then p ← get_public_ip_address self
                  (match ic_public_ip_address (d_ip_configuration d) with
                   | Some r => in_name r
                   | None => None
                   end);
            set_public_ip (Some p);;
            mret (Some p)
       else mret None);
  g ← (if truthy_str (get_id (d_network_security_group d))
       then g ← get_security_group self
                  (match d_network_security_group d with
                   | Some r => in_name r
                   | None => None
                   end);
            set_nsg (Some g);;
            mret (Some g)
       else mret None);
  mret {| nic_id := None;
          nic_name := d_name d;
          nic_type := None;
          nic_location := d_location d;
          nic_tags := d_tags d;
          nic_ip_configurations :=
            [ {| ipc_name := ic_name (d_ip_configuration d);
                 ipc_private_ip_address :=
                   if truthy_str (ic_private_ip_address (d_ip_configuration d))
                   then ic_private_ip_address (d_ip_configuration d) else None;
                 ipc_private_ip_allocation_method :=
                   ic_private_ip_allocation_method (d_ip_configuration d);
                 ipc_subnet := Some {| subnet_id := subnet_id sn; subnet_name := None |};
                 ipc_public_ip_address := p |} ];
          nic_network_security_group := g;
          nic_dns_settings := None;
          nic_mac_address := None;
          nic_primary := None;
          nic_enable_ip_forwarding := None;
          nic_provisioning_state := None;
          nic_etag := None |}.

(** The rest of [exec_module_impl] (source lines 405-479). *)
Definition apply_plan (check_mode : bool) (self : Self) : Prog Results :=
  f ← get_frame;
  when (changed f)
    (match self_state self with
     | present =>
         n ← match nic f with
             | None => build_new self
             | Some _ => build_update self
             end;
         set_nic (Some n);;
         c ← ask;
         run_check (serializer_body c n);;
         d ← create_or_update_nic self n;
         set_self_results_results (Dict d)
     | absent => delete_nic self;; mret tt
     end);;
  return_results check_mode.

Definition exec_module_impl (check_mode : bool) (self : Self) : Prog Results :=
  decide self;;
  if check_mode then return_results check_mode
  else apply_plan check_mode self.

(** One invocation of the module against a provider. *)
Definition run (check_mode : bool) (self : Self) (c : Cloud) :=
  exec_module_impl check_mode self c (init self).

End NetworkInterface.

(** ** azure_rm_virtualmachine.py *)
Module VirtualMachine.

(** *** SDK models, as far as the module reads or builds them *)

Record NetworkInterfaceReference := {
  ref_id : option string;
}.

Record PublicIPAddress := {
  pip_id : option string;
}.

Record NetworkInterfaceIPConfiguration := {
  ipc_public_ip_address : option PublicIPAddress;
}.

Record NetworkInterface := {
  nic_id : option string;
  nic_ip_configurations : list NetworkInterfaceIPConfiguration;
}.

Record VirtualHardDisk := {
  uri : string;
}.

(** [OSDisk(name, vhd, create_option, caching=...)]; the module reads the
    disk back as [os_disk.virtual_hard_disk]. *)
Record OSDisk := {
  osdisk_name : option string;
  virtual_hard_disk : VirtualHardDisk;
  create_option : string;
  caching : option string;
}.

Record ImageReference := {
  publisher : option string;
  offer : option string;
  sku : option string;
  version : option string;
}.

Record StorageProfile := {
  os_disk : OSDisk;
  image_reference : option ImageReference;
}.

Record OSProfile := {
  admin_username : option string;
  admin_password : option string;
  computer_name : option string;
}.

Record HardwareProfile := {
  hw_vm_size : string;
}.

Record NetworkProfile := {
  network_interfaces : list NetworkInterfaceReference;
}.

Record VirtualMachine := {
  vm_location : option string;
  vm_name : option string;
  vm_tags : Tags;
  os_profile : option OSProfile;
  hardware_profile : HardwareProfile;
  storage_profile : StorageProfile;
  network_profile : NetworkProfile;
}.

Record VirtualMachineSize := {
  size_name : string;
}.

Record VirtualMachineImageResource := {
  image_name : string;
}.

Record ResourceGroupInfo := {
  resource_group_location : option string;
}.

Inductive State := stopped | started | absent.

Global Instance State_eq_dec : EqDecision State.
Proof. solve_decision. Defined.

(** The attributes set from [kwargs] that no method reassigns
    ([self.location], [self.storage_blob_name] and [self.image_version]
    are reassigned and live in the frame). *)
Record Self := {
  self_resource_group : string;
  self_name : string;
  self_state : State;
  arg_location : option string;
  self_short_hostname : option string;
  self_vm_size : string;
  self_force : bool;
  self_admin_username : option string;
  self_admin_password : option string;
  self_ssh_password : bool;
  self_ssh_public_key : option string;
  self_image_publisher : option string;
  self_image_offer : option string;
  self_image_sku : option string;
  arg_image_version : option string;
  self_storage_account_name : option string;
  self_storage_container_name : option string;
  arg_storage_blob_name : option string;
  self_os_disk_caching : option string;
  self_os_type : string;
  self_network_interface_names : option (list string);
  self_delete_network_interfaces : bool;
  self_delete_virtual_storage : bool;
  self_delete_public_ips : bool;
  self_tags : Tags;
}.

(** The value under [results]: [dict()] or a serialized machine. *)
Inductive ResultDoc :=
| EmptyDict
| Serialized (vm : VirtualMachine).

Record Results := {
  r_changed : bool;
  r_check_mode : bool;
  r_results : ResultDoc;
  r_deleted_vhd_uris : option (list string);
  r_deleted_network_interfaces : option (list string);
  r_deleted_public_ips : option (list string);
}.

Inductive Event :=
| EvGetResourceGroup (name : string)
| EvSizesList (location : option string)
| EvNicGet (resource_group name : string)
| EvImagesList (location publisher offer sku : option string)
| EvStorageAccountGet (resource_group : string) (name : option string)
| EvVmGet (resource_group name : string)
| EvVmCreateOrUpdate (resource_group name : string) (params : VirtualMachine)
| EvVmDelete (resource_group name : string)
| EvGetBlobClient (resource_group account : string)
| EvBlobDelete (account container blob : string)
| EvNicDelete (resource_group name : string)
| EvPublicIpDelete (resource_group name : string).

Definition is_mutation (ev : Event) : bool :=
  match ev with
  | EvVmCreateOrUpdate _ _ _ | EvVmDelete _ _ | EvBlobDelete _ _ _
  | EvNicDelete _ _ | EvPublicIpDelete _ _ => true
  | _ => false
  end.

(** The argument of [azure_id_to_dict]: the module passes it a network
    interface reference in one place and an id in another. *)
Inductive IdArg :=
| ArgRef (r : NetworkInterfaceReference)
| ArgId (i : option string).

(** The provider, and what the file uses of the SDK, of the base class
    and of the modules it star-imports without defining it. *)
Record Cloud := {
  (** [self.get_resource_group(name)] of the base class *)
  get_resource_group : string → Exn + ResourceGroupInfo;
  virtual_machine_sizes_list : option string → SdkError + list VirtualMachineSize;
  network_interfaces_get : string → string → SdkError + NetworkInterface;
  virtual_machine_images_list :
    option string → option string → option string → option string →
    SdkError + list VirtualMachineImageResource;
  storage_accounts_get_properties : string → option string → SdkError + unit;
  virtual_machines_get : string → string → SdkError + VirtualMachine;
  virtual_machines_create_or_update :
    string → string → VirtualMachine → SdkError + Poller VirtualMachine;
  virtual_machines_delete : string → string → SdkError + unit;
  network_interfaces_delete : string → string → SdkError + Poller unit;
  public_ip_addresses_delete : string → string → SdkError + Poller unit;
  (** [self.get_blob_client(resource_group, account)] of the base class *)
  get_blob_client : string → string → Exn + unit;
  blob_client_delete_blob : string → string → string → SdkError + unit;
  (** [self.check_provisioning_state(vm)]: returns ([None]) or raises. *)
  check_provisioning_state : VirtualMachine → option Exn;
  (** [self.serialize_obj(vm, 'VirtualMachine')]: returns the serialized
      machine ([None]) or raises. *)
  serialize_obj : VirtualMachine → option Exn;
  (** [azure_id_to_dict(id)] of the common module *)
  azure_id_to_dict : IdArg → Exn + gmap string string;
  (** What the module-level name [vm] is bound to.  The file binds no
      such name; [None] unless one of the star-imported modules does. *)
  global_vm : option VirtualMachine;
}.

(** The mutable part of the run: the reassigned attributes,
    [self.results] and the locals of [exec_module_impl]. *)
Record Frame := {
  self_location : option string;
  self_storage_blob_name : option string;
  self_image_version : option string;
  self_results_changed : bool;
  self_results_results : ResultDoc;
  self_results_deleted_vhd_uris : option (list string);
  self_results_deleted_network_interfaces : option (list string);
  self_results_deleted_public_ips : option (list string);
  changed : bool;
  results : ResultDoc;
  vm : option VirtualMachine;
  local_network_interfaces : list NetworkInterfaceReference;
}.

Abbreviation Prog := (M Cloud Frame Event).

Definition set_self_location (v : option string) : Prog unit :=
  modify (λ f, Build_Frame v (self_storage_blob_name f) (self_image_version f)
    (self_results_changed f) (self_results_results f) (self_results_deleted_vhd_uris f)
    (self_results_deleted_network_interfaces f) (self_results_deleted_public_ips f)
    (changed f) (results f) (vm f) (local_network_interfaces f)).
Definition set_self_storage_blob_name (v : option string) : Prog unit :=
  modify (λ f, Build_Frame (self_location f) v (self_image_version f)
    (self_results_changed f) (self_results_results f) (self_results_deleted_vhd_uris f)
    (self_results_deleted_network_interfaces f) (self_results_deleted_public_ips f)
    (changed f) (results f) (vm f) (local_network_interfaces f)).
Definition set_self_image_version (v : option string) : Prog unit :=
  modify (λ f, Build_Frame (self_location f) (self_storage_blob_name f) v
    (self_results_changed f) (self_results_results f) (self_results_deleted_vhd_uris f)
    (self_results_deleted_network_interfaces f) (self_results_deleted_public_ips f)
    (changed f) (results f) (vm f) (local_network_interfaces f)).
Definition set_self_results_changed (v : bool) : Prog unit :=
  modify (λ f, Build_Frame (self_location f) (self_storage_blob_name f) (self_image_version f)
    v (self_results_results f) (self_results_deleted_vhd_uris f)
    (self_results_deleted_network_interfaces f) (self_results_deleted_public_ips f)
    (changed f) (results f) (vm f) (local_network_interfaces f)).
Definition set_self_results_results (v : ResultDoc) : Prog unit :=
  modify (λ f, Build_Frame (self_location f) (self_storage_blob_name f) (self_image_version f)
    (self_results_changed f) v (self_results_deleted_vhd_uris f)
    (self_results_deleted_network_interfaces f) (self_results_deleted_public_ips f)
    (changed f) (results f) (vm f) (local_network_interfaces f)).
Definition set_self_results_deleted_vhd_uris (v : list string) : Prog unit :=
  modify (λ f, Build_Frame (self_location f) (self_storage_blob_name f) (self_image_version f)
    (self_results_changed f) (self_results_results f) (Some v)
    (self_results_deleted_network_interfaces f) (self_results_deleted_public_ips f)
    (changed f) (results f) (vm f) (local_network_interfaces f)).
Definition set_self_results_deleted_network_interfaces (v : list string) : Prog unit :=
  modify (λ f, Build_Frame (self_location f) (self_storage_blob_name f) (self_image_version f)
    (self_results_changed f) (self_results_results f) (self_results_deleted_vhd_uris f)
    (Some v) (self_results_deleted_public_ips f)
    (changed f) (results f) (vm f) (local_network_interfaces f)).
Definition set_self_results_deleted_public_ips (v : list string) : Prog unit :=
  modify (λ f, Build_Frame (self_location f) (self_storage_blob_name f) (self_image_version f)
    (self_results_changed f) (self_results_results f) (self_results_deleted_vhd_uris f)
    (self_results_deleted_network_interfaces f) (Some v)
    (changed f) (results f) (vm f) (local_network_interfaces f)).
Definition set_changed (v : bool) : Prog unit :=
  modify (λ f, Build_Frame (self_location f) (self_storage_blob_name f) (self_image_version f)
    (self_results_changed f) (self_results_results f) (self_results_deleted_vhd_uris f)
    (self_results_deleted_network_interfaces f) (self_results_deleted_public_ips f)
    v (results f) (vm f) (local_network_interfaces f)).
Definition set_results (v : ResultDoc) : Prog unit :=
  modify (λ f, Build_Frame (self_location f) (self_storage_blob_name f) (self_image_version f)
    (self_results_changed f) (self_results_results f) (self_results_deleted_vhd_uris f)
    (self_results_deleted_network_interfaces f) (self_results_deleted_public_ips f)
    (changed f) v (vm f) (local_network_interfaces f)).
Definition set_vm (v : option VirtualMachine) : Prog unit :=
  modify (λ f, Build_Frame (self_location f) (self_storage_blob_name f) (self_image_version f)
    (self_results_changed f) (self_results_results f) (self_results_deleted_vhd_uris f)
    (self_results_deleted_network_interfaces f) (self_results_deleted_public_ips f)
    (changed f) (results f) v (local_network_interfaces f)).
Definition set_network_interfaces (v : list NetworkInterfaceReference) : Prog unit :=
  modify (λ f, Build_Frame (self_location f) (self_storage_blob_name f) (self_image_version f)
    (self_results_changed f) (self_results_results f) (self_results_deleted_vhd_uris f)
    (self_results_deleted_network_interfaces f) (self_results_deleted_public_ips f)
    (changed f) (results f) (vm f) v).

(** After [__init__] and the [setattr] loop. *)
Definition init (self : Self) : Frame :=
  {| self_location := arg_location self;
     self_storage_blob_name := arg_storage_blob_name self;
     self_image_version := arg_image_version self;
     self_results_changed := false;
     self_results_results := EmptyDict;
     self_results_deleted_vhd_uris := None;
     self_results_deleted_network_interfaces := None;
     self_results_deleted_public_ips := None;
     changed := false; results := EmptyDict; vm := None;
     local_network_interfaces := [] |}.

(** *** [extract_names_from_blob_uri(self, blob_uri)] *)

Record BlobNames := {
  accountname : string;
  containername : string;
  blobname : string;
}.

Fixpoint strip_prefix (p l : list ascii) : option (list ascii) :=
  match p, l with
  | [], _ => Some l
  | a :: p', b :: l' => if Ascii.eqb a b then strip_prefix p' l' else None
  | _ :: _, [] => None
  end.

(** The longest prefix without [stop], and the rest. *)
Fixpoint span_until (stop : ascii) (l : list ascii) : list ascii * list ascii :=
  match l with
  | [] => ([], [])
  | a :: l' =>
      if Ascii.eqb a stop then ([], l)
      else let '(x, y) := span_until stop l' in (a :: x, y)
  end.

Definition newline : ascii := ascii_of_nat 10.

(** The regular expression
    [^https://([^\.]+)\.blob\.core\.windows\.net/([^/]+)/(.+)$]. *)
Definition blob_uri_match (blob_uri : string) : option BlobNames :=
  l ← strip_prefix (list_ascii_of_string "https://") (list_ascii_of_string blob_uri);
  let '(account, l) := span_until "."%char l in
  l ← strip_prefix (list_ascii_of_string ".blob.core.windows.net/") l;
  let '(container, l) := span_until "/"%char l in
  l ← strip_prefix ["/"%char] l;
  let '(blob, l) := span_until newline l in
  if bool_decide (account ≠ [] ∧ container ≠ [] ∧ blob ≠ [] ∧ (l = [] ∨ l = [newline]))
  then Some {| accountname := string_of_list_ascii account;
               containername := string_of_list_ascii container;
               blobname := string_of_list_ascii blob |}
  else None.

Definition extract_names_from_blob_uri {T} (self : T) (blob_uri : string) : Exn + BlobNames :=
  match blob_uri_match blob_uri with
  | None => inl (Exception ("unable to parse blob uri '" +:+ blob_uri +:+ "'"))
  | Some extracted_names => inr extracted_names
  end.

(** A call of that two-parameter function with the positional arguments
    [args]. *)
Definition call_extract_names_from_blob_uri (args : list string) : Exn + BlobNames :=
  match args with
  | [a; b] => extract_names_from_blob_uri a b
  | _ => inl (TypeError "extract_names_from_blob_uri() takes exactly 2 arguments")
  end.

(** *** Attribute lookup on the module object *)

(** What an attribute of the object can hold here: a flag set from
    [kwargs], or a method of the class. *)
Inductive Attr :=
| AttrBool (b : bool)
| AttrMethod (m : list string → Prog unit).

(** [self.<name>]: an entry of the instance's [__dict__] comes before a
    function of the class of the same name. *)
Definition getattr (instance_dict : option Attr) (class_dict : option Attr) : option Attr :=
  match instance_dict with
  | Some v => Some v
  | None => class_dict
  end.

(** [if a:] *)
Definition attr_truth (a : option Attr) : bool :=
  match a with
  | Some (AttrBool b) => b
  | Some (AttrMethod _) => true
  | None => false
  end.

(** [a(args)] *)
Definition attr_call (a : option Attr) (args : list string) : Prog unit :=
  match a with
  | Some (AttrMethod m) => m args
  | Some (AttrBool _) => raise (TypeError "'bool' object is not callable")
  | None => raise (AttributeError "delete_virtual_storage")
  end.

(** A read of the module-level name [vm]. *)
Definition global_name_vm : Prog VirtualMachine :=
  c ← ask;
  match global_vm c with
  | Some v => mret v
  | None => raise (NameError "vm")
  end.

(** [d[key]] *)
Definition item (d : gmap string string) (key : string) : Prog string :=
  match d !! key with
  | Some v => mret v
  | None => raise (KeyError key)
  end.

(** *** The methods *)

Definition get_network_interface (self : Self) (name : string) : Prog NetworkInterface :=
  try_except
    (sdk_call (EvNicGet (self_resource_group self) name)
              (λ c, network_interfaces_get c (self_resource_group self) name))
    is_Exception
    (λ exc, fail ("Error fetching network interface " +:+ name +:+ " - " +:+ exn_str exc)).

Definition delete_nic (self : Self) (name : string) : Prog bool :=
  poller ← try_except
    (sdk_call (EvNicDelete (self_resource_group self) name)
              (λ c, network_interfaces_delete c (self_resource_group self) name))
    is_Exception
    (λ exc, fail ("Error deleting network interface " +:+ name +:+ " - " +:+ exn_str exc));
  get_poller_result poller;;
  mret true.

Definition delete_pip (self : Self) (name : string) : Prog bool :=
  poller ← try_except
    (sdk_call (EvPublicIpDelete (self_resource_group self) name)
              (λ c, public_ip_addresses_delete c (self_resource_group self) name))
    is_Exception
    (λ exc, fail ("Error deleting " +:+ name +:+ " - " +:+ exn_str exc));
  get_poller_result poller;;
  mret true.

(** The method [delete_virtual_storage(self, vhd_uris)] of the class. *)
Definition delete_virtual_storage (self : Self) (vhd_uris : list string) : Prog unit :=
  for_each vhd_uris (λ uri,
    blob_parts ← lift (call_extract_names_from_blob_uri [uri]);
    let storage_account_name := accountname blob_parts in
    let container_name := containername blob_parts in
    let blob_name := blobname blob_parts in
    call (EvGetBlobClient (self_resource_group self) storage_account_name)
         (λ c, get_blob_client c (self_resource_group self) storage_account_name);;
    try_except
      (sdk_call (EvBlobDelete storage_account_name container_name blob_name)
                (λ c, blob_client_delete_blob c storage_account_name container_name blob_name))
      is_Exception
      (λ exc, fail ("Error deleting blob " +:+ container_name +:+ ":" +:+ blob_name
                    +:+ " - " +:+ exn_str exc))).

(** [self.delete_virtual_storage]: [__init__] and the [setattr] loop store
    the flag of that name in the instance, the class defines the method. *)
Definition self_attr_delete_virtual_storage (self : Self) : option Attr :=
  getattr (Some (AttrBool (self_delete_virtual_storage self)))
          (Some (AttrMethod (delete_virtual_storage self))).

(** [delete_vm], first part: what is stored before the machine is deleted
    (source lines 357-387).  Returns [(vhd_uris, nic_names, pip_names)]. *)
Definition delete_vm_capture (self : Self) : Prog (list string * list string * list string) :=
  vhd_uris ←
    (if attr_truth (self_attr_delete_virtual_storage self)
     then v ← global_name_vm;
          let vhd_uris := [] ++ [uri (virtual_hard_disk (os_disk (storage_profile v)))] in
          set_self_results_deleted_vhd_uris vhd_uris;;
          mret vhd_uris
     else mret []);
  '(nic_names, pip_names) ←
    (if self_delete_network_interfaces self
     then v ← global_name_vm;
          c ← ask;
          nic_names ← fold_m (network_interfaces (network_profile v)) []
            (λ nic_names interface_id,
               id_dict ← lift (azure_id_to_dict c (ArgRef interface_id));
               n ← item id_dict "networkInterfaces";
               mret (nic_names ++ [n]));
          set_self_results_deleted_network_interfaces nic_names;;
          pip_names ←
            (if self_delete_public_ips self
             then pip_names ← fold_m nic_names []
                    (λ pip_names name,
                       nic ← get_network_interface self name;
                       fold_m (nic_ip_configurations nic) pip_names
                         (λ pip_names ipc,
                            match ipc_public_ip_address ipc with
                            | Some pip =>
                                pip_dict ← lift (azure_id_to_dict c (ArgId (pip_id pip)));
                                n ← item pip_dict "publicIPAddresses";
                                mret (pip_names ++ [n])
                            | None => mret pip_names
                            end));
                  set_self_results_deleted_public_ips pip_names;;
                  mret pip_names
             else mret []);
          mret (nic_names, pip_names)
     else mret ([], []));
  mret (vhd_uris, nic_names, pip_names).

(** [delete_vm], last part: the linked resources (source lines 396-408). *)
Definition delete_vm_cleanup (self : Self) (vhd_uris nic_names pip_names : list string)
    : Prog unit :=
  when (attr_truth (self_attr_delete_virtual_storage self))
       (attr_call (self_attr_delete_virtual_storage self) vhd_uris);;
  when (self_delete_network_interfaces self)
       (for_each nic_names (λ name, delete_nic self name;; mret tt));;
  when (self_delete_public_ips self)
       (for_each pip_names (λ name, delete_pip self name;; mret tt)).

Definition delete_vm (self : Self) : Prog bool :=
  '(vhd_uris, nic_names, pip_names) ← delete_vm_capture self;
  try_except
    (sdk_call (EvVmDelete (self_resource_group self) (self_name self))
              (λ c, virtual_machines_delete c (self_resource_group self) (self_name self)))
    is_Exception
    (λ exc, fail ("Error deleting virtual machine " +:+ self_name self
                  +:+ " - " +:+ exn_str exc));;
  delete_vm_cleanup self vhd_uris nic_names pip_names;;
  mret true.

(** *** The cascade as a plan *)

(** The deletions of linked resources that [delete_vm] has in store once
    the names are captured, in the order of the source: interfaces, then
    public addresses. *)
Definition cascade_plan (self : Self) (nic_names pip_names : list string) : list Event :=
  (if self_delete_network_interfaces self
   then map (EvNicDelete (self_resource_group self)) nic_names else [])
  ++ (if self_delete_public_ips self
      then map (EvPublicIpDelete (self_resource_group self)) pip_names else []).

(** Whether the provider carries out a deletion: the call is accepted and
    the wait for its completion returns. *)
Definition deletion_succeeds (c : Cloud) (ev : Event) : bool :=
  match ev with
  | EvNicDelete rg n =>
      match network_interfaces_delete c rg n with
      | inr (inr _) => true
      | _ => false
      end
  | EvPublicIpDelete rg n =>
      match public_ip_addresses_delete c rg n with
      | inr (inr _) => true
      | _ => false
      end
  | _ => true
  end.

(** The calls of a plan that are issued when the run stops at the first
    deletion that fails. *)
Fixpoint until_first_failure (c : Cloud) (plan : list Event) : list Event :=
  match plan with
  | [] => []
  | ev :: rest =>
      if deletion_succeeds c ev then ev :: until_first_failure c rest else [ev]
  end.

(** The calls that capture what to delete: reads of interfaces. *)
Definition is_capture (ev : Event) : bool :=
  match ev with
  | EvNicGet _ _ => true
  | _ => false
  end.


(** The calls of the blob clean-up. *)
Definition is_blob_call (ev : Event) : bool :=
  match ev with
  | EvGetBlobClient _ _ | EvBlobDelete _ _ _ => true
  | _ => false
  end.

Definition get_image_version (self : Self) : Prog (option VirtualMachineImageResource) :=
  f ← get_frame;
  versions ← try_except
    (sdk_call (EvImagesList (self_location f) (self_image_publisher self)
                            (self_image_offer self) (self_image_sku self))
              (λ c, virtual_machine_images_list c (self_location f)
                      (self_image_publisher self) (self_image_offer self)
                      (self_image_sku self)))
    is_Exception
    (* the message has the field {4} and four arguments: format() raises *)
    (λ exc, raise (IndexError "tuple index out of range"));
  if bool_decide (versions ≠ []) && (0 <? length versions)%nat
  then
    if bool_decide (self_image_version f = Some "latest")
    then mret (versions !! (length versions - 1)%nat)
    else mret (find (λ version, bool_decide (Some (image_name version) = self_image_version f))
                    versions)
  else mret None.

Definition get_storage_account (self : Self) : Prog unit :=
  try_except
    (sdk_call (EvStorageAccountGet (self_resource_group self) (self_storage_account_name self))
              (λ c, storage_accounts_get_properties c (self_resource_group self)
                      (self_storage_account_name self)))
    is_Exception
    (λ exc, fail ("Error fetching storage account "
                  +:+ py_str (self_storage_account_name self) +:+ " - " +:+ exn_str exc)).

Definition create_vm (self : Self) (params : VirtualMachine) : Prog ResultDoc :=
  poller ← try_except
    (sdk_call (EvVmCreateOrUpdate (self_resource_group self) (self_name self) params)
              (λ c, virtual_machines_create_or_update c (self_resource_group self)
                      (self_name self) params))
    is_Exception
    (λ exc, fail ("Error creating or updating virtual machine " +:+ self_name self
                  +:+ " - " +:+ exn_str exc));
  v ← get_poller_result poller;
  c ← ask;
  run_check (serialize_obj c v);;
  mret (Serialized v).

(** Validate [self.vm_size] against the sizes available for the location. *)
Definition vm_size_is_valid (self : Self) : Prog bool :=
  f ← get_frame;
  sizes ← try_except
    (sdk_call (EvSizesList (self_location f))
              (λ c, virtual_machine_sizes_list c (self_location f)))
    is_Exception
    (λ exc, fail ("Error retrieving available machine sizes - " +:+ exn_str exc));
  mret (existsb (λ size, bool_decide (size_name size = self_vm_size self)) sizes).

(** [for name in self.network_interface_names] *)
Definition iter_names (l : option (list string)) : Prog (list string) :=
  match l with
  | Some l => mret l
  | None => raise (TypeError "'NoneType' object is not iterable")
  end.

(** The block under [if self.state == 'started'] that verifies the
    parameters and resolves the defaults (source lines 212-233). *)
Definition verify_parameters (self : Self) : Prog unit :=
  vm_size_is_valid self;;
  names ← iter_names (self_network_interface_names self);
  for_each names (λ name,
    nic ← get_network_interface self name;
    f ← get_frame;
    set_network_interfaces (local_network_interfaces f ++ [ {| ref_id := nic_id nic |} ]));;
  f ← get_frame;
  when (negb (truthy_str (self_storage_blob_name f)))
       (set_self_storage_blob_name (Some (self_name self +:+ ".vsd")));;
  image_version ← get_image_version self;
  f ← get_frame;
  match image_version with
  | None =>
      fail ("Error could not find image " +:+ py_str (self_image_publisher self) +:+ " "
            +:+ py_str (self_image_offer self) +:+ " " +:+ py_str (self_image_sku self)
            +:+ " " +:+ py_str (self_image_version f))
  | Some v =>
      when (bool_decide (self_image_version f = Some "latest"))
           (set_self_image_version (Some (image_name v)))
  end;;
  get_storage_account self.

(** [exec_module_impl] before the machine is fetched: the locals, the
    default location and the verified parameters (source lines 202-233). *)
Definition preamble (self : Self) : Prog unit :=
  set_changed false;;
  set_results EmptyDict;;
  set_vm None;;
  set_network_interfaces [];;
  resource_group ← call (EvGetResourceGroup (self_resource_group self))
                        (λ c, get_resource_group c (self_resource_group self));
  f ← get_frame;
  when (negb (truthy_str (self_location f)))
       (set_self_location (resource_group_location resource_group));;
  when (bool_decide (self_state self = started)) (verify_parameters self).

(** The fetch of the machine and the decision (source lines 235-259). *)
Definition fetch (self : Self) : Prog unit :=
  try_except
    (v ← sdk_call (EvVmGet (self_resource_group self) (self_name self))
                  (λ c, virtual_machines_get c (self_resource_group self) (self_name self));
     set_vm (Some v);;
     c ← ask;
     run_check (check_provisioning_state c v);;
     run_check (serialize_obj c v);;
     if bool_decide (self_state self = started) && self_force self
     then set_changed true
     else match self_state self with
          | started => mret tt  (* the source leaves the comparison as a TODO *)
          | stopped => mret tt
          | absent => set_changed true
          end)
    is_CloudError
    (λ _, when (bool_decide (self_state self = started)) (set_changed true)).

(** [exec_module_impl], up to the point where [self.results] holds the
    decision (source lines 202-262). *)
Definition decide (self : Self) : Prog unit :=
  preamble self;;
  fetch self;;
  f ← get_frame;
  set_self_results_changed (changed f);;
  set_self_results_results (results f).

(** [return self.results] *)
Definition return_results (check_mode : bool) : Prog Results :=
  f ← get_frame;
  mret {| r_changed := self_results_changed f;
          r_check_mode := check_mode;
          r_results := self_results_results f;
          r_deleted_vhd_uris := self_results_deleted_vhd_uris f;
          r_deleted_network_interfaces := self_results_deleted_network_interfaces f;
          r_deleted_public_ips := self_results_deleted_public_ips f |}.

(** The machine submitted on the create path (source lines 289-329). *)
Definition vm_resource (self : Self) (f : Frame) : VirtualMachine :=
  let vhd := {| uri := "https://" +:+ py_str (self_storage_account_name self)
                       +:+ ".blob.core.windows.net/"
                       +:+ py_str (self_storage_container_name self)
                       +:+ "/" +:+ py_str (self_storage_blob_name f) +:+ ".vhd" |} in
  {| vm_location := self_location f;
     vm_name := Some (self_name self);
     vm_tags := self_tags self;
     os_profile := Some {| admin_username := self_admin_username self;
                           admin_password := self_admin_password self;
                           computer_name := self_short_hostname self |};
     hardware_profile := {| hw_vm_size := self_vm_size self |};
     storage_profile :=
       {| os_disk := {| osdisk_name := self_storage_blob_name f;
                        virtual_hard_disk := vhd;
                        create_option := "fromImage";
                        caching := self_os_disk_caching self |};
          image_reference := Some {| publisher := self_image_publisher self;
                                     offer := self_image_offer self;
                                     sku := self_image_sku self;
                                     version := self_image_version f |} |};
     network_profile := {| network_interfaces := local_network_interfaces f |} |}.

(** The rest of [exec_module_impl] (source lines 267-354). *)
Definition apply_plan (check_mode : bool) (self : Self) : Prog Results :=
  f ← get_frame;
  when (changed f)
    (when (bool_decide (self_state self = started) && self_force self)
          (delete_vm self;; set_vm None);;
     when (bool_decide (self_state self = started))
          (f ← get_frame;
           match vm f with
           | None =>
               let params := vm_resource self f in
               c ← ask;
               run_check (serialize_obj c params);;
               d ← create_vm self params;
               set_self_results_results d
           | Some _ => mret tt
           end));;
  return_results check_mode.

Definition exec_module_impl (check_mode : bool) (self : Self) : Prog Results :=
  decide self;;
  if check_mode then return_results check_mode
  else apply_plan check_mode self.

(** One invocation of the module against a provider. *)
Definition run (check_mode : bool) (self : Self) (c : Cloud) :=
  exec_module_impl check_mode self c (init self).

End VirtualMachine.

(** * Scenarios

    Concrete providers and invocations, after the examples of the module
    documentation: resource group [Testing] in [eastus2], network interface
    [nic003], virtual machine [testvm002]. *)

Module RgScenario.
Import ResourceGroup.

Definition testing : ResourceGroup :=
  {| rg_id := Some "/subscriptions/sub/resourceGroups/Testing";
     rg_name := Some "Testing";
     rg_location := "eastus2";
     rg_tags := Some {[ "a" := "1" ]};
     rg_provisioning_state := Some "Succeeded" |}.

(** [Testing] exists; every call succeeds; SDK models are plain objects. *)
Definition cloud : Cloud :=
  {| resource_groups_get := λ n,
       if String.eqb n "Testing" then inr testing
       else inl (ErrCloud "ResourceGroupNotFound");
     resource_groups_create_or_update := λ n p,
       inr {| rg_id := Some ("/subscriptions/sub/resourceGroups/" +:+ n);
              rg_name := Some n;
              rg_location := rg_location p;
              rg_tags := rg_tags p;
              rg_provisioning_state := Some "Succeeded" |};
     resource_groups_delete := λ _, inr (inr tt);
     check_provisioning_state := λ _, None;
     model_subscriptable := false |}.

(** The same provider with SDK models that can be subscripted. *)
Definition cloud_subscriptable : Cloud :=
  {| resource_groups_get := resource_groups_get cloud;
     resource_groups_create_or_update := resource_groups_create_or_update cloud;
     resource_groups_delete := resource_groups_delete cloud;
     check_provisioning_state := check_provisioning_state cloud;
     model_subscriptable := true |}.

Definition invocation (location : option string) (tags : Tags) (force : bool) : Self :=
  {| self_name := "Testing";
     self_state := present;
     self_location := location;
     self_tags := tags;
     self_force := force |}.
End RgScenario.

Module NicScenario.
Import NetworkInterface.

Definition subnet001 : Subnet :=
  {| subnet_id := Some "/subscriptions/sub/resourceGroups/Testing/providers/Microsoft.Network/virtualNetworks/vnet001/subnets/subnet001";
     subnet_name := Some "subnet001" |}.

Definition secgroup001 : NetworkSecurityGroup :=
  {| nsg_id := Some "/subscriptions/sub/resourceGroups/Testing/providers/Microsoft.Network/networkSecurityGroups/secgroup001";
     nsg_name := Some "secgroup001";
     nsg_location := Some "eastus2";
     nsg_resource_guid := None |}.

Definition nic003 : NetworkInterface :=
  {| nic_id := Some "/subscriptions/sub/resourceGroups/Testing/providers/Microsoft.Network/networkInterfaces/nic003";
     nic_name := Some "nic003";
     nic_type := Some "Microsoft.Network/networkInterfaces";
     nic_location := Some "eastus2";
     nic_tags := Some {[ "a" := "1" ]};
     nic_ip_configurations :=
       [ {| ipc_name := Some "default";
            ipc_private_ip_address := Some "10.10.0.4";
            ipc_private_ip_allocation_method := "Dynamic";
            ipc_subnet := None;
            ipc_public_ip_address := None |} ];
     nic_network_security_group := None;
     nic_dns_settings :=
       Some {| dns_servers := []; applied_dns_servers := [];
               internal_dns_name_label := None; internal_fqdn := None |};
     nic_mac_address := None;
     nic_primary := None;
     nic_enable_ip_forwarding := Some false;
     nic_provisioning_state := Some "Succeeded";
     nic_etag := Some "W/etag" |}.

(** [nic003] exists with tags [{a: 1}]; every call succeeds. *)
Definition cloud : Cloud :=
  {| get_resource_group := λ _, inr {| resource_group_location := Some "eastus2" |};
     subnets_get := λ _ _ _, inr subnet001;
     public_ip_addresses_get := λ _ _, inl (ErrCloud "NotFound");
     network_security_groups_get := λ _ _, inr secgroup001;
     network_interfaces_get := λ _ n,
       if String.eqb n "nic003" then inr nic003 else inl (ErrCloud "NotFound");
     network_interfaces_create_or_update := λ _ _ n, inr (inr n);
     network_interfaces_delete := λ _ _, inr (inr tt);
     check_provisioning_state := λ _, None;
     azure_id_to_dict := λ _, inr ∅;
     serializer_body := λ _, None |}.

Definition invocation (tags : Tags) : Self :=
  {| self_resource_group := "Testing";
     self_name := "nic003";
     arg_location := None;
     self_security_group_name := Some "secgroup001";
     self_state := present;
     self_private_ip_address := None;
     self_private_ip_allocation_method := "Dynamic";
     self_public_ip_address_name := None;
     self_subnet_name := Some "subnet001";
     self_virtual_network_name := Some "vnet001";
     self_tags := tags |}.
End NicScenario.

Module VmScenario.
Import VirtualMachine.

Definition nic_uri (n : string) : string :=
  "/subscriptions/sub/resourceGroups/Testing/providers/Microsoft.Network/networkInterfaces/" +:+ n.
Definition pip_uri (n : string) : string :=
  "/subscriptions/sub/resourceGroups/Testing/providers/Microsoft.Network/publicIPAddresses/" +:+ n.

(** The machine of the module documentation, attached to two interfaces. *)
Definition testvm002 : VirtualMachine :=
  {| vm_location := Some "eastus";
     vm_name := Some "testvm002";
     vm_tags := None;
     os_profile := Some {| admin_username := Some "chouseknecht";
                           admin_password := None;
                           computer_name := Some "testvm" |};
     hardware_profile := {| hw_vm_size := "Standard_D1" |};
     storage_profile :=
       {| os_disk :=
            {| osdisk_name := Some "testvm001.vsd";
               virtual_hard_disk :=
                 {| uri := "https://testaccount001.blob.core.windows.net/testvm001/testvm001.vsd.vhd" |};
               create_option := "fromImage";
               caching := Some "ReadOnly" |};
          image_reference :=
            Some {| publisher := Some "OpenLogic"; offer := Some "CentOS";
                    sku := Some "7.1"; version := Some "7.1.20160308" |} |};
     network_profile :=
       {| network_interfaces :=
            [ {| ref_id := Some (nic_uri "nic001") |};
              {| ref_id := Some (nic_uri "nic002") |} ] |} |}.

(** A small [azure_id_to_dict] for the ids of the scenario. *)
Definition id_to_dict (a : IdArg) : Exn + gmap string string :=
  let of_id i :=
    if bool_decide (i = Some (nic_uri "nic001")) then inr {[ "networkInterfaces" := "nic001" ]}
    else if bool_decide (i = Some (nic_uri "nic002")) then inr {[ "networkInterfaces" := "nic002" ]}
    else if bool_decide (i = Some (pip_uri "publicip001"))
         then inr {[ "publicIPAddresses" := "publicip001" ]}
    else inr ∅ in
  match a with
  | ArgRef r => of_id (ref_id r)
  | ArgId i => of_id i
  end.

(** The provider: the location offers the size [Standard_D1] only, the
    image and the storage account exist, each interface carries the
    public address [publicip001]; [found] says whether [testvm002] is
    there, [bound] whether the module-level name [vm] is bound, and
    deleting an interface named in [broken] fails. *)
Definition cloud (found bound : bool) (broken : list string) : Cloud :=
  {| get_resource_group := λ _, inr {| resource_group_location := Some "eastus" |};
     virtual_machine_sizes_list := λ _, inr [ {| size_name := "Standard_D1" |} ];
     network_interfaces_get := λ _ n,
       inr {| nic_id := Some (nic_uri n);
              nic_ip_configurations :=
                [ {| ipc_public_ip_address :=
                       Some {| pip_id := Some (pip_uri "publicip001") |} |} ] |};
     virtual_machine_images_list := λ _ _ _ _,
       inr [ {| image_name := "7.1.20160308" |} ];
     storage_accounts_get_properties := λ _ _, inr tt;
     virtual_machines_get := λ _ n,
       if found && String.eqb n "testvm002" then inr testvm002
       else inl (ErrCloud "NotFound");
     virtual_machines_create_or_update := λ _ _ p, inr (inr p);
     virtual_machines_delete := λ _ _, inr tt;
     network_interfaces_delete := λ _ n,
       if bool_decide (n ∈ broken) then inl (ErrOther "InUse") else inr (inr tt);
     public_ip_addresses_delete := λ _ _, inr (inr tt);
     get_blob_client := λ _ _, inr tt;
     blob_client_delete_blob := λ _ _ _, inr tt;
     check_provisioning_state := λ _, None;
     serialize_obj := λ _, None;
     azure_id_to_dict := id_to_dict;
     global_vm := if bound then Some testvm002 else None |}.

Definition invocation (vm_size : string) (force : bool)
    (delete_nics delete_vhds delete_pips : bool) : Self :=
  {| self_resource_group := "Testing";
     self_name := "testvm002";
     self_state := started;
     arg_location := None;
     self_short_hostname := Some "testvm";
     self_vm_size := vm_size;
     self_force := force;
     self_admin_username := Some "chouseknecht";
     self_admin_password := None;
     self_ssh_password := true;
     self_ssh_public_key := None;
     self_image_publisher := Some "OpenLogic";
     self_image_offer := Some "CentOS";
     self_image_sku := Some "7.1";
     arg_image_version := Some "latest";
     self_storage_account_name := Some "testaccount001";
     self_storage_container_name := Some "testvm001";
     arg_storage_blob_name := None;
     self_os_disk_caching := Some "ReadOnly";
     self_os_type := "linux";
     self_network_interface_names := Some ["nic001"];
     self_delete_network_interfaces := delete_nics;
     self_delete_virtual_storage := delete_vhds;
     self_delete_public_ips := delete_pips;
     self_tags := None |}.
End VmScenario.

(** * Further scenarios *)

Module RgCases.
Import ResourceGroup.

(** No group of any name exists. *)
Definition empty_cloud : Cloud :=
  {| resource_groups_get := λ _, inl (ErrCloud "ResourceGroupNotFound");
     resource_groups_create_or_update := resource_groups_create_or_update RgScenario.cloud;
     resource_groups_delete := λ _, inl (ErrOther "ResourceGroupNotFound");
     check_provisioning_state := λ _, None;
     model_subscriptable := false |}.

(** The provider cannot be reached. *)
Definition unreachable_cloud : Cloud :=
  {| resource_groups_get := λ _, inl (ErrOther "ConnectionError");
     resource_groups_create_or_update := λ _ _, inl (ErrOther "ConnectionError");
     resource_groups_delete := λ _, inl (ErrOther "ConnectionError");
     check_provisioning_state := λ _, None;
     model_subscriptable := false |}.

Definition invocation (state : State) (location : option string) (tags : Tags)
    (force : bool) : Self :=
  {| self_name := "Testing";
     self_state := state;
     self_location := location;
     self_tags := tags;
     self_force := force |}.
End RgCases.

Module NicCases.
Import NetworkInterface.

Definition publicip001 : PublicIPAddress :=
  {| pip_id := Some "/subscriptions/sub/resourceGroups/Testing/providers/Microsoft.Network/publicIPAddresses/publicip001";
     pip_name := Some "publicip001";
     pip_location := Some "eastus2";
     pip_resource_guid := None |}.

(** The provider of [NicScenario], where the subnet is there or not
    ([subnet_found]) and so is the public address [publicip001]
    ([address_found]). *)
Definition cloud (subnet_found address_found : bool) : Cloud :=
  {| get_resource_group := get_resource_group NicScenario.cloud;
     subnets_get := λ _ _ _,
       if subnet_found then inr NicScenario.subnet001 else inl (ErrCloud "NotFound");
     public_ip_addresses_get := λ _ n,
       if address_found && bool_decide (n = Some "publicip001") then inr publicip001
       else inl (ErrCloud "NotFound");
     network_security_groups_get := network_security_groups_get NicScenario.cloud;
     network_interfaces_get := network_interfaces_get NicScenario.cloud;
     network_interfaces_create_or_update :=
       network_interfaces_create_or_update NicScenario.cloud;
     network_interfaces_delete := network_interfaces_delete NicScenario.cloud;
     check_provisioning_state := check_provisioning_state NicScenario.cloud;
     azure_id_to_dict := azure_id_to_dict NicScenario.cloud;
     serializer_body := serializer_body NicScenario.cloud |}.

Definition invocation (name : string) (state : State) (tags : Tags)
    (public_ip_address_name : option string) : Self :=
  {| self_resource_group := "Testing";
     self_name := name;
     arg_location := None;
     self_security_group_name := None;
     self_state := state;
     self_private_ip_address := None;
     self_private_ip_allocation_method := "Dynamic";
     self_public_ip_address_name := public_ip_address_name;
     self_subnet_name := Some "subnet001";
     self_virtual_network_name := Some "vnet001";
     self_tags := tags |}.
(** An invocation for [nic003] with [state=present] that names a security
    group and a public address. *)
Definition invocation_in_group (security_group_name public_ip_address_name : option string)
    : Self :=
  {| self_resource_group := "Testing";
     self_name := "nic003";
     arg_location := None;
     self_security_group_name := security_group_name;
     self_state := present;
     self_private_ip_address := None;
     self_private_ip_allocation_method := "Dynamic";
     self_public_ip_address_name := public_ip_address_name;
     self_subnet_name := Some "subnet001";
     self_virtual_network_name := Some "vnet001";
     self_tags := None |}.
End NicCases.

Module VmCases.
Import VirtualMachine.

(** The provider of [VmScenario] with no machine, where the interfaces
    named in [missing] are not there and the listing of the image
    versions answers [images]. *)
Definition cloud (missing : list string)
    (images : SdkError + list VirtualMachineImageResource) : Cloud :=
  let base := VmScenario.cloud false false [] in
  {| get_resource_group := get_resource_group base;
     virtual_machine_sizes_list := virtual_machine_sizes_list base;
     network_interfaces_get := λ rg n,
       if bool_decide (n ∈ missing) then inl (ErrCloud "NotFound")
       else network_interfaces_get base rg n;
     virtual_machine_images_list := λ _ _ _ _, images;
     storage_accounts_get_properties := storage_accounts_get_properties base;
     virtual_machines_get := virtual_machines_get base;
     virtual_machines_create_or_update := virtual_machines_create_or_update base;
     virtual_machines_delete := λ _ _, inl (ErrCloud "NotFound");
     network_interfaces_delete := network_interfaces_delete base;
     public_ip_addresses_delete := public_ip_addresses_delete base;
     get_blob_client := get_blob_client base;
     blob_client_delete_blob := blob_client_delete_blob base;
     check_provisioning_state := check_provisioning_state base;
     serialize_obj := serialize_obj base;
     azure_id_to_dict := azure_id_to_dict base;
     global_vm := global_vm base |}.

Definition invocation (state : State) (force : bool) (names : list string)
    (image_version : string) : Self :=
  {| self_resource_group := "Testing";
     self_name := "testvm002";
     self_state := state;
     arg_location := None;
     self_short_hostname := Some "testvm";
     self_vm_size := "Standard_D1";
     self_force := force;
     self_admin_username := Some "chouseknecht";
     self_admin_password := None;
     self_ssh_password := true;
     self_ssh_public_key := None;
     self_image_publisher := Some "OpenLogic";
     self_image_offer := Some "CentOS";
     self_image_sku := Some "7.1";
     arg_image_version := Some image_version;
     self_storage_account_name := Some "testaccount001";
     self_storage_container_name := Some "testvm001";
     arg_storage_blob_name := None;
     self_os_disk_caching := Some "ReadOnly";
     self_os_type := "linux";
     self_network_interface_names := Some names;
     self_delete_network_interfaces := false;
     self_delete_virtual_storage := false;
     self_delete_public_ips := true;
     self_tags := None |}.
End VmCases.

(** * Facts about the execution monad *)

Section TraceFacts.
Context {Env St Ev : Type} (P : Ev → Prop).
Local Abbreviation Prog := (M Env St Ev).

Lemma emits_only_ret {A} (a : A) : emits_only P (mret a : Prog A).
Proof. intros env s. constructor. Qed.

Lemma emits_only_raise {A} e : emits_only P (raise e : Prog A).
Proof. intros env s. constructor. Qed.

Lemma emits_only_bind {A B} (m : Prog A) (k : A → Prog B) :
  emits_only P m → (∀ a, emits_only P (k a)) → emits_only P (m ≫= k).
Proof.
  intros Hm Hk env s. specialize (Hm env s).
  unfold mbind, M_bind, bind, trace_of in *.
  destruct (m env s) as [[[a|e] s1] t1]; simpl in *; [|done].
  specialize (Hk a env s1). destruct (k a env s1) as [[o s2] t2]; simpl in *.
  by apply Forall_app.
Qed.

Lemma emits_only_try_except {A} (body : Prog A) sel handler :
  emits_only P body → (∀ e, emits_only P (handler e)) →
  emits_only P (try_except body sel handler).
Proof.
  intros Hm Hk env s. specialize (Hm env s).
  unfold try_except, trace_of in *.
  destruct (body env s) as [[[a|e] s1] t1]; simpl in *; [done|].
  destruct (sel e); [|done].
  specialize (Hk e env s1). destruct (handler e env s1) as [[o s2] t2]; simpl in *.
  by apply Forall_app.
Qed.

Lemma emits_only_get_frame : emits_only P (get_frame : Prog St).
Proof. intros env s. constructor. Qed.

Lemma emits_only_ask : emits_only P (ask : Prog Env).
Proof. intros env s. constructor. Qed.

Lemma emits_only_modify f : emits_only P (modify f : Prog unit).
Proof. intros env s. constructor. Qed.

Lemma emits_only_call {A} ev (reply : Env → Exn + A) :
  P ev → emits_only P (call ev reply : Prog A).
Proof.
  intros Hev env s. unfold call, trace_of.
  destruct (reply env); simpl; by repeat constructor.
Qed.

Lemma emits_only_sdk_call {A} ev (reply : Env → SdkError + A) :
  P ev → emits_only P (sdk_call ev reply : Prog A).
Proof. intros. by apply emits_only_call. Qed.

Lemma emits_only_lift {A} (r : Exn + A) : emits_only P (lift r : Prog A).
Proof. destruct r; [apply emits_only_raise | apply emits_only_ret]. Qed.

Lemma emits_only_local {A} n (v : option A) : emits_only P (local n v : Prog A).
Proof. destruct v; [apply emits_only_ret | apply emits_only_raise]. Qed.

Lemma emits_only_run_check o : emits_only P (run_check o : Prog unit).
Proof. destruct o; [apply emits_only_raise | apply emits_only_ret]. Qed.

Lemma emits_only_fail {A} msg : emits_only P (fail msg : Prog A).
Proof. apply emits_only_raise. Qed.

Lemma emits_only_get_poller_result {A} (p : Poller A) :
  emits_only P (get_poller_result p : Prog A).
Proof. apply emits_only_lift. Qed.

Lemma emits_only_when b (m : Prog unit) : emits_only P m → emits_only P (when b m).
Proof. destruct b; [done | intros _; apply emits_only_ret]. Qed.

Lemma emits_only_for_each {A} (xs : list A) (body : A → Prog unit) :
  (∀ x, emits_only P (body x)) → emits_only P (for_each xs body).
Proof.
  intros Hbody. induction xs as [|x xs IH]; simpl.
  - apply emits_only_ret.
  - apply (emits_only_bind (body x) (λ _, for_each xs body)); auto.
Qed.

Lemma emits_only_fold_m {A B} (xs : list A) (acc : B) (body : B → A → Prog B) :
  (∀ acc x, emits_only P (body acc x)) → emits_only P (fold_m xs acc body).
Proof.
  intros Hbody. revert acc. induction xs as [|x xs IH]; intros acc; simpl.
  - apply emits_only_ret.
  - apply (emits_only_bind (body acc x) (λ acc', fold_m xs acc' body)); auto.
Qed.
End TraceFacts.

Create HintDb prog discriminated.

Section FrameFacts.
Context {Env St Ev X : Type} (proj : St → X).
Local Abbreviation Prog := (M Env St Ev).

Lemma keeps_ret {A} (a : A) : keeps proj (mret a : Prog A).
Proof. by intros env s. Qed.

Lemma keeps_raise {A} e : keeps proj (raise e : Prog A).
Proof. by intros env s. Qed.

Lemma keeps_bind {A B} (m : Prog A) (k : A → Prog B) :
  keeps proj m → (∀ a, keeps proj (k a)) → keeps proj (m ≫= k).
Proof.
  intros Hm Hk env s. specialize (Hm env s).
  unfold mbind, M_bind, bind, frame_of in *.
  destruct (m env s) as [[[a|e] s1] t1]; simpl in *; [|done].
  specialize (Hk a env s1). destruct (k a env s1) as [[o s2] t2].
  unfold frame_of in *; simpl in *. congruence.
Qed.

Lemma keeps_try_except {A} (body : Prog A) sel handler :
  keeps proj body → (∀ e, keeps proj (handler e)) →
  keeps proj (try_except body sel handler).
Proof.
  intros Hm Hk env s. specialize (Hm env s).
  unfold try_except, frame_of in *.
  destruct (body env s) as [[[a|e] s1] t1]; simpl in *; [done|].
  destruct (sel e); [|done].
  specialize (Hk e env s1). destruct (handler e env s1) as [[o s2] t2].
  unfold frame_of in *; simpl in *. congruence.
Qed.

Lemma keeps_get_frame : keeps proj (get_frame : Prog St).
Proof. by intros env s. Qed.

Lemma keeps_ask : keeps proj (ask : Prog Env).
Proof. by intros env s. Qed.

Lemma keeps_modify f : (∀ s, proj (f s) = proj s) → keeps proj (modify f : Prog unit).
Proof. intros Hf env s. apply Hf. Qed.

Lemma keeps_call {A} ev (reply : Env → Exn + A) : keeps proj (call ev reply : Prog A).
Proof. intros env s. unfold call, frame_of. by destruct (reply env). Qed.

Lemma keeps_sdk_call {A} ev (reply : Env → SdkError + A) :
  keeps proj (sdk_call ev reply : Prog A).
Proof. apply keeps_call. Qed.

Lemma keeps_lift {A} (r : Exn + A) : keeps proj (lift r : Prog A).
Proof. destruct r; [apply keeps_raise | apply keeps_ret]. Qed.

Lemma keeps_local {A} n (v : option A) : keeps proj (local n v : Prog A).
Proof. destruct v; [apply keeps_ret | apply keeps_raise]. Qed.

Lemma keeps_run_check o : keeps proj (run_check o : Prog unit).
Proof. destruct o; [apply keeps_raise | apply keeps_ret]. Qed.

Lemma keeps_fail {A} msg : keeps proj (fail msg : Prog A).
Proof. apply keeps_raise. Qed.

Lemma keeps_when b (m : Prog unit) : keeps proj m → keeps proj (when b m).
Proof. destruct b; [done | intros _; apply keeps_ret]. Qed.

Lemma keeps_for_each {A} (xs : list A) (body : A → Prog unit) :
  (∀ x, keeps proj (body x)) → keeps proj (for_each xs body).
Proof.
  intros Hbody. induction xs as [|x xs IH]; simpl.
  - apply keeps_ret.
  - apply (keeps_bind (body x) (λ _, for_each xs body)); auto.
Qed.

Lemma keeps_fold_m {A B} (xs : list A) (acc : B) (body : B → A → Prog B) :
  (∀ acc x, keeps proj (body acc x)) → keeps proj (fold_m xs acc body).
Proof.
  intros Hbody. revert acc. induction xs as [|x xs IH]; intros acc; simpl.
  - apply keeps_ret.
  - apply (keeps_bind (body acc x) (λ acc', fold_m xs acc' body)); auto.
Qed.
End FrameFacts.

Ltac keeps_step :=
  lazymatch goal with
  | |- keeps _ (mret _) => apply keeps_ret
  | |- keeps _ (ret _) => apply keeps_ret
  | |- keeps _ (raise _) => apply keeps_raise
  | |- keeps _ (fail _) => apply keeps_fail
  | |- keeps _ (mbind _ _) => apply keeps_bind; [|intros]
  | |- keeps _ (try_except _ _ _) => apply keeps_try_except; [|intros]
  | |- keeps _ get_frame => apply keeps_get_frame
  | |- keeps _ ask => apply keeps_ask
  | |- keeps _ (modify _) => apply keeps_modify; done
  | |- keeps _ (sdk_call _ _) => apply keeps_sdk_call
  | |- keeps _ (call _ _) => apply keeps_call
  | |- keeps _ (lift _) => apply keeps_lift
  | |- keeps _ (local _ _) => apply keeps_local
  | |- keeps _ (run_check _) => apply keeps_run_check
  | |- keeps _ (when _ _) => apply keeps_when
  | |- keeps _ (for_each _ _) => apply keeps_for_each; intros
  | |- keeps _ (fold_m _ _ _) => apply keeps_fold_m; intros
  | |- keeps _ (match ?x with _ => _ end) => destruct x
  | |- keeps _ _ => progress autounfold with prog
  end.

Ltac keeps_tac := repeat keeps_step.

(** One step of a proof that a program only issues calls of some kind:
    follow the shape of the program. *)
Ltac emits_step :=
  lazymatch goal with
  | |- emits_only _ (mret _) => apply emits_only_ret
  | |- emits_only _ (ret _) => apply emits_only_ret
  | |- emits_only _ (raise _) => apply emits_only_raise
  | |- emits_only _ (fail _) => apply emits_only_fail
  | |- emits_only _ (mbind _ _) => apply emits_only_bind; [|intros]
  | |- emits_only _ (try_except _ _ _) => apply emits_only_try_except; [|intros]
  | |- emits_only _ get_frame => apply emits_only_get_frame
  | |- emits_only _ ask => apply emits_only_ask
  | |- emits_only _ (modify _) => apply emits_only_modify
  | |- emits_only _ (sdk_call _ _) => apply emits_only_sdk_call; done
  | |- emits_only _ (call _ _) => apply emits_only_call; done
  | |- emits_only _ (lift _) => apply emits_only_lift
  | |- emits_only _ (local _ _) => apply emits_only_local
  | |- emits_only _ (run_check _) => apply emits_only_run_check
  | |- emits_only _ (get_poller_result _) => apply emits_only_get_poller_result
  | |- emits_only _ (when _ _) => apply emits_only_when
  | |- emits_only _ (for_each _ _) => apply emits_only_for_each; intros
  | |- emits_only _ (fold_m _ _ _) => apply emits_only_fold_m; intros
  | |- emits_only _ (match ?x with _ => _ end) => destruct x
  | |- emits_only _ _ => progress autounfold with prog
  end.

Ltac emits := repeat emits_step.

(** Symbolic execution: expose the monad so that [simpl] runs the program
    up to the next answer of the provider. *)
Ltac unfold_monad :=
  repeat progress unfold mbind, mret, M_bind, M_ret, bind, ret, raise, fail, try_except,
    get_frame, modify, ask, call, sdk_call, lift, local, when, run_check,
    get_poller_result, trace_of, outcome_of, frame_of in *.

#[global] Hint Unfold
  ResourceGroup.decide ResourceGroup.return_results ResourceGroup.results_item
  ResourceGroup.results_set_tags ResourceGroup.set_results ResourceGroup.set_changed
  ResourceGroup.set_rg ResourceGroup.set_self_results_changed
  ResourceGroup.set_self_results_results : prog.

#[global] Hint Unfold
  NetworkInterface.decide NetworkInterface.return_results NetworkInterface.diff_present
  NetworkInterface.results_dict NetworkInterface.get_subnet
  NetworkInterface.get_public_ip_address NetworkInterface.get_security_group
  NetworkInterface.set_results NetworkInterface.set_changed NetworkInterface.set_nic
  NetworkInterface.set_subnet NetworkInterface.set_public_ip NetworkInterface.set_nsg
  NetworkInterface.set_self_location NetworkInterface.set_self_results_changed
  NetworkInterface.set_self_results_results : prog.

#[global] Hint Unfold
  VirtualMachine.decide VirtualMachine.preamble VirtualMachine.fetch
  VirtualMachine.verify_parameters VirtualMachine.vm_size_is_valid
  VirtualMachine.iter_names VirtualMachine.get_network_interface
  VirtualMachine.get_image_version VirtualMachine.get_storage_account
  VirtualMachine.return_results
  VirtualMachine.set_changed VirtualMachine.set_results VirtualMachine.set_vm
  VirtualMachine.set_network_interfaces VirtualMachine.set_self_location
  VirtualMachine.set_self_storage_blob_name VirtualMachine.set_self_image_version
  VirtualMachine.set_self_results_changed VirtualMachine.set_self_results_results : prog.

(** * The two regular expressions, on the examples of the documentation *)

Example name_pattern_accepts :
  NetworkInterface.NAME_PATTERN_match "nic003" = true
  ∧ NetworkInterface.NAME_PATTERN_match "test-nic" = true.
Proof. by vm_compute. Qed.

Example name_pattern_rejects :
  NetworkInterface.NAME_PATTERN_match "ab" = false
  ∧ NetworkInterface.NAME_PATTERN_match "Nic003" = false
  ∧ NetworkInterface.NAME_PATTERN_match "nic003-" = false
  ∧ NetworkInterface.NAME_PATTERN_match "nic_003" = false.
Proof. by vm_compute. Qed.

Example blob_uri_of_the_documentation :
  VirtualMachine.blob_uri_match
    "https://testaccount001.blob.core.windows.net/testvm001/testvm001.vsd.vhd"
  = Some {| VirtualMachine.accountname := "testaccount001";
            VirtualMachine.containername := "testvm001";
            VirtualMachine.blobname := "testvm001.vsd.vhd" |}
  ∧ VirtualMachine.blob_uri_match "http://testaccount001.blob.core.windows.net/c/b" = None.
Proof. by vm_compute. Qed.

(** The method of the class takes the list and calls the two-parameter
    parser with one argument: it would raise on the first address. *)
Example delete_virtual_storage_arity :
  outcome_of (VirtualMachine.delete_virtual_storage
                (VmScenario.invocation "Standard_D1" true false true false)
                ["https://testaccount001.blob.core.windows.net/testvm001/testvm001.vsd.vhd"]
                (VmScenario.cloud true true [])
                (VirtualMachine.init (VmScenario.invocation "Standard_D1" true false true false)))
  = Raised (TypeError "extract_names_from_blob_uri() takes exactly 2 arguments").
Proof. by vm_compute. Qed.

(** * Check mode *)

(** The decision step of each module only reads from the provider. *)
Lemma rg_decide_reads_only self :
  emits_only (λ ev, ResourceGroup.is_mutation ev = false) (ResourceGroup.decide self).
Proof. emits. Qed.

Lemma nic_decide_reads_only self :
  emits_only (λ ev, NetworkInterface.is_mutation ev = false) (NetworkInterface.decide self).
Proof. emits. Qed.

Lemma vm_decide_reads_only self :
  emits_only (λ ev, VirtualMachine.is_mutation ev = false) (VirtualMachine.decide self).
Proof. emits. Qed.

(** C1 (dry-run purity).  In each of the three modules an invocation in
    check mode issues no create-or-update and no delete call; it issues
    exactly the calls of the decision step, and what it returns as [changed]
    and [results] is what that step stored in [self.results] -- the step the
    run without check mode performs first, before it applies anything.  A
    decision step that fails fails the check-mode run the same way. *)
Theorem check_mode_is_pure :
  (∀ (c : ResourceGroup.Cloud) (self : ResourceGroup.Self),
     let d := ResourceGroup.decide self c ResourceGroup.init in
     let r := ResourceGroup.run true self c in
     Forall (λ ev, ResourceGroup.is_mutation ev = false) (trace_of r)
     ∧ trace_of r = trace_of d
     ∧ match outcome_of d with
       | Ok _ => ∃ res, outcome_of r = Ok res
                   ∧ ResourceGroup.r_changed res
                     = ResourceGroup.self_results_changed (frame_of d)
                   ∧ ResourceGroup.r_results res
                     = ResourceGroup.self_results_results (frame_of d)
       | Raised e => outcome_of r = Raised e
       end
     ∧ ResourceGroup.run false self c
       = (ResourceGroup.decide self ≫= λ _, ResourceGroup.apply_plan false self)
           c ResourceGroup.init
     ∧ ∃ t, trace_of (ResourceGroup.run false self c) = trace_of d ++ t)
  ∧
  (∀ (c : NetworkInterface.Cloud) (self : NetworkInterface.Self),
     let d := NetworkInterface.decide self c (NetworkInterface.init self) in
     let r := NetworkInterface.run true self c in
     Forall (λ ev, NetworkInterface.is_mutation ev = false) (trace_of r)
     ∧ trace_of r = trace_of d
     ∧ match outcome_of d with
       | Ok _ => ∃ res, outcome_of r = Ok res
                   ∧ NetworkInterface.r_changed res
                     = NetworkInterface.self_results_changed (frame_of d)
                   ∧ NetworkInterface.r_results res
                     = NetworkInterface.self_results_results (frame_of d)
       | Raised e => outcome_of r = Raised e
       end
     ∧ NetworkInterface.run false self c
       = (NetworkInterface.decide self ≫= λ _, NetworkInterface.apply_plan false self)
           c (NetworkInterface.init self)
     ∧ ∃ t, trace_of (NetworkInterface.run false self c) = trace_of d ++ t)
  ∧
  (∀ (c : VirtualMachine.Cloud) (self : VirtualMachine.Self),
     let d := VirtualMachine.decide self c (VirtualMachine.init self) in
     let r := VirtualMachine.run true self c in
     Forall (λ ev, VirtualMachine.is_mutation ev = false) (trace_of r)
     ∧ trace_of r = trace_of d
     ∧ match outcome_of d with
       | Ok _ => ∃ res, outcome_of r = Ok res
                   ∧ VirtualMachine.r_changed res
                     = VirtualMachine.self_results_changed (frame_of d)
                   ∧ VirtualMachine.r_results res
                     = VirtualMachine.self_results_results (frame_of d)
       | Raised e => outcome_of r = Raised e
       end
     ∧ VirtualMachine.run false self c
       = (VirtualMachine.decide self ≫= λ _, VirtualMachine.apply_plan false self)
           c (VirtualMachine.init self)
     ∧ ∃ t, trace_of (VirtualMachine.run false self c) = trace_of d ++ t).
Proof.
  split; [|split]; intros c self d r.
  - pose proof (rg_decide_reads_only self c ResourceGroup.init) as Hd.
    subst d r. unfold ResourceGroup.run, ResourceGroup.exec_module_impl,
      ResourceGroup.return_results, mbind, M_bind, bind, trace_of, outcome_of, frame_of in *.
    destruct (ResourceGroup.decide self c ResourceGroup.init) as [[[[]|e] s1] t1]; simpl in *.
    + rewrite app_nil_r. repeat split; eauto.
      destruct (ResourceGroup.apply_plan false self c s1) as [[o s2] t2]; simpl; eauto.
    + repeat split; eauto. exists []. by rewrite app_nil_r.
  - pose proof (nic_decide_reads_only self c (NetworkInterface.init self)) as Hd.
    subst d r. unfold NetworkInterface.run, NetworkInterface.exec_module_impl,
      NetworkInterface.return_results, mbind, M_bind, bind, trace_of, outcome_of, frame_of in *.
    destruct (NetworkInterface.decide self c (NetworkInterface.init self))
      as [[[[]|e] s1] t1]; simpl in *.
    + rewrite app_nil_r. repeat split; eauto.
      destruct (NetworkInterface.apply_plan false self c s1) as [[o s2] t2]; simpl; eauto.
    + repeat split; eauto. exists []. by rewrite app_nil_r.
  - pose proof (vm_decide_reads_only self c (VirtualMachine.init self)) as Hd.
    subst d r. unfold VirtualMachine.run, VirtualMachine.exec_module_impl,
      VirtualMachine.return_results, mbind, M_bind, bind, trace_of, outcome_of, frame_of in *.
    destruct (VirtualMachine.decide self c (VirtualMachine.init self))
      as [[[[]|e] s1] t1]; simpl in *.
    + rewrite app_nil_r. repeat split; eauto.
      destruct (VirtualMachine.apply_plan false self c s1) as [[o s2] t2]; simpl; eauto.
    + repeat split; eauto. exists []. by rewrite app_nil_r.
Qed.

(** * Resource group: the location of an existing group *)

(** The guard of source lines 198-200: when the fetched group's location
    differs from [self.location], the invocation ends in [self.fail] right
    after the fetch, in check mode or not, forced or not. *)
Lemma rg_location_mismatch_fails (c : ResourceGroup.Cloud) (self : ResourceGroup.Self)
    (check_mode : bool) (rg : ResourceGroup.ResourceGroup) :
  ResourceGroup.resource_groups_get c (ResourceGroup.self_name self) = inr rg →
  ResourceGroup.check_provisioning_state c rg = None →
  ResourceGroup.self_state self = ResourceGroup.present →
  Some (ResourceGroup.rg_location rg) ≠ ResourceGroup.self_location self →
  outcome_of (ResourceGroup.run check_mode self c)
    = Raised (SystemExit ("Resource group '" +:+ ResourceGroup.self_name self
                          +:+ "' already exists in location '"
                          +:+ py_str (ResourceGroup.self_location self)
                          +:+ "' and cannot be moved."))
  ∧ trace_of (ResourceGroup.run check_mode self c)
    = [ResourceGroup.EvGet (ResourceGroup.self_name self)].
Proof.
  intros Hget Hcheck Hstate Hloc.
  unfold ResourceGroup.run, ResourceGroup.exec_module_impl, ResourceGroup.decide.
  autounfold with prog. unfold_monad.
  simpl. rewrite Hget. simpl. rewrite Hcheck, Hstate. simpl.
  destruct (ResourceGroup.self_force self); simpl;
    case_bool_decide; simpl; rewrite (bool_decide_eq_true_2 _ Hloc); simpl;
    by destruct check_mode.
Qed.

(** C6 (immutable resource-group location).  If the group exists (the fetch
    returns it and the provisioning-state check of the base class lets it
    pass) with location [L], and the module is invoked with [state=present]
    and a desired location other than [L], the invocation fails through
    [self.fail] and the only call issued is the fetch: no create, update or
    delete. *)
Theorem rg_location_is_immutable (c : ResourceGroup.Cloud) (self : ResourceGroup.Self)
    (check_mode : bool) (rg : ResourceGroup.ResourceGroup) (desired : string) :
  ResourceGroup.resource_groups_get c (ResourceGroup.self_name self) = inr rg →
  ResourceGroup.check_provisioning_state c rg = None →
  ResourceGroup.self_state self = ResourceGroup.present →
  ResourceGroup.self_location self = Some desired →
  desired ≠ ResourceGroup.rg_location rg →
  (∃ msg, outcome_of (ResourceGroup.run check_mode self c) = Raised (SystemExit msg))
  ∧ trace_of (ResourceGroup.run check_mode self c)
    = [ResourceGroup.EvGet (ResourceGroup.self_name self)]
  ∧ Forall (λ ev, ResourceGroup.is_mutation ev = false)
           (trace_of (ResourceGroup.run check_mode self c)).
Proof.
  intros Hget Hcheck Hstate Hdesired Hne.
  destruct (rg_location_mismatch_fails c self check_mode rg) as [Ho Ht]; try done.
  { rewrite Hdesired. congruence. }
  rewrite Ho, Ht. split; [eauto|]. split; [done|]. by repeat constructor.
Qed.

Lemma rg_location_is_immutable_witness :
  (∃ msg, outcome_of (ResourceGroup.run false
            (RgScenario.invocation (Some "westus") None false) RgScenario.cloud)
          = Raised (SystemExit msg))
  ∧ trace_of (ResourceGroup.run false
            (RgScenario.invocation (Some "westus") None false) RgScenario.cloud)
    = [ResourceGroup.EvGet "Testing"]
  ∧ Forall (λ ev, ResourceGroup.is_mutation ev = false)
           (trace_of (ResourceGroup.run false
              (RgScenario.invocation (Some "westus") None false) RgScenario.cloud)).
Proof.
  apply (rg_location_is_immutable RgScenario.cloud
           (RgScenario.invocation (Some "westus") None false) false
           RgScenario.testing "westus");
    [reflexivity | reflexivity | reflexivity | reflexivity | discriminate].
Defined.

(** C10 (no location given).  For an existing group and [state=present],
    an invocation that gives no location fails through [self.fail] after
    the fetch, whatever the tags; and an invocation that returns a result
    has named the group's current location. *)
Theorem rg_update_needs_location (c : ResourceGroup.Cloud) (self : ResourceGroup.Self)
    (check_mode : bool) (rg : ResourceGroup.ResourceGroup) :
  ResourceGroup.resource_groups_get c (ResourceGroup.self_name self) = inr rg →
  ResourceGroup.check_provisioning_state c rg = None →
  ResourceGroup.self_state self = ResourceGroup.present →
  (ResourceGroup.self_location self = None →
     outcome_of (ResourceGroup.run check_mode self c)
       = Raised (SystemExit ("Resource group '" +:+ ResourceGroup.self_name self
                             +:+ "' already exists in location 'None' and cannot be moved."))
     ∧ trace_of (ResourceGroup.run check_mode self c)
       = [ResourceGroup.EvGet (ResourceGroup.self_name self)])
  ∧ (∀ res, outcome_of (ResourceGroup.run check_mode self c) = Ok res →
       ResourceGroup.self_location self = Some (ResourceGroup.rg_location rg)).
Proof.
  intros Hget Hcheck Hstate. split.
  - intros Hnone.
    destruct (rg_location_mismatch_fails c self check_mode rg) as [Ho Ht]; try done.
    { by rewrite Hnone. }
    by rewrite Ho, Ht, Hnone.
  - intros res Hres.
    destruct (decide (Some (ResourceGroup.rg_location rg) = ResourceGroup.self_location self))
      as [Heq|Hne]; [done|].
    destruct (rg_location_mismatch_fails c self check_mode rg) as [Ho _]; try done.
    congruence.
Qed.

Lemma rg_update_needs_location_witness :
  outcome_of (ResourceGroup.run false
    (RgScenario.invocation None (Some {[ "b" := "2" ]}) false) RgScenario.cloud)
  = Raised (SystemExit
      "Resource group 'Testing' already exists in location 'None' and cannot be moved.")
  ∧ trace_of (ResourceGroup.run false
      (RgScenario.invocation None (Some {[ "b" := "2" ]}) false) RgScenario.cloud)
    = [ResourceGroup.EvGet "Testing"].
Proof.
  apply (rg_update_needs_location RgScenario.cloud
           (RgScenario.invocation None (Some {[ "b" := "2" ]}) false) false
           RgScenario.testing);
    reflexivity.
Defined.

(** * Virtual machine: the decision *)

Lemma bind_modify {Env St Ev B} (g : St → St) (k : unit → M Env St Ev B) env s :
  (modify g ≫= k) env s = k tt env (g s).
Proof. unfold_monad. by destruct (k tt env (g s)) as [[o s2] t2]. Qed.

(** Whatever happens before the fetch, the locals [changed], [vm] and
    [results] still hold their initial values when it ends. *)
Lemma vm_preamble_locals (c : VirtualMachine.Cloud) (self : VirtualMachine.Self) s :
  let f := frame_of (VirtualMachine.preamble self c s) in
  VirtualMachine.changed f = false ∧ VirtualMachine.vm f = None
  ∧ VirtualMachine.results f = VirtualMachine.EmptyDict.
Proof.
  unfold VirtualMachine.preamble, VirtualMachine.set_changed, VirtualMachine.set_results,
    VirtualMachine.set_vm, VirtualMachine.set_network_interfaces.
  rewrite !bind_modify.
  match goal with |- context [frame_of (?m c ?s0)] =>
    assert (keeps VirtualMachine.changed m) as Hc by keeps_tac;
    assert (keeps VirtualMachine.vm m) as Hv by keeps_tac;
    assert (keeps VirtualMachine.results m) as Hr by keeps_tac;
    specialize (Hc c s0); specialize (Hv c s0); specialize (Hr c s0)
  end.
  cbv zeta. by rewrite Hc, Hv, Hr.
Qed.

(** The steps before the fetch only read from the provider. *)
Lemma vm_preamble_reads_only self :
  emits_only (λ ev, VirtualMachine.is_mutation ev = false) (VirtualMachine.preamble self).
Proof. emits. Qed.

(** The decision for a machine that is there. *)
Lemma vm_decide_found (c : VirtualMachine.Cloud) (self : VirtualMachine.Self)
    (v : VirtualMachine.VirtualMachine) :
  outcome_of (VirtualMachine.preamble self c (VirtualMachine.init self)) = Ok tt →
  VirtualMachine.virtual_machines_get c (VirtualMachine.self_resource_group self)
    (VirtualMachine.self_name self) = inr v →
  VirtualMachine.check_provisioning_state c v = None →
  VirtualMachine.serialize_obj c v = None →
  VirtualMachine.self_state self = VirtualMachine.started →
  let p := VirtualMachine.preamble self c (VirtualMachine.init self) in
  let d := VirtualMachine.decide self c (VirtualMachine.init self) in
  outcome_of d = Ok tt
  ∧ trace_of d = trace_of p ++ [VirtualMachine.EvVmGet (VirtualMachine.self_resource_group self)
                                  (VirtualMachine.self_name self)]
  ∧ VirtualMachine.changed (frame_of d) = VirtualMachine.self_force self
  ∧ VirtualMachine.self_results_changed (frame_of d) = VirtualMachine.self_force self
  ∧ VirtualMachine.self_results_results (frame_of d) = VirtualMachine.EmptyDict
  ∧ VirtualMachine.vm (frame_of d) = Some v
  ∧ VirtualMachine.vm_resource self (frame_of d) = VirtualMachine.vm_resource self (frame_of p).
Proof.
  intros Hp Hget Hcheck Hser Hstate p d. subst p d.
  destruct (vm_preamble_locals c self (VirtualMachine.init self)) as (Hc & Hv & Hr).
  unfold VirtualMachine.decide, VirtualMachine.fetch, VirtualMachine.set_vm,
    VirtualMachine.set_changed, VirtualMachine.set_self_results_changed,
    VirtualMachine.set_self_results_results.
  unfold_monad.
  destruct (VirtualMachine.preamble self c (VirtualMachine.init self)) as [[o f1] t1].
  simpl in *. subst o. rewrite Hget. simpl. rewrite Hcheck, Hser, Hstate. simpl.
  destruct (VirtualMachine.self_force self); simpl; rewrite ?Hc, ?Hr; done.
Qed.





(** * The force flag *)








(** * Virtual machine: the cascading delete *)

Section Cascade.
Import VirtualMachine.
Context (c : Cloud) (self : Self).

Lemma until_first_failure_app l1 l2 :
  until_first_failure c (l1 ++ l2)
  = if forallb (deletion_succeeds c) l1
    then l1 ++ until_first_failure c l2
    else until_first_failure c l1.
Proof.
  induction l1 as [|ev l1 IH]; simpl; [done|].
  destruct (deletion_succeeds c ev); simpl; [|done].
  rewrite IH. by destruct (forallb (deletion_succeeds c) l1).
Qed.

Lemma until_first_failure_prefix plan : until_first_failure c plan `prefix_of` plan.
Proof.
  induction plan as [|ev plan IH]; simpl; [done|].
  destruct (deletion_succeeds c ev).
  - by apply prefix_cons.
  - by exists plan.
Qed.

Lemma until_first_failure_all plan :
  forallb (deletion_succeeds c) plan = true → until_first_failure c plan = plan.
Proof.
  induction plan as [|ev plan IH]; simpl; [done|].
  destruct (deletion_succeeds c ev); simpl; [|done]. intros H. by rewrite IH.
Qed.

(** A loop of deletions stops at the first one that fails: every
    [delete_*] helper turns a failure into [self.fail]. *)
Lemma delete_nic_loop names f :
  let plan := map (EvNicDelete (self_resource_group self)) names in
  let r := for_each names (λ name, delete_nic self name;; mret tt) c f in
  trace_of r = until_first_failure c plan
  ∧ frame_of r = f
  ∧ if forallb (deletion_succeeds c) plan
    then outcome_of r = Ok tt
    else ∃ e, outcome_of r = Raised e.
Proof.
  induction names as [|n names IH]; simpl; [done|].
  destruct IH as (IHt & IHf & IHo).
  unfold delete_nic. unfold_monad. simpl.
  destruct (network_interfaces_delete c (self_resource_group self) n) as [[]|[e|[]]];
    simpl; eauto.
  destruct (for_each names _ c f) as [[o s2] t2]; simpl in *. subst.
  split; [done|]. split; [done|].
  destruct (forallb _ _); [by subst|]. destruct IHo as [e ->]. eauto.
Qed.

Lemma delete_pip_loop names f :
  let plan := map (EvPublicIpDelete (self_resource_group self)) names in
  let r := for_each names (λ name, delete_pip self name;; mret tt) c f in
  trace_of r = until_first_failure c plan
  ∧ frame_of r = f
  ∧ if forallb (deletion_succeeds c) plan
    then outcome_of r = Ok tt
    else ∃ e, outcome_of r = Raised e.
Proof.
  induction names as [|n names IH]; simpl; [done|].
  destruct IH as (IHt & IHf & IHo).
  unfold delete_pip. unfold_monad. simpl.
  destruct (public_ip_addresses_delete c (self_resource_group self) n) as [[]|[e|[]]];
    simpl; eauto.
  destruct (for_each names _ c f) as [[o s2] t2]; simpl in *. subst.
  split; [done|]. split; [done|].
  destruct (forallb _ _); [by subst|]. destruct IHo as [e ->]. eauto.
Qed.

(** The clean-up when no blob deletion is requested. *)
Lemma cleanup_stops_at_first_failure vhd_uris nic_names pip_names f :
  self_delete_virtual_storage self = false →
  let plan := cascade_plan self nic_names pip_names in
  let r := delete_vm_cleanup self vhd_uris nic_names pip_names c f in
  trace_of r = until_first_failure c plan
  ∧ if forallb (deletion_succeeds c) plan
    then outcome_of r = Ok tt
    else ∃ e, outcome_of r = Raised e.
Proof.
  intros Hdvs plan r. subst plan r.
  unfold delete_vm_cleanup, cascade_plan, self_attr_delete_virtual_storage, getattr,
    attr_truth.
  rewrite Hdvs.
  pose proof (delete_nic_loop nic_names f) as (Hnt & Hnf & Hno).
  pose proof (delete_pip_loop pip_names f) as (Hpt & Hpf & Hpo).
  rewrite until_first_failure_app, forallb_app.
  unfold_monad. simpl.
  destruct (self_delete_network_interfaces self), (self_delete_public_ips self); simpl.
  - destruct (for_each nic_names _ c f) as [[o1 s1] t1]; simpl in *. subst s1 t1.
    destruct (forallb _ (map (EvNicDelete _) nic_names)) eqn:Hall; simpl.
    + subst o1. rewrite (until_first_failure_all _ Hall).
      destruct (for_each pip_names _ c f) as [[o2 s2] t2]; simpl in *. by subst s2 t2.
    + destruct Hno as [e ->]. eauto.
  - destruct (for_each nic_names _ c f) as [[o1 s1] t1]; simpl in *. subst s1 t1.
    rewrite andb_true_r.
    destruct (forallb _ (map (EvNicDelete _) nic_names)) eqn:Hall; simpl.
    + subst o1. by rewrite !app_nil_r, (until_first_failure_all _ Hall).
    + destruct Hno as [e ->]. eauto.
  - destruct (for_each pip_names _ c f) as [[o2 s2] t2]; simpl in *. by subst s2 t2.
  - done.
Qed.
End Cascade.


(** Before the machine is deleted, [delete_vm] only reads interfaces. *)
Lemma vm_capture_reads_only self :
  emits_only (λ ev, VirtualMachine.is_capture ev = true) (VirtualMachine.delete_vm_capture self).
Proof. unfold VirtualMachine.delete_vm_capture, VirtualMachine.global_name_vm,
  VirtualMachine.item, VirtualMachine.set_self_results_deleted_vhd_uris,
  VirtualMachine.set_self_results_deleted_network_interfaces,
  VirtualMachine.set_self_results_deleted_public_ips. emits. Qed.

(** [delete_vm] reads the name [vm] as soon as a disk or an interface is
    to go with the machine (source lines 364 and 373); [vm] is a local of
    [exec_module_impl].  Where no module-level [vm] is bound, [delete_vm]
    raises [NameError] before it stores anything or makes any call. *)
Lemma vm_delete_needs_vm_in_scope (c : VirtualMachine.Cloud) (self : VirtualMachine.Self)
    (f : VirtualMachine.Frame) :
  VirtualMachine.global_vm c = None →
  VirtualMachine.self_delete_virtual_storage self = true
  ∨ VirtualMachine.self_delete_network_interfaces self = true →
  VirtualMachine.delete_vm self c f = (Raised (NameError "vm"), f, []).
Proof.
  intros Hnone Hcascade.
  unfold VirtualMachine.delete_vm, VirtualMachine.delete_vm_capture,
    VirtualMachine.global_name_vm, VirtualMachine.self_attr_delete_virtual_storage,
    VirtualMachine.getattr, VirtualMachine.attr_truth.
  unfold_monad.
  destruct (VirtualMachine.self_delete_virtual_storage self); simpl.
  - by rewrite Hnone.
  - destruct Hcascade as [|Hdni]; [done|]. rewrite Hdni. simpl. by rewrite Hnone.
Qed.

(** C5 (cascade ordering) does not hold on the code.  [delete_vm] is
    written to capture the interfaces and their public addresses, delete
    the machine, and then delete what it captured; but the capture reads
    [vm], which is not in scope there (the file binds no such module-level
    name).  So for a machine that is there, forced, with
    [delete_network_interfaces] set: check mode announces [changed=true],
    and the run itself raises [NameError] right after the fetch of the
    machine.  Nothing is captured, the machine is not deleted, and no
    linked resource is: the run only reads. *)
Theorem cascade_raises_before_any_deletion (c : VirtualMachine.Cloud)
    (self : VirtualMachine.Self) (v : VirtualMachine.VirtualMachine) :
  VirtualMachine.global_vm c = None →
  VirtualMachine.self_delete_network_interfaces self = true →
  VirtualMachine.self_state self = VirtualMachine.started →
  VirtualMachine.self_force self = true →
  outcome_of (VirtualMachine.preamble self c (VirtualMachine.init self)) = Ok tt →
  VirtualMachine.virtual_machines_get c (VirtualMachine.self_resource_group self)
    (VirtualMachine.self_name self) = inr v →
  VirtualMachine.check_provisioning_state c v = None →
  VirtualMachine.serialize_obj c v = None →
  let p := VirtualMachine.preamble self c (VirtualMachine.init self) in
  (∀ f, VirtualMachine.delete_vm self c f = (Raised (NameError "vm"), f, []))
  ∧ (∃ res, outcome_of (VirtualMachine.run true self c) = Ok res
          ∧ VirtualMachine.r_changed res = true)
  ∧ outcome_of (VirtualMachine.run false self c) = Raised (NameError "vm")
  ∧ trace_of (VirtualMachine.run false self c)
    = trace_of p ++ [VirtualMachine.EvVmGet (VirtualMachine.self_resource_group self)
                       (VirtualMachine.self_name self)]
  ∧ Forall (λ ev, VirtualMachine.is_mutation ev = false)
           (trace_of (VirtualMachine.run false self c)).
Proof.
  intros Hnone Hdni Hstate Hforce Hp Hget Hcheck Hser p. subst p.
  assert (∀ f, VirtualMachine.delete_vm self c f = (Raised (NameError "vm"), f, []))
    as Hdelete by (intros f; apply vm_delete_needs_vm_in_scope; auto).
  split; [exact Hdelete|].
  assert (outcome_of (VirtualMachine.run false self c) = Raised (NameError "vm")
          ∧ trace_of (VirtualMachine.run false self c)
            = trace_of (VirtualMachine.preamble self c (VirtualMachine.init self))
              ++ [VirtualMachine.EvVmGet (VirtualMachine.self_resource_group self)
                    (VirtualMachine.self_name self)]
          ∧ ∃ res, outcome_of (VirtualMachine.run true self c) = Ok res
                 ∧ VirtualMachine.r_changed res = true) as (Ho & Ht & Hcm).
  { destruct (vm_decide_found c self v Hp Hget Hcheck Hser Hstate)
      as (Hod & Htd & Hc & Hrc & _ & _ & _).
    rewrite Hforce in *.
    unfold VirtualMachine.run, VirtualMachine.exec_module_impl, VirtualMachine.apply_plan,
      VirtualMachine.return_results.
    unfold_monad.
    destruct (VirtualMachine.decide self c (VirtualMachine.init self)) as [[o fd] td].
    simpl in *. subst o. rewrite <- Htd.
    rewrite Hc, Hstate, Hforce. simpl. rewrite Hdelete. simpl.
    rewrite !app_nil_r. eauto. }
  split; [exact Hcm|]. split; [exact Ho|]. split; [exact Ht|].
  rewrite Ht. apply Forall_app. split; [|by repeat constructor].
  apply vm_preamble_reads_only.
Qed.

Lemma cascade_raises_before_any_deletion_witness :
  let c := VmScenario.cloud true false [] in
  let self := VmScenario.invocation "Standard_D1" true true false true in
  VirtualMachine.delete_vm self c (VirtualMachine.init self)
    = (Raised (NameError "vm"), VirtualMachine.init self, [])
  ∧ outcome_of (VirtualMachine.run false self c) = Raised (NameError "vm")
  ∧ trace_of (VirtualMachine.run false self c)
    = [VirtualMachine.EvGetResourceGroup "Testing";
       VirtualMachine.EvSizesList (Some "eastus");
       VirtualMachine.EvNicGet "Testing" "nic001";
       VirtualMachine.EvImagesList (Some "eastus") (Some "OpenLogic") (Some "CentOS")
         (Some "7.1");
       VirtualMachine.EvStorageAccountGet "Testing" (Some "testaccount001");
       VirtualMachine.EvVmGet "Testing" "testvm002"].
Proof.
  destruct (cascade_raises_before_any_deletion (VmScenario.cloud true false [])
              (VmScenario.invocation "Standard_D1" true true false true)
              VmScenario.testvm002
              eq_refl eq_refl eq_refl eq_refl eq_refl eq_refl eq_refl eq_refl)
    as (Hdelete & _ & Ho & Ht & _).
  split; [apply Hdelete|]. split; [exact Ho | exact Ht].
Defined.

(** C9 (the blob clean-up never completes).  With [delete_virtual_storage]
    requested, [delete_vm] never returns: it raises, and it issues no blob
    call at all.  Where the module-level name [vm] is unbound (the file
    binds none) it raises [NameError] at once, before any call.  And
    [self.delete_virtual_storage] is the flag stored in the instance, not
    the method of the class, so calling it raises [TypeError] in any
    case. *)
Theorem blob_cleanup_never_completes (c : VirtualMachine.Cloud) (self : VirtualMachine.Self)
    (f : VirtualMachine.Frame) :
  VirtualMachine.self_delete_virtual_storage self = true →
  (∃ e, outcome_of (VirtualMachine.delete_vm self c f) = Raised e)
  ∧ Forall (λ ev, VirtualMachine.is_blob_call ev = false)
           (trace_of (VirtualMachine.delete_vm self c f))
  ∧ (VirtualMachine.global_vm c = None →
       VirtualMachine.delete_vm self c f = (Raised (NameError "vm"), f, []))
  ∧ (VirtualMachine.self_attr_delete_virtual_storage self = Some (VirtualMachine.AttrBool true)
     ∧ ∀ vhd_uris f',
         VirtualMachine.attr_call (VirtualMachine.self_attr_delete_virtual_storage self)
                                  vhd_uris c f'
         = (Raised (TypeError "'bool' object is not callable"), f', [])).
Proof.
  intros Hdvs.
  assert (VirtualMachine.self_attr_delete_virtual_storage self
          = Some (VirtualMachine.AttrBool true)) as Hattr.
  { unfold VirtualMachine.self_attr_delete_virtual_storage, VirtualMachine.getattr.
    by rewrite Hdvs. }
  pose proof (vm_capture_reads_only self c f) as Hcap.
  assert (VirtualMachine.global_vm c = None →
          VirtualMachine.delete_vm_capture self c f = (Raised (NameError "vm"), f, []))
    as Hname.
  { intros Hnone. unfold VirtualMachine.delete_vm_capture, VirtualMachine.global_name_vm.
    rewrite Hattr. unfold_monad. simpl. by rewrite Hnone. }
  unfold VirtualMachine.delete_vm, VirtualMachine.delete_vm_cleanup in *.
  rewrite Hattr. unfold VirtualMachine.attr_call, VirtualMachine.attr_truth.
  unfold_monad.
  destruct (VirtualMachine.delete_vm_capture self c f)
    as [[[[[vhd_uris nic_names] pip_names]|e] f1] t1]; simpl in *.
  - split; [|split; [|split]].
    + destruct (VirtualMachine.virtual_machines_delete c _ _) as [[]|[]]; simpl; eauto.
    + assert (Forall (λ ev, VirtualMachine.is_blob_call ev = false) t1) as Ht1.
      { eapply Forall_impl; [exact Hcap|]. by intros []. }
      destruct (VirtualMachine.virtual_machines_delete c _ _) as [[]|[]]; simpl;
        rewrite ?app_nil_r; apply Forall_app; split; try done; by repeat constructor.
    + intros Hnone. by specialize (Hname Hnone).
    + done.
  - split; [eauto|]. split; [|split].
    + eapply Forall_impl; [exact Hcap|]. by intros [].
    + intros Hnone. specialize (Hname Hnone). congruence.
    + done.
Qed.

Section OneProvider.
Context {Env St Ev : Type} (P : Ev → Prop) (env : Env).

End OneProvider.




Lemma blob_cleanup_never_completes_witness :
  let c := VmScenario.cloud true false [] in
  let self := VmScenario.invocation "Standard_D1" true false true false in
  VirtualMachine.delete_vm self c (VirtualMachine.init self)
  = (Raised (NameError "vm"), VirtualMachine.init self, []).
Proof.
  destruct (blob_cleanup_never_completes (VmScenario.cloud true false [])
              (VmScenario.invocation "Standard_D1" true false true false)
              (VirtualMachine.init (VmScenario.invocation "Standard_D1" true false true false))
              eq_refl) as (_ & _ & Hname & _).
  apply Hname. reflexivity.
Defined.

(** * Tags *)

(** C2 (tag replacement) does not hold on the code.  The documentation of
    both modules says that the given tags replace the existing ones and
    that without values the existing ones are removed.
    - Network interface: [nic003] has tags [{a: 1}]; invoked with no tags,
      or with [{}], the module skips the comparison ([if self.tags:]),
      returns [changed=false] with the tags [{a: 1}] still in the result,
      and issues no create-or-update.
    - Resource group: [Testing] has tags [{a: 1}]; invoked with [{}] the
      module reports [changed=true] in check mode, but the update builds
      its request from the fetched object: it raises [TypeError] on
      [rg['location']] where SDK models are plain objects, and submits the
      old tags [{a: 1}] where they can be subscripted. *)
Theorem tags_are_not_replaced :
  Forall (λ tags,
     let r := NetworkInterface.run false (NicScenario.invocation tags) NicScenario.cloud in
     (∃ res d, outcome_of r = Ok res
             ∧ NetworkInterface.r_changed res = false
             ∧ NetworkInterface.r_results res = NetworkInterface.Dict d
             ∧ NetworkInterface.d_tags d = Some {[ "a" := "1" ]})
     ∧ Forall (λ ev, NetworkInterface.is_mutation ev = false) (trace_of r))
    [None; Some ∅]
  ∧ (let self := RgScenario.invocation (Some "eastus2") (Some ∅) false in
     (∃ res, outcome_of (ResourceGroup.run true self RgScenario.cloud) = Ok res
           ∧ ResourceGroup.r_changed res = true)
     ∧ outcome_of (ResourceGroup.run false self RgScenario.cloud)
       = Raised (TypeError "'ResourceGroup' object has no attribute '__getitem__'")
     ∧ trace_of (ResourceGroup.run false self RgScenario.cloud)
       = [ResourceGroup.EvGet "Testing"]
     ∧ trace_of (ResourceGroup.run false self RgScenario.cloud_subscriptable)
       = [ResourceGroup.EvGet "Testing";
          ResourceGroup.EvCreateOrUpdate "Testing"
            {| ResourceGroup.rg_id := None; ResourceGroup.rg_name := None;
               ResourceGroup.rg_location := "eastus2";
               ResourceGroup.rg_tags := Some {[ "a" := "1" ]};
               ResourceGroup.rg_provisioning_state := None |}]).
Proof.
  split.
  - repeat constructor.
    all: try (eexists _, _; (split; [vm_compute; reflexivity|]); by vm_compute).
    all: by vm_compute; repeat constructor.
  - split; [|by vm_compute].
    eexists; split; [vm_compute; reflexivity | reflexivity].
Qed.

(** * The size of a new machine *)

(** [vm_size_is_valid] returns whether the size is among those the
    provider lists; it fails only when the listing itself fails. *)
Lemma vm_size_is_valid_returns (c : VirtualMachine.Cloud) (self : VirtualMachine.Self)
    (f : VirtualMachine.Frame) sizes :
  VirtualMachine.virtual_machine_sizes_list c (VirtualMachine.self_location f) = inr sizes →
  VirtualMachine.vm_size_is_valid self c f
  = (Ok (existsb (λ size, bool_decide (VirtualMachine.size_name size
                                       = VirtualMachine.self_vm_size self)) sizes),
     f, [VirtualMachine.EvSizesList (VirtualMachine.self_location f)]).
Proof.
  intros Hsizes. unfold VirtualMachine.vm_size_is_valid. unfold_monad.
  simpl. by rewrite Hsizes.
Qed.

(** C3 (size validation) does not hold on the code.  [vm_size_is_valid]
    returns [True] or [False] and [exec_module_impl] drops what it
    returns.  So for a location that offers [Standard_D1] only, where
    [vm_size_is_valid] answers [False] for [Standard_G5], creating
    [testvm002] with that size succeeds and the last call is the
    create-or-update with the size [Standard_G5]. *)
Theorem unavailable_vm_size_is_submitted :
  let c := VmScenario.cloud false false [] in
  let self := VmScenario.invocation "Standard_G5" false false false false in
  let r := VirtualMachine.run false self c in
  VirtualMachine.virtual_machine_sizes_list c (Some "eastus")
    = inr [ {| VirtualMachine.size_name := "Standard_D1" |} ]
  ∧ outcome_of (VirtualMachine.vm_size_is_valid self c (VirtualMachine.init self)) = Ok false
  ∧ ∃ res params,
      outcome_of r = Ok res
      ∧ VirtualMachine.r_changed res = true
      ∧ last (trace_of r)
        = Some (VirtualMachine.EvVmCreateOrUpdate "Testing" "testvm002" params)
      ∧ VirtualMachine.hw_vm_size (VirtualMachine.hardware_profile params)
        = "Standard_G5".
Proof.
  split; [reflexivity|]. split; [by vm_compute|].
  eexists _, _. split; [vm_compute; reflexivity|].
  split; [reflexivity|]. split; [vm_compute; reflexivity | reflexivity].
Qed.

(** * Resource group: the life cycle *)

(** Run [exec_module_impl] of the resource-group module symbolically. *)
Ltac rg_exec :=
  unfold ResourceGroup.run, ResourceGroup.exec_module_impl, ResourceGroup.decide,
    ResourceGroup.apply_plan, ResourceGroup.delete_resource_group,
    ResourceGroup.create_or_update_resource_group, ResourceGroup.rg_item;
  autounfold with prog; unfold_monad; simpl.

(** X1 (absent stays absent).  A resource group that is not there (the fetch
    raises [CloudError]) and is to be absent: the run returns
    [changed=false] with an empty result, and its only call is the fetch,
    in check mode or not and whatever the other arguments. *)
Theorem rg_absent_is_stable (c : ResourceGroup.Cloud) (self : ResourceGroup.Self)
    (check_mode : bool) (msg : string) :
  ResourceGroup.resource_groups_get c (ResourceGroup.self_name self) = inl (ErrCloud msg) →
  ResourceGroup.self_state self = ResourceGroup.absent →
  outcome_of (ResourceGroup.run check_mode self c)
    = Ok {| ResourceGroup.r_changed := false;
            ResourceGroup.r_check_mode := check_mode;
            ResourceGroup.r_results := ResourceGroup.EmptyDict |}
  ∧ trace_of (ResourceGroup.run check_mode self c)
    = [ResourceGroup.EvGet (ResourceGroup.self_name self)].
Proof.
  intros Hget Hstate. rg_exec. rewrite Hget. simpl. rewrite Hstate. simpl.
  by destruct check_mode.
Qed.

(** X2 (fetch errors).  Only [CloudError] means "not there": any other
    exception of the fetch leaves [exec_module_impl] as it is, after the
    one call and without a decision. *)
Theorem rg_fetch_error_is_fatal (c : ResourceGroup.Cloud) (self : ResourceGroup.Self)
    (check_mode : bool) (msg : string) :
  ResourceGroup.resource_groups_get c (ResourceGroup.self_name self) = inl (ErrOther msg) →
  outcome_of (ResourceGroup.run check_mode self c) = Raised (Exception msg)
  ∧ trace_of (ResourceGroup.run check_mode self c)
    = [ResourceGroup.EvGet (ResourceGroup.self_name self)].
Proof.
  intros Hget. rg_exec. by rewrite Hget.
Qed.

(** X3 (idempotence).  A group that is there with the tags and the location
    of the arguments, without [force]: [changed=false], the result is the
    observed group, and the only call is the fetch. *)
Theorem rg_unchanged_is_noop (c : ResourceGroup.Cloud) (self : ResourceGroup.Self)
    (check_mode : bool) (rg : ResourceGroup.ResourceGroup) :
  ResourceGroup.resource_groups_get c (ResourceGroup.self_name self) = inr rg →
  ResourceGroup.check_provisioning_state c rg = None →
  ResourceGroup.self_state self = ResourceGroup.present →
  ResourceGroup.self_force self = false →
  ResourceGroup.self_tags self = ResourceGroup.rg_tags rg →
  ResourceGroup.self_location self = Some (ResourceGroup.rg_location rg) →
  outcome_of (ResourceGroup.run check_mode self c)
    = Ok {| ResourceGroup.r_changed := false;
            ResourceGroup.r_check_mode := check_mode;
            ResourceGroup.r_results :=
              ResourceGroup.Dict (ResourceGroup.resource_group_to_dict rg) |}
  ∧ trace_of (ResourceGroup.run check_mode self c)
    = [ResourceGroup.EvGet (ResourceGroup.self_name self)].
Proof.
  intros Hget Hcheck Hstate Hforce Htags Hloc. rg_exec.
  rewrite Hget. simpl. rewrite Hcheck, Hstate, Hforce, Htags, Hloc. simpl.
  repeat (rewrite bool_decide_eq_false_2 by (intros H; by apply H); simpl).
  by destruct check_mode.
Qed.

(** X4 (creation).  A group that is not there and is to be present, with a
    location and without [force]: after the fetch the one call is a
    create-or-update with the location and the tags of the arguments; its
    reply decides the outcome ([changed=true] with the created group, or
    the failure message of [create_or_update_resource_group]). *)
Theorem rg_created_when_absent (c : ResourceGroup.Cloud) (self : ResourceGroup.Self)
    (msg location : string) :
  ResourceGroup.resource_groups_get c (ResourceGroup.self_name self) = inl (ErrCloud msg) →
  ResourceGroup.self_state self = ResourceGroup.present →
  ResourceGroup.self_force self = false →
  ResourceGroup.self_location self = Some location →
  location ≠ "" →
  let params := {| ResourceGroup.rg_id := None; ResourceGroup.rg_name := None;
                   ResourceGroup.rg_location := location;
                   ResourceGroup.rg_tags := ResourceGroup.self_tags self;
                   ResourceGroup.rg_provisioning_state := None |} in
  let r := ResourceGroup.run false self c in
  trace_of r = [ResourceGroup.EvGet (ResourceGroup.self_name self);
                ResourceGroup.EvCreateOrUpdate (ResourceGroup.self_name self) params]
  ∧ match ResourceGroup.resource_groups_create_or_update c (ResourceGroup.self_name self)
            params with
    | inr created =>
        outcome_of r
        = Ok {| ResourceGroup.r_changed := true;
                ResourceGroup.r_check_mode := false;
                ResourceGroup.r_results :=
                  ResourceGroup.Dict (ResourceGroup.resource_group_to_dict created) |}
    | inl e =>
        outcome_of r
        = Raised (SystemExit ("Error creating or updating resource group "
                              +:+ ResourceGroup.self_name self +:+ " - "
                              +:+ exn_str (sdk_exn e)))
    end.
Proof.
  intros Hget Hstate Hforce Hloc Hne params r. subst params r.
  assert ((location =? "")%string = false) as Hnonempty by by apply String.eqb_neq.
  rg_exec. rewrite Hget. simpl. rewrite Hstate, Hforce, Hloc. simpl.
  rewrite Hnonempty. simpl.
  by destruct (ResourceGroup.resource_groups_create_or_update _ _ _) as [[]|].
Qed.

(** X5 (creation needs a location).  A group that is not there and is to be
    present, without [force] and without a location: the run fails with
    "location is required" after the fetch alone, while the check-mode run
    of the same invocation answers [changed=true]. *)
Theorem rg_create_requires_location (c : ResourceGroup.Cloud) (self : ResourceGroup.Self)
    (msg : string) :
  ResourceGroup.resource_groups_get c (ResourceGroup.self_name self) = inl (ErrCloud msg) →
  ResourceGroup.self_state self = ResourceGroup.present →
  ResourceGroup.self_force self = false →
  truthy_str (ResourceGroup.self_location self) = false →
  (outcome_of (ResourceGroup.run false self c)
     = Raised (SystemExit
         "Parameter error: location is required when creating a resource group.")
   ∧ trace_of (ResourceGroup.run false self c)
     = [ResourceGroup.EvGet (ResourceGroup.self_name self)])
  ∧ outcome_of (ResourceGroup.run true self c)
    = Ok {| ResourceGroup.r_changed := true;
            ResourceGroup.r_check_mode := true;
            ResourceGroup.r_results := ResourceGroup.EmptyDict |}.
Proof.
  intros Hget Hstate Hforce Hloc. rg_exec. rewrite Hget. simpl.
  rewrite Hstate, Hforce. simpl.
  destruct (ResourceGroup.self_location self) as [l|]; simpl in *; [|done].
  by rewrite Hloc.
Qed.

(** X6 (deletion).  A group that is there and is to be absent: the calls are
    the fetch and one delete; the result is [Deleted] with [changed=true]
    when the poller succeeds, the poller's exception when it fails, and
    the failure message of [delete_resource_group] when the call raises. *)
Theorem rg_deleted_when_present (c : ResourceGroup.Cloud) (self : ResourceGroup.Self)
    (rg : ResourceGroup.ResourceGroup) :
  ResourceGroup.resource_groups_get c (ResourceGroup.self_name self) = inr rg →
  ResourceGroup.check_provisioning_state c rg = None →
  ResourceGroup.self_state self = ResourceGroup.absent →
  let r := ResourceGroup.run false self c in
  trace_of r = [ResourceGroup.EvGet (ResourceGroup.self_name self);
                ResourceGroup.EvDelete (ResourceGroup.self_name self)]
  ∧ match ResourceGroup.resource_groups_delete c (ResourceGroup.self_name self) with
    | inr (inr _) =>
        outcome_of r = Ok {| ResourceGroup.r_changed := true;
                             ResourceGroup.r_check_mode := false;
                             ResourceGroup.r_results := ResourceGroup.Deleted |}
    | inr (inl e) => outcome_of r = Raised e
    | inl e =>
        outcome_of r
        = Raised (SystemExit ("Error delete resource group "
                              +:+ ResourceGroup.self_name self +:+ " - "
                              +:+ exn_str (sdk_exn e)))
    end.
Proof.
  intros Hget Hcheck Hstate r. subst r. rg_exec. rewrite Hget. simpl.
  rewrite Hcheck, Hstate. simpl.
  by destruct (ResourceGroup.resource_groups_delete _ _) as [[]|[|[]]].
Qed.

(** X7 ([force] on a missing group).  With [force] a group that is not there
    is deleted before it is created: when the provider refuses that
    delete the run fails with the message of [delete_resource_group] and
    nothing is created. *)
Theorem rg_force_on_absent_deletes_first (c : ResourceGroup.Cloud) (self : ResourceGroup.Self)
    (msg : string) (e : SdkError) :
  ResourceGroup.resource_groups_get c (ResourceGroup.self_name self) = inl (ErrCloud msg) →
  ResourceGroup.self_state self = ResourceGroup.present →
  ResourceGroup.self_force self = true →
  ResourceGroup.resource_groups_delete c (ResourceGroup.self_name self) = inl e →
  outcome_of (ResourceGroup.run false self c)
    = Raised (SystemExit ("Error delete resource group "
                          +:+ ResourceGroup.self_name self +:+ " - "
                          +:+ exn_str (sdk_exn e)))
  ∧ trace_of (ResourceGroup.run false self c)
    = [ResourceGroup.EvGet (ResourceGroup.self_name self);
       ResourceGroup.EvDelete (ResourceGroup.self_name self)].
Proof.
  intros Hget Hstate Hforce Hdel. rg_exec. rewrite Hget. simpl.
  rewrite Hstate, Hforce. simpl. rewrite Hdel. by destruct e.
Qed.

(** X8 (no creation for [absent]).  A run for [state=absent] never submits a
    create-or-update, whatever the provider answers. *)
Theorem rg_absent_never_creates (self : ResourceGroup.Self) (check_mode : bool) :
  ResourceGroup.self_state self = ResourceGroup.absent →
  emits_only (λ ev, match ev with
                    | ResourceGroup.EvCreateOrUpdate _ _ => False
                    | _ => True
                    end)
             (ResourceGroup.exec_module_impl check_mode self).
Proof.
  intros Hstate.
  unfold ResourceGroup.exec_module_impl, ResourceGroup.apply_plan,
    ResourceGroup.delete_resource_group, ResourceGroup.decide.
  rewrite Hstate. simpl. emits.
Qed.

(** X9 (no deletion without [force]).  A run for [state=present] without
    [force] never submits a delete, whatever the provider answers. *)
Theorem rg_present_unforced_never_deletes (self : ResourceGroup.Self) (check_mode : bool) :
  ResourceGroup.self_state self = ResourceGroup.present →
  ResourceGroup.self_force self = false →
  emits_only (λ ev, match ev with
                    | ResourceGroup.EvDelete _ => False
                    | _ => True
                    end)
             (ResourceGroup.exec_module_impl check_mode self).
Proof.
  intros Hstate Hforce.
  unfold ResourceGroup.exec_module_impl, ResourceGroup.apply_plan,
    ResourceGroup.create_or_update_resource_group, ResourceGroup.rg_item,
    ResourceGroup.decide.
  rewrite Hstate, Hforce. simpl. emits.
Qed.

(** * The blob address parser *)

Section BlobUri.
Import VirtualMachine.

Lemma list_ascii_of_string_app (s1 s2 : string) :
  list_ascii_of_string (s1 +:+ s2) = list_ascii_of_string s1 ++ list_ascii_of_string s2.
Proof. induction s1 as [|a s1 IH]; simpl; [done|]. by rewrite IH. Qed.

Lemma strip_prefix_app (p l : list ascii) : strip_prefix p (p ++ l) = Some l.
Proof.
  induction p as [|a p IH]; simpl; [by destruct l|]. by rewrite Ascii.eqb_refl.
Qed.

Lemma strip_prefix_inv (p l r : list ascii) : strip_prefix p l = Some r → l = p ++ r.
Proof.
  revert l. induction p as [|a p IH]; intros l; simpl.
  - intros [= ->]. done.
  - destruct l as [|b l]; [done|].
    destruct (Ascii.eqb a b) eqn:Hab; [|done].
    apply Ascii.eqb_eq in Hab as ->. intros H. by rewrite (IH _ H).
Qed.

Lemma span_until_app (stop : ascii) (x y y' : list ascii) :
  stop ∉ x → y = stop :: y' → span_until stop (x ++ y) = (x, y).
Proof.
  intros Hx ->. induction x as [|a x IH]; simpl.
  - by rewrite Ascii.eqb_refl.
  - apply not_elem_of_cons in Hx as [Hne Hx].
    destruct (Ascii.eqb a stop) eqn:Ha; [apply Ascii.eqb_eq in Ha; congruence|].
    by rewrite IH.
Qed.

Lemma span_until_all (stop : ascii) (x : list ascii) :
  stop ∉ x → span_until stop x = (x, []).
Proof.
  induction x as [|a x IH]; simpl; intros Hx; [done|].
  apply not_elem_of_cons in Hx as [Hne Hx].
  destruct (Ascii.eqb a stop) eqn:Ha; [apply Ascii.eqb_eq in Ha; congruence|].
  by rewrite IH.
Qed.

Lemma span_until_inv (stop : ascii) (l x y : list ascii) :
  span_until stop l = (x, y) →
  l = x ++ y ∧ (stop ∉ x) ∧ (y = [] ∨ ∃ y', y = stop :: y').
Proof.
  revert x y. induction l as [|a l IH]; simpl; intros x y.
  - intros [= <- <-]. split; [done|]. split; [apply not_elem_of_nil | by left].
  - destruct (Ascii.eqb a stop) eqn:Ha.
    + apply Ascii.eqb_eq in Ha as ->. intros [= <- <-].
      split; [done|]. split; [apply not_elem_of_nil | right; eauto].
    + destruct (span_until stop l) as [x' y'] eqn:Hl. intros [= <- <-].
      destruct (IH x' y' eq_refl) as (-> & Hx & Hy).
      split; [done|]. split; [|done].
      apply not_elem_of_cons. split; [|done].
      intros ->. by rewrite Ascii.eqb_refl in Ha.
Qed.

Lemma string_of_list_ascii_app (l1 l2 : list ascii) :
  string_of_list_ascii (l1 ++ l2) = string_of_list_ascii l1 +:+ string_of_list_ascii l2.
Proof. induction l1 as [|a l1 IH]; simpl; [done|]. by rewrite IH. Qed.

Lemma string_of_list_nonempty (l : list ascii) : l ≠ [] → string_of_list_ascii l ≠ "".
Proof. by destruct l. Qed.

Lemma list_ascii_nonempty (s : string) : s ≠ "" → list_ascii_of_string s ≠ [].
Proof. by destruct s. Qed.
End BlobUri.

Lemma blob_uri_match_round_trip (account container blob : string) :
  account ≠ "" → container ≠ "" → blob ≠ "" →
  "."%char ∉ list_ascii_of_string account →
  "/"%char ∉ list_ascii_of_string container →
  VirtualMachine.newline ∉ list_ascii_of_string blob →
  VirtualMachine.blob_uri_match
    ("https://" +:+ account +:+ ".blob.core.windows.net/" +:+ container +:+ "/" +:+ blob)
  = Some {| VirtualMachine.accountname := account;
            VirtualMachine.containername := container;
            VirtualMachine.blobname := blob |}.
Proof.
  intros Ha Hc Hb Hdot Hslash Hnl.
  unfold VirtualMachine.blob_uri_match.
  rewrite !list_ascii_of_string_app, strip_prefix_app.
  cbn [mbind option_bind].
  erewrite (span_until_app "."%char) by (done || reflexivity).
  rewrite strip_prefix_app. cbn [mbind option_bind].
  erewrite (span_until_app "/"%char) by (done || reflexivity).
  change (list_ascii_of_string "/") with ["/"%char].
  rewrite strip_prefix_app. cbn [mbind option_bind].
  rewrite (span_until_all _ _ Hnl).
  rewrite bool_decide_eq_true_2.
  - by rewrite !string_of_list_ascii_of_string.
  - repeat split; auto using list_ascii_nonempty.
Qed.

Lemma blob_uri_match_sound (blob_uri : string) (names : VirtualMachine.BlobNames) :
  VirtualMachine.blob_uri_match blob_uri = Some names →
  VirtualMachine.accountname names ≠ ""
  ∧ VirtualMachine.containername names ≠ ""
  ∧ VirtualMachine.blobname names ≠ ""
  ∧ ∃ tail, (tail = "" ∨ tail = String VirtualMachine.newline "")
      ∧ blob_uri = "https://" +:+ VirtualMachine.accountname names
                   +:+ ".blob.core.windows.net/" +:+ VirtualMachine.containername names
                   +:+ "/" +:+ VirtualMachine.blobname names +:+ tail.
Proof.
  unfold VirtualMachine.blob_uri_match. intros H.
  destruct (VirtualMachine.strip_prefix (list_ascii_of_string "https://") _)
    as [l1|] eqn:H1; [|done].
  apply strip_prefix_inv in H1. cbn [mbind option_bind] in H.
  destruct (VirtualMachine.span_until "."%char l1) as [account l2] eqn:H2.
  apply span_until_inv in H2 as (-> & _ & _).
  destruct (VirtualMachine.strip_prefix (list_ascii_of_string ".blob.core.windows.net/") l2)
    as [l3|] eqn:H3; [|done].
  apply strip_prefix_inv in H3 as ->. cbn [mbind option_bind] in H.
  destruct (VirtualMachine.span_until "/"%char l3) as [container l4] eqn:H4.
  apply span_until_inv in H4 as (-> & _ & _).
  destruct (VirtualMachine.strip_prefix ["/"%char] l4) as [l5|] eqn:H5; [|done].
  apply strip_prefix_inv in H5 as ->. cbn [mbind option_bind] in H.
  destruct (VirtualMachine.span_until VirtualMachine.newline l5) as [blob l6] eqn:H6.
  apply span_until_inv in H6 as (-> & _ & _).
  case_bool_decide as Hok; [|done]. injection H as <-. simpl.
  destruct Hok as (Ha & Hc & Hb & Htail).
  repeat (split; [by apply string_of_list_nonempty|]).
  exists (string_of_list_ascii l6). split.
  - destruct Htail as [-> | ->]; [by left | by right].
  - rewrite <- (string_of_list_ascii_of_string blob_uri), H1.
    by rewrite !string_of_list_ascii_app.
Qed.

(** X10 (round trip of the blob address).  On an address in the format of the
    create path
    ([https://{account}.blob.core.windows.net/{container}/{blob}])
    [extract_names_from_blob_uri] gives back the three names, provided
    the account has no dot, the container no slash, the blob no newline,
    and none is empty. *)
Theorem extract_names_round_trip {T} (self : T) (account container blob : string) :
  account ≠ "" → container ≠ "" → blob ≠ "" →
  "."%char ∉ list_ascii_of_string account →
  "/"%char ∉ list_ascii_of_string container →
  VirtualMachine.newline ∉ list_ascii_of_string blob →
  VirtualMachine.extract_names_from_blob_uri self
    ("https://" +:+ account +:+ ".blob.core.windows.net/" +:+ container +:+ "/" +:+ blob)
  = inr {| VirtualMachine.accountname := account;
           VirtualMachine.containername := container;
           VirtualMachine.blobname := blob |}.
Proof.
  intros. unfold VirtualMachine.extract_names_from_blob_uri.
  by rewrite blob_uri_match_round_trip.
Qed.

Lemma extract_names_round_trip_witness :
  VirtualMachine.extract_names_from_blob_uri tt
    ("https://" +:+ "testaccount001" +:+ ".blob.core.windows.net/" +:+ "testvm001"
     +:+ "/" +:+ "testvm001.vsd.vhd")
  = inr {| VirtualMachine.accountname := "testaccount001";
           VirtualMachine.containername := "testvm001";
           VirtualMachine.blobname := "testvm001.vsd.vhd" |}.
Proof.
  apply (extract_names_round_trip tt "testaccount001" "testvm001" "testvm001.vsd.vhd");
    try discriminate; apply (bool_decide_unpack _); by vm_compute.
Defined.

(** X11 (what the blob address parser returns).
    [extract_names_from_blob_uri] returns either the exception "unable to
    parse blob uri", or three non-empty names of which the address is
    made, in that format, possibly followed by one newline. *)
Theorem extract_names_sound {T} (self : T) (blob_uri : string) :
  match VirtualMachine.extract_names_from_blob_uri self blob_uri with
  | inl e => e = Exception ("unable to parse blob uri '" +:+ blob_uri +:+ "'")
  | inr names =>
      VirtualMachine.accountname names ≠ ""
      ∧ VirtualMachine.containername names ≠ ""
      ∧ VirtualMachine.blobname names ≠ ""
      ∧ ∃ tail, (tail = "" ∨ tail = String VirtualMachine.newline "")
          ∧ blob_uri = "https://" +:+ VirtualMachine.accountname names
                       +:+ ".blob.core.windows.net/" +:+ VirtualMachine.containername names
                       +:+ "/" +:+ VirtualMachine.blobname names +:+ tail
  end.
Proof.
  unfold VirtualMachine.extract_names_from_blob_uri.
  destruct (VirtualMachine.blob_uri_match blob_uri) as [names|] eqn:H; [|done].
  by apply blob_uri_match_sound.
Qed.

(** * The name pattern of the network-interface module *)

Section NamePattern.
Import NetworkInterface.

Lemma pattern_full_inv (l : list ascii) :
  pattern_full l = true →
  ∃ c rest, l = c :: rest ∧ is_lower c = true ∧ (3 ≤ List.length l ≤ 63)%nat
          ∧ Forall (λ a, is_lower a || is_digit a || is_hyphen a = true) l.
Proof.
  destruct l as [|c rest]; [done|]. unfold pattern_full.
  intros H. apply andb_prop in H as [Hc H].
  destruct (reverse rest) as [|z mid] eqn:Hrev; [done|].
  apply andb_prop in H as [H Hmid]. apply andb_prop in H as [H Hmax].
  apply andb_prop in H as [Hz Hmin].
  apply Nat.leb_le in Hmin, Hmax.
  assert (rest = reverse mid ++ [z]) as ->.
  { rewrite <- (reverse_involutive rest), Hrev. by rewrite reverse_cons. }
  exists c, (reverse mid ++ [z]). split; [done|]. split; [done|].
  split.
  - simpl. rewrite length_app, length_reverse. simpl. lia.
  - constructor; [by rewrite Hc|].
    apply Forall_app. split.
    + apply Forall_reverse, Forall_forall. intros a Ha.
      rewrite forallb_forall in Hmid. apply Hmid. by apply list_elem_of_In.
    + constructor; [|done].
      apply orb_prop in Hz as [-> | ->]; [done|]. by rewrite orb_true_r.
Qed.

Lemma string_app_empty_r (s : string) : s +:+ "" = s.
Proof.
  induction s as [|a s IH]; [done|].
  change (String a (s +:+ "") = String a s). by f_equal.
Qed.

Lemma length_list_ascii (s : string) :
  List.length (list_ascii_of_string s) = String.length s.
Proof. induction s as [|a s IH]; simpl; [done|]. by rewrite IH. Qed.
End NamePattern.

(** X12 (the names [NAME_PATTERN] accepts).  A name the pattern accepts starts
    with a lower-case letter, has 3 to 63 characters, all of them
    lower-case letters, digits or hyphens -- or is such a name followed by
    one newline.  So a name that starts with a digit or holds an
    upper-case letter is refused. *)
Theorem name_pattern_sound (name : string) :
  NetworkInterface.NAME_PATTERN_match name = true →
  ∃ core tail,
    name = core +:+ tail
    ∧ (tail = "" ∨ tail = String (ascii_of_nat 10) "")
    ∧ (3 ≤ String.length core ≤ 63)%nat
    ∧ (∃ c rest, core = String c rest ∧ NetworkInterface.is_lower c = true)
    ∧ Forall (λ a, NetworkInterface.is_lower a || NetworkInterface.is_digit a
                   || NetworkInterface.is_hyphen a = true)
             (list_ascii_of_string core).
Proof.
  unfold NetworkInterface.NAME_PATTERN_match. intros H.
  apply orb_prop in H as [H|H].
  - exists name, "". destruct (pattern_full_inv _ H) as (c & rest & Hl & Hc & Hlen & Hall).
    split; [by rewrite string_app_empty_r |]. split; [by left|].
    split; [by rewrite <- length_list_ascii |].
    split; [|done].
    exists c, (string_of_list_ascii rest). split; [|done].
    by rewrite <- (string_of_list_ascii_of_string name), Hl.
  - destruct (reverse (list_ascii_of_string name)) as [|nl r] eqn:Hrev; [done|].
    apply andb_prop in H as [Hnl H]. apply Nat.eqb_eq in Hnl.
    destruct (pattern_full_inv _ H) as (c & rest & Hl & Hc & Hlen & Hall).
    assert (nl = ascii_of_nat 10) as -> by by rewrite <- Hnl, ascii_nat_embedding.
    assert (list_ascii_of_string name = reverse r ++ [ascii_of_nat 10]) as Hname.
    { rewrite <- (reverse_involutive (list_ascii_of_string name)), Hrev.
      by rewrite reverse_cons. }
    exists (string_of_list_ascii (reverse r)), (String (ascii_of_nat 10) "").
    split.
    { rewrite <- (string_of_list_ascii_of_string name), Hname.
      by rewrite string_of_list_ascii_app. }
    split; [by right|].
    rewrite list_ascii_of_string_of_list_ascii.
    split; [by rewrite <- length_list_ascii, list_ascii_of_string_of_list_ascii|].
    split; [|done].
    exists c, (string_of_list_ascii rest). by rewrite Hl.
Qed.

(** * Network interface: the life cycle *)

(** Run [exec_module_impl] of the network-interface module symbolically. *)
Ltac nic_exec :=
  unfold NetworkInterface.run, NetworkInterface.exec_module_impl,
    NetworkInterface.apply_plan, NetworkInterface.delete_nic,
    NetworkInterface.create_or_update_nic, NetworkInterface.build_new,
    NetworkInterface.build_update, NetworkInterface.init;
  autounfold with prog; unfold_monad; simpl.

(** X13 (refused names).  A name the pattern refuses ends the run right after
    the resource group is read: no subnet, address, security group or
    interface is queried, in either mode and for either state. *)
Theorem nic_invalid_name_is_refused (c : NetworkInterface.Cloud)
    (self : NetworkInterface.Self) (check_mode : bool)
    (info : NetworkInterface.ResourceGroupInfo) :
  NetworkInterface.NAME_PATTERN_match (NetworkInterface.self_name self) = false →
  NetworkInterface.get_resource_group c (NetworkInterface.self_resource_group self)
    = inr info →
  outcome_of (NetworkInterface.run check_mode self c)
    = Raised (SystemExit
        ("Parameter error: name must begin with a letter or number, end with a letter "
         +:+ "or number and contain at least one number."))
  ∧ trace_of (NetworkInterface.run check_mode self c)
    = [NetworkInterface.EvGetResourceGroup (NetworkInterface.self_resource_group self)].
Proof.
  intros Hname Hrg. nic_exec. rewrite Hrg. simpl. rewrite Hname.
  by destruct (negb (truthy_str (NetworkInterface.arg_location self))).
Qed.

(** X14 (missing subnet).  For [state=present] the subnet is resolved first:
    when the provider does not know it, the run fails with the parameter
    error of [get_subnet] and the interface itself is never fetched. *)
Theorem nic_missing_subnet_is_fatal (c : NetworkInterface.Cloud)
    (self : NetworkInterface.Self) (check_mode : bool)
    (info : NetworkInterface.ResourceGroupInfo) (msg : string) :
  NetworkInterface.self_state self = NetworkInterface.present →
  NetworkInterface.NAME_PATTERN_match (NetworkInterface.self_name self) = true →
  NetworkInterface.get_resource_group c (NetworkInterface.self_resource_group self)
    = inr info →
  NetworkInterface.subnets_get c (NetworkInterface.self_resource_group self)
    (NetworkInterface.self_virtual_network_name self)
    (NetworkInterface.self_subnet_name self) = inl (ErrCloud msg) →
  outcome_of (NetworkInterface.run check_mode self c)
    = Raised (SystemExit
        ("Parameter error: subnet " +:+ py_str (NetworkInterface.self_subnet_name self)
         +:+ " not found in virtual network "
         +:+ py_str (NetworkInterface.self_virtual_network_name self)))
  ∧ trace_of (NetworkInterface.run check_mode self c)
    = [NetworkInterface.EvGetResourceGroup (NetworkInterface.self_resource_group self);
       NetworkInterface.EvSubnetGet (NetworkInterface.self_resource_group self)
         (NetworkInterface.self_virtual_network_name self)
         (NetworkInterface.self_subnet_name self)].
Proof.
  intros Hstate Hname Hrg Hsub. nic_exec. rewrite Hrg. simpl. rewrite Hname, Hstate. simpl.
  destruct (negb (truthy_str (NetworkInterface.arg_location self))); simpl;
    by rewrite Hsub.
Qed.

(** X15 (absent stays absent).  An interface that is not there and is to be
    absent: nothing to do.  The subnet, the address and the security
    group named in the arguments are not looked up. *)
Theorem nic_absent_is_stable (c : NetworkInterface.Cloud)
    (self : NetworkInterface.Self) (check_mode : bool)
    (info : NetworkInterface.ResourceGroupInfo) (msg : string) :
  NetworkInterface.self_state self = NetworkInterface.absent →
  NetworkInterface.NAME_PATTERN_match (NetworkInterface.self_name self) = true →
  NetworkInterface.get_resource_group c (NetworkInterface.self_resource_group self)
    = inr info →
  NetworkInterface.network_interfaces_get c (NetworkInterface.self_resource_group self)
    (NetworkInterface.self_name self) = inl (ErrCloud msg) →
  outcome_of (NetworkInterface.run check_mode self c)
    = Ok {| NetworkInterface.r_changed := false;
            NetworkInterface.r_check_mode := check_mode;
            NetworkInterface.r_results := NetworkInterface.EmptyDict |}
  ∧ trace_of (NetworkInterface.run check_mode self c)
    = [NetworkInterface.EvGetResourceGroup (NetworkInterface.self_resource_group self);
       NetworkInterface.EvNicGet (NetworkInterface.self_resource_group self)
         (NetworkInterface.self_name self)].
Proof.
  intros Hstate Hname Hrg Hget. nic_exec. rewrite Hrg. simpl. rewrite Hname, Hstate. simpl.
  destruct (negb (truthy_str (NetworkInterface.arg_location self))); simpl;
    rewrite Hget; simpl; by destruct check_mode.
Qed.

(** X16 (deletion).  An interface that is there and is to be absent is
    deleted by the one delete call; the result then reads [Deleted].  A
    delete call that raises ends the run with the message of
    [delete_nic]. *)
Theorem nic_deleted_when_present (c : NetworkInterface.Cloud)
    (self : NetworkInterface.Self)
    (info : NetworkInterface.ResourceGroupInfo) (n : NetworkInterface.NetworkInterface)
    (d : NetworkInterface.NicDict) :
  NetworkInterface.self_state self = NetworkInterface.absent →
  NetworkInterface.NAME_PATTERN_match (NetworkInterface.self_name self) = true →
  NetworkInterface.get_resource_group c (NetworkInterface.self_resource_group self)
    = inr info →
  NetworkInterface.network_interfaces_get c (NetworkInterface.self_resource_group self)
    (NetworkInterface.self_name self) = inr n →
  NetworkInterface.check_provisioning_state c n = None →
  NetworkInterface.nic_to_dict (NetworkInterface.azure_id_to_dict c) n = inr d →
  let rg := NetworkInterface.self_resource_group self in
  let name := NetworkInterface.self_name self in
  trace_of (NetworkInterface.run false self c)
    = [NetworkInterface.EvGetResourceGroup rg; NetworkInterface.EvNicGet rg name;
       NetworkInterface.EvNicDelete rg name]
  ∧ (NetworkInterface.network_interfaces_delete c rg name = inr (inr tt) →
     outcome_of (NetworkInterface.run false self c)
     = Ok {| NetworkInterface.r_changed := true;
             NetworkInterface.r_check_mode := false;
             NetworkInterface.r_results := NetworkInterface.Deleted |})
  ∧ (∀ e, NetworkInterface.network_interfaces_delete c rg name = inl e →
     outcome_of (NetworkInterface.run false self c)
     = Raised (SystemExit ("Error deleting network interface " +:+ name +:+ " - "
                           +:+ exn_str (sdk_exn e)))).
Proof.
  intros Hstate Hname Hrg Hget Hcheck Hdict rg name. subst rg name.
  nic_exec. rewrite Hrg. simpl. rewrite Hname, Hstate. simpl.
  destruct (negb (truthy_str (NetworkInterface.arg_location self))); simpl;
    rewrite Hget; simpl; rewrite Hcheck; simpl; rewrite Hdict; simpl;
    (split; [|split]);
    try (destruct (NetworkInterface.network_interfaces_delete c _ _) as [[]|[?|[]]];
         simpl; reflexivity);
    try (intros Hdel; rewrite Hdel; reflexivity);
    try (intros e Hdel; rewrite Hdel; by destruct e).
Qed.

(** X17 (idempotence).  An interface that is there and already has the tags,
    the private address and the allocation method of the arguments (each
    compared only when given; no public address asked) is left alone:
    [changed=false], the result is the observed interface, and after the
    look-ups of the arguments the only call is the fetch. *)
Theorem nic_unchanged_is_noop (c : NetworkInterface.Cloud)
    (self : NetworkInterface.Self) (check_mode : bool)
    (info : NetworkInterface.ResourceGroupInfo) (sn : NetworkInterface.Subnet)
    (g : NetworkInterface.NetworkSecurityGroup)
    (n : NetworkInterface.NetworkInterface) (d : NetworkInterface.NicDict) :
  let rg := NetworkInterface.self_resource_group self in
  let name := NetworkInterface.self_name self in
  let sg := NetworkInterface.self_security_group_name self in
  NetworkInterface.self_state self = NetworkInterface.present →
  NetworkInterface.NAME_PATTERN_match name = true →
  NetworkInterface.get_resource_group c rg = inr info →
  NetworkInterface.subnets_get c rg (NetworkInterface.self_virtual_network_name self)
    (NetworkInterface.self_subnet_name self) = inr sn →
  truthy_str (NetworkInterface.self_public_ip_address_name self) = false →
  (truthy_str sg = true → NetworkInterface.network_security_groups_get c rg sg = inr g) →
  NetworkInterface.network_interfaces_get c rg name = inr n →
  NetworkInterface.check_provisioning_state c n = None →
  NetworkInterface.nic_to_dict (NetworkInterface.azure_id_to_dict c) n = inr d →
  (truthy_tags (NetworkInterface.self_tags self) = true →
   NetworkInterface.d_tags d = NetworkInterface.self_tags self) →
  (truthy_str (NetworkInterface.self_private_ip_address self) = true →
   NetworkInterface.ic_private_ip_address (NetworkInterface.d_ip_configuration d)
   = NetworkInterface.self_private_ip_address self) →
  NetworkInterface.ic_private_ip_allocation_method (NetworkInterface.d_ip_configuration d)
  = NetworkInterface.self_private_ip_allocation_method self →
  outcome_of (NetworkInterface.run check_mode self c)
    = Ok {| NetworkInterface.r_changed := false;
            NetworkInterface.r_check_mode := check_mode;
            NetworkInterface.r_results := NetworkInterface.Dict d |}
  ∧ trace_of (NetworkInterface.run check_mode self c)
    = [NetworkInterface.EvGetResourceGroup rg;
       NetworkInterface.EvSubnetGet rg (NetworkInterface.self_virtual_network_name self)
         (NetworkInterface.self_subnet_name self)]
      ++ (if truthy_str sg then [NetworkInterface.EvSecurityGroupGet rg sg] else [])
      ++ [NetworkInterface.EvNicGet rg name].
Proof.
  intros rg name sg Hstate Hname Hrg Hsub Hpip Hsg Hget Hcheck Hdict Htags Hpriv Halloc.
  subst rg name sg. nic_exec. rewrite Hrg. simpl. rewrite Hname, Hstate. simpl.
  destruct (negb (truthy_str (NetworkInterface.arg_location self))); simpl;
    rewrite Hsub; simpl; rewrite Hpip; simpl;
    (destruct (truthy_str (NetworkInterface.self_security_group_name self)) eqn:Hsgt;
       simpl; [rewrite (Hsg eq_refl); simpl|]);
    rewrite Hget; simpl; rewrite Hcheck; simpl; rewrite Hdict; simpl;
    (destruct (truthy_tags (NetworkInterface.self_tags self)) eqn:Htt; simpl;
       [rewrite (Htags eq_refl);
        rewrite bool_decide_eq_false_2 by (intros H; by apply H); simpl|]);
    (destruct (truthy_str (NetworkInterface.self_private_ip_address self)) eqn:Hpt; simpl;
       [rewrite (Hpriv eq_refl);
        rewrite bool_decide_eq_false_2 by (intros H; by apply H); simpl|]);
    rewrite Halloc;
    rewrite bool_decide_eq_false_2 by (intros H; by apply H); simpl;
    by destruct check_mode.
Qed.

(** X18 (a public address on an existing interface).  A public address asked
    for an interface that is there and has none is detected
    ([changed=true] in check mode) but not attached: the update rebuilds
    the address from the observed interface, so the interface submitted
    carries no public address.  This holds whether or not a security
    group is named in the arguments and whether or not the interface has
    one of its own (each is looked up, and found). *)
Theorem nic_public_ip_is_not_attached_on_update (c : NetworkInterface.Cloud)
    (self : NetworkInterface.Self)
    (info : NetworkInterface.ResourceGroupInfo) (sn : NetworkInterface.Subnet)
    (p : NetworkInterface.PublicIPAddress)
    (g own : NetworkInterface.NetworkSecurityGroup)
    (n : NetworkInterface.NetworkInterface) (d : NetworkInterface.NicDict) :
  let rg := NetworkInterface.self_resource_group self in
  let name := NetworkInterface.self_name self in
  let pipname := NetworkInterface.self_public_ip_address_name self in
  let sg := NetworkInterface.self_security_group_name self in
  let own_id := NetworkInterface.get_id (NetworkInterface.d_network_security_group d) in
  let own_name := match NetworkInterface.d_network_security_group d with
                  | Some r => NetworkInterface.in_name r
                  | None => None
                  end in
  NetworkInterface.self_state self = NetworkInterface.present →
  NetworkInterface.NAME_PATTERN_match name = true →
  NetworkInterface.get_resource_group c rg = inr info →
  NetworkInterface.subnets_get c rg (NetworkInterface.self_virtual_network_name self)
    (NetworkInterface.self_subnet_name self) = inr sn →
  truthy_str pipname = true →
  NetworkInterface.public_ip_addresses_get c rg pipname = inr p →
  NetworkInterface.pip_id p ≠ None →
  (truthy_str sg = true → NetworkInterface.network_security_groups_get c rg sg = inr g) →
  NetworkInterface.network_interfaces_get c rg name = inr n →
  NetworkInterface.check_provisioning_state c n = None →
  NetworkInterface.nic_to_dict (NetworkInterface.azure_id_to_dict c) n = inr d →
  NetworkInterface.ic_public_ip_address (NetworkInterface.d_ip_configuration d) = None →
  (truthy_str own_id = true →
   NetworkInterface.network_security_groups_get c rg own_name = inr own) →
  (∀ n', NetworkInterface.serializer_body c n' = None) →
  (∃ res, outcome_of (NetworkInterface.run true self c) = Ok res
          ∧ NetworkInterface.r_changed res = true)
  ∧ ∃ submitted,
      trace_of (NetworkInterface.run false self c)
      = [NetworkInterface.EvGetResourceGroup rg;
         NetworkInterface.EvSubnetGet rg (NetworkInterface.self_virtual_network_name self)
           (NetworkInterface.self_subnet_name self);
         NetworkInterface.EvPublicIpGet rg pipname]
        ++ (if truthy_str sg then [NetworkInterface.EvSecurityGroupGet rg sg] else [])
        ++ [NetworkInterface.EvNicGet rg name]
        ++ (if truthy_str own_id
            then [NetworkInterface.EvSecurityGroupGet rg own_name] else [])
        ++ [NetworkInterface.EvNicCreateOrUpdate rg name submitted]
      ∧ Forall (λ ipc, NetworkInterface.ipc_public_ip_address ipc = None)
               (NetworkInterface.nic_ip_configurations submitted).
Proof.
  intros rg name pipname sg own_id own_name Hstate Hname Hrg Hsub Hpipt Hpip Hid Hsg Hget
    Hcheck Hdict Hnone Hown Hser.
  subst rg name pipname sg own_id own_name.
  nic_exec. rewrite Hrg. simpl. rewrite Hname, Hstate. simpl.
  assert (None ≠ NetworkInterface.pip_id p) as Hdiff by done.
  destruct (negb (truthy_str (NetworkInterface.arg_location self))); simpl;
    rewrite Hsub; simpl; rewrite Hpipt; simpl; rewrite Hpip; simpl;
    (destruct (truthy_str (NetworkInterface.self_security_group_name self)) eqn:Hsgt;
       simpl; [rewrite (Hsg eq_refl); simpl|]);
    rewrite Hget; simpl; rewrite Hcheck; simpl; rewrite Hdict; simpl;
    destruct (truthy_tags (NetworkInterface.self_tags self)); simpl;
    try destruct (bool_decide (NetworkInterface.d_tags d ≠ NetworkInterface.self_tags self));
    simpl;
    destruct (truthy_str (NetworkInterface.self_private_ip_address self)); simpl;
    try destruct (bool_decide
      (NetworkInterface.ic_private_ip_address (NetworkInterface.d_ip_configuration d)
       ≠ NetworkInterface.self_private_ip_address self)); simpl;
    rewrite ?Hnone; simpl;
    match goal with
    | |- context [@bool_decide (None ≠ NetworkInterface.pip_id p) ?i] =>
        rewrite (@bool_decide_eq_true_2 _ i Hdiff)
    end; simpl;
    destruct (bool_decide
      (NetworkInterface.ic_private_ip_allocation_method (NetworkInterface.d_ip_configuration d)
       ≠ NetworkInterface.self_private_ip_allocation_method self)); simpl;
    rewrite ?Hnone; simpl;
    (destruct (truthy_str (NetworkInterface.get_id
                 (NetworkInterface.d_network_security_group d))) eqn:Hownt;
       simpl; [rewrite (Hown eq_refl); simpl|]);
    rewrite Hser; simpl;
    (split; [eauto|]);
    destruct (NetworkInterface.network_interfaces_create_or_update c _ _ _)
      as [[]|[?|new]]; simpl;
    try destruct (NetworkInterface.nic_to_dict _ new); simpl;
    eexists; (split; [reflexivity|]); by repeat constructor.
Qed.

(** X19 (the calls of [absent]).  A run for [state=absent] reads the resource
    group and the interface and may delete the interface; it makes no
    other call, whatever the provider answers. *)
Theorem nic_absent_touches_only_the_interface (self : NetworkInterface.Self)
    (check_mode : bool) :
  NetworkInterface.self_state self = NetworkInterface.absent →
  emits_only (λ ev, match ev with
                    | NetworkInterface.EvGetResourceGroup _
                    | NetworkInterface.EvNicGet _ _
                    | NetworkInterface.EvNicDelete _ _ => True
                    | _ => False
                    end)
             (NetworkInterface.exec_module_impl check_mode self).
Proof.
  intros Hstate.
  unfold NetworkInterface.exec_module_impl, NetworkInterface.apply_plan,
    NetworkInterface.delete_nic, NetworkInterface.decide.
  rewrite Hstate. simpl. emits.
Qed.

(** X20 (no deletion for [present]).  A run for [state=present] never submits
    a delete, whatever the provider answers. *)
Theorem nic_present_never_deletes (self : NetworkInterface.Self) (check_mode : bool) :
  NetworkInterface.self_state self = NetworkInterface.present →
  emits_only (λ ev, match ev with
                    | NetworkInterface.EvNicDelete _ _ => False
                    | _ => True
                    end)
             (NetworkInterface.exec_module_impl check_mode self).
Proof.
  intros Hstate.
  unfold NetworkInterface.exec_module_impl, NetworkInterface.apply_plan,
    NetworkInterface.create_or_update_nic, NetworkInterface.build_new,
    NetworkInterface.build_update, NetworkInterface.decide.
  rewrite Hstate. simpl. emits.
Qed.

(** X21 (only [started] mutates).  A run for a state other than [started]
    issues no create-or-update and no delete of any kind, whatever the
    provider answers. *)
Theorem vm_not_started_never_mutates (self : VirtualMachine.Self) (check_mode : bool) :
  VirtualMachine.self_state self ≠ VirtualMachine.started →
  emits_only (λ ev, VirtualMachine.is_mutation ev = false)
             (VirtualMachine.exec_module_impl check_mode self).
Proof.
  intros Hstate.
  unfold VirtualMachine.exec_module_impl, VirtualMachine.apply_plan.
  destruct (VirtualMachine.self_state self) eqn:Hs; [|done|]; simpl; emits.
Qed.

(** X22 (no deletion without [force]).  Without [force] a run never deletes a
    machine, a blob, an interface or a public address, whatever the
    provider answers. *)
Theorem vm_unforced_never_deletes (self : VirtualMachine.Self) (check_mode : bool) :
  VirtualMachine.self_force self = false →
  emits_only (λ ev, match ev with
                    | VirtualMachine.EvVmDelete _ _
                    | VirtualMachine.EvNicDelete _ _
                    | VirtualMachine.EvPublicIpDelete _ _
                    | VirtualMachine.EvBlobDelete _ _ _ => False
                    | _ => True
                    end)
             (VirtualMachine.exec_module_impl check_mode self).
Proof.
  intros Hforce.
  unfold VirtualMachine.exec_module_impl, VirtualMachine.apply_plan,
    VirtualMachine.create_vm.
  rewrite Hforce, andb_false_r. simpl. emits.
Qed.

(** * Virtual machine: the parameters resolved before the fetch *)

Section VmParameters.
Import VirtualMachine.

Lemma bind_ok {Env St Ev A B} (m : M Env St Ev A) (k : A → M Env St Ev B) env s a s1 t1 :
  m env s = (Ok a, s1, t1) →
  (m ≫= k) env s = (let '(o, s2, t2) := k a env s1 in (o, s2, t1 ++ t2)).
Proof. intros H. unfold_monad. by rewrite H. Qed.

Lemma bind_raised {Env St Ev A B} (m : M Env St Ev A) (k : A → M Env St Ev B) env s e s1 t1 :
  m env s = (Raised e, s1, t1) →
  (m ≫= k) env s = (Raised e, s1, t1).
Proof. intros H. unfold_monad. by rewrite H. Qed.

(** One round of the loop over [network_interface_names]. *)
Lemma vm_interface_step (c : Cloud) (self : Self) (name : string) (f : Frame) :
  (nic ← get_network_interface self name;
   f ← get_frame;
   set_network_interfaces (local_network_interfaces f ++ [ {| ref_id := nic_id nic |} ]))
    c f
  = match network_interfaces_get c (self_resource_group self) name with
    | inr nic =>
        (Ok tt,
         frame_of (set_network_interfaces
                     (local_network_interfaces f ++ [ {| ref_id := nic_id nic |} ]) c f),
         [EvNicGet (self_resource_group self) name])
    | inl e =>
        (Raised (SystemExit ("Error fetching network interface " +:+ name +:+ " - "
                             +:+ exn_str (sdk_exn e))),
         f, [EvNicGet (self_resource_group self) name])
    end.
Proof.
  unfold get_network_interface, set_network_interfaces. unfold_monad. simpl.
  destruct (network_interfaces_get c _ _) as [[]|nic]; reflexivity.
Qed.

(** The loop while every interface is there: one fetch per name, in
    order, and one reference appended per interface. *)
Lemma vm_interface_loop_ok (c : Cloud) (self : Self) (names : list string)
    (nics : list NetworkInterface) (f : Frame) :
  Forall2 (λ name nic, network_interfaces_get c (self_resource_group self) name = inr nic)
          names nics →
  for_each names (λ name,
      nic ← get_network_interface self name;
      f ← get_frame;
      set_network_interfaces (local_network_interfaces f ++ [ {| ref_id := nic_id nic |} ]))
    c f
  = (Ok tt,
     frame_of (set_network_interfaces
                 (local_network_interfaces f ++ map (λ nic, {| ref_id := nic_id nic |}) nics)
                 c f),
     map (EvNicGet (self_resource_group self)) names).
Proof.
  intros H. revert f. induction H as [|name nic names nics Hget _ IH]; intros f.
  - simpl. rewrite app_nil_r. by destruct f.
  - cbn [for_each]. unfold bind at 1. rewrite vm_interface_step, Hget, IH.
    simpl. by rewrite <- app_assoc.
Qed.

(** The loop stops at the first interface that cannot be fetched. *)
Lemma vm_interface_loop_fails (c : Cloud) (self : Self) (pre post : list string)
    (bad : string) (nics : list NetworkInterface) (e : SdkError) (f : Frame) :
  Forall2 (λ name nic, network_interfaces_get c (self_resource_group self) name = inr nic)
          pre nics →
  network_interfaces_get c (self_resource_group self) bad = inl e →
  ∃ f',
  for_each (pre ++ bad :: post) (λ name,
      nic ← get_network_interface self name;
      f ← get_frame;
      set_network_interfaces (local_network_interfaces f ++ [ {| ref_id := nic_id nic |} ]))
    c f
  = (Raised (SystemExit ("Error fetching network interface " +:+ bad +:+ " - "
                         +:+ exn_str (sdk_exn e))),
     f',
     map (EvNicGet (self_resource_group self)) (pre ++ [bad])).
Proof.
  intros H Hbad. revert f. induction H as [|name nic names nics Hget _ IH]; intros f.
  - cbn [for_each app]. unfold bind at 1. rewrite vm_interface_step, Hbad. by exists f.
  - cbn [for_each app]. unfold bind at 1. rewrite vm_interface_step, Hget.
    edestruct IH as [f' ->]. by exists f'.
Qed.
End VmParameters.

(** Rewrite a test that holds. *)
Ltac decide_true H :=
  match type of H with
  | ?P => match goal with
          | |- context [@bool_decide P ?i] => rewrite (@bool_decide_eq_true_2 P i H)
          end
  end.

(** X23 (resolved parameters).  For [state=started], when every look-up
    succeeds, the parameters are resolved as follows before the machine
    is fetched: the location defaults to that of the resource group, the
    blob name to [<name>.vsd], the version [latest] is pinned to the last
    version listed, and the interfaces are referenced in the order of
    their names.  The look-ups are made in this order: resource group,
    sizes, interfaces, images, storage account. *)
Theorem vm_parameters_are_resolved (c : VirtualMachine.Cloud) (self : VirtualMachine.Self)
    (info : VirtualMachine.ResourceGroupInfo)
    (sizes : list VirtualMachine.VirtualMachineSize)
    (names : list string) (nics : list VirtualMachine.NetworkInterface)
    (versions : list VirtualMachine.VirtualMachineImageResource)
    (latest : VirtualMachine.VirtualMachineImageResource) :
  let rg := VirtualMachine.self_resource_group self in
  let location := if truthy_str (VirtualMachine.arg_location self)
                  then VirtualMachine.arg_location self
                  else VirtualMachine.resource_group_location info in
  VirtualMachine.self_state self = VirtualMachine.started →
  VirtualMachine.get_resource_group c rg = inr info →
  VirtualMachine.virtual_machine_sizes_list c location = inr sizes →
  VirtualMachine.self_network_interface_names self = Some names →
  Forall2 (λ name nic, VirtualMachine.network_interfaces_get c rg name = inr nic) names nics →
  VirtualMachine.arg_image_version self = Some "latest" →
  VirtualMachine.virtual_machine_images_list c location
    (VirtualMachine.self_image_publisher self) (VirtualMachine.self_image_offer self)
    (VirtualMachine.self_image_sku self) = inr (versions ++ [latest]) →
  VirtualMachine.storage_accounts_get_properties c rg
    (VirtualMachine.self_storage_account_name self) = inr tt →
  let p := VirtualMachine.preamble self c (VirtualMachine.init self) in
  outcome_of p = Ok tt
  ∧ trace_of p
    = [VirtualMachine.EvGetResourceGroup rg; VirtualMachine.EvSizesList location]
      ++ map (VirtualMachine.EvNicGet rg) names
      ++ [VirtualMachine.EvImagesList location (VirtualMachine.self_image_publisher self)
            (VirtualMachine.self_image_offer self) (VirtualMachine.self_image_sku self);
          VirtualMachine.EvStorageAccountGet rg
            (VirtualMachine.self_storage_account_name self)]
  ∧ VirtualMachine.self_location (frame_of p) = location
  ∧ VirtualMachine.self_storage_blob_name (frame_of p)
    = (if truthy_str (VirtualMachine.arg_storage_blob_name self)
       then VirtualMachine.arg_storage_blob_name self
       else Some (VirtualMachine.self_name self +:+ ".vsd"))
  ∧ VirtualMachine.self_image_version (frame_of p)
    = Some (VirtualMachine.image_name latest)
  ∧ VirtualMachine.local_network_interfaces (frame_of p)
    = map (λ nic, {| VirtualMachine.ref_id := VirtualMachine.nic_id nic |}) nics.
Proof.
  intros rg location Hstate Hrg Hsizes Hnames Hnics Hver Himages Hstorage p.
  subst rg location p.
  assert (versions ++ [latest] ≠ []) as Hne by (by destruct versions).
  assert ((0 <? length (versions ++ [latest]))%nat = true) as Hlen.
  { apply Nat.ltb_lt. rewrite length_app. simpl. lia. }
  assert ((versions ++ [latest]) !! (length (versions ++ [latest]) - 1)%nat = Some latest)
    as Hlast.
  { rewrite length_app. simpl. rewrite Nat.add_sub. by apply list_lookup_middle. }
  pose proof (λ f, vm_interface_loop_ok c self names nics f Hnics) as Hloop.
  unfold VirtualMachine.preamble, VirtualMachine.verify_parameters,
    VirtualMachine.vm_size_is_valid, VirtualMachine.iter_names,
    VirtualMachine.get_image_version, VirtualMachine.get_storage_account,
    VirtualMachine.set_changed, VirtualMachine.set_results, VirtualMachine.set_vm,
    VirtualMachine.set_network_interfaces, VirtualMachine.set_self_location,
    VirtualMachine.set_self_storage_blob_name, VirtualMachine.set_self_image_version,
    VirtualMachine.init in *.
  unfold_monad. simpl in *. rewrite Hrg, Hstate, Hnames. simpl.
  destruct (truthy_str (VirtualMachine.arg_location self)) eqn:Hloc; simpl;
    rewrite Hsizes; simpl; rewrite Hloop; simpl.
  all: destruct (truthy_str (VirtualMachine.arg_storage_blob_name self)); simpl.
  all: rewrite Himages; simpl.
  all: rewrite Hver.
  all: decide_true Hne; rewrite Hlen; simpl; rewrite Hlast; simpl.
  all: rewrite Hstorage; simpl.
  all: rewrite ?app_nil_r, <- ?app_assoc; done.
Qed.

(** A run ends where the steps before the fetch end, when they raise. *)
Lemma vm_run_stops_with_preamble (c : VirtualMachine.Cloud) (self : VirtualMachine.Self)
    (check_mode : bool) e f t :
  VirtualMachine.preamble self c (VirtualMachine.init self) = (Raised e, f, t) →
  VirtualMachine.run check_mode self c = (Raised e, f, t).
Proof.
  intros H. unfold VirtualMachine.run, VirtualMachine.exec_module_impl,
    VirtualMachine.decide.
  apply bind_raised. apply bind_raised. exact H.
Qed.

Ltac vm_preamble_exec :=
  unfold VirtualMachine.preamble, VirtualMachine.verify_parameters,
    VirtualMachine.vm_size_is_valid, VirtualMachine.iter_names,
    VirtualMachine.get_image_version, VirtualMachine.get_storage_account,
    VirtualMachine.set_changed, VirtualMachine.set_results, VirtualMachine.set_vm,
    VirtualMachine.set_network_interfaces, VirtualMachine.set_self_location,
    VirtualMachine.set_self_storage_blob_name, VirtualMachine.set_self_image_version,
    VirtualMachine.init in *;
  unfold_monad; simpl in *.

(** X24 (missing interface).  An interface named in the arguments that cannot
    be fetched ends the run with the error of [get_network_interface]:
    the names after it are not looked up, and neither are the image, the
    storage account and the machine. *)
Theorem vm_missing_interface_is_fatal (c : VirtualMachine.Cloud)
    (self : VirtualMachine.Self) (check_mode : bool)
    (info : VirtualMachine.ResourceGroupInfo)
    (sizes : list VirtualMachine.VirtualMachineSize)
    (pre post : list string) (bad : string) (nics : list VirtualMachine.NetworkInterface)
    (e : SdkError) :
  let rg := VirtualMachine.self_resource_group self in
  let location := if truthy_str (VirtualMachine.arg_location self)
                  then VirtualMachine.arg_location self
                  else VirtualMachine.resource_group_location info in
  VirtualMachine.self_state self = VirtualMachine.started →
  VirtualMachine.get_resource_group c rg = inr info →
  VirtualMachine.virtual_machine_sizes_list c location = inr sizes →
  VirtualMachine.self_network_interface_names self = Some (pre ++ bad :: post) →
  Forall2 (λ name nic, VirtualMachine.network_interfaces_get c rg name = inr nic) pre nics →
  VirtualMachine.network_interfaces_get c rg bad = inl e →
  outcome_of (VirtualMachine.run check_mode self c)
    = Raised (SystemExit ("Error fetching network interface " +:+ bad +:+ " - "
                          +:+ exn_str (sdk_exn e)))
  ∧ trace_of (VirtualMachine.run check_mode self c)
    = [VirtualMachine.EvGetResourceGroup rg; VirtualMachine.EvSizesList location]
      ++ map (VirtualMachine.EvNicGet rg) (pre ++ [bad]).
Proof.
  intros rg location Hstate Hrg Hsizes Hnames Hnics Hbad. subst rg location.
  pose proof (λ f, vm_interface_loop_fails c self pre post bad nics e f Hnics Hbad) as Hloop.
  assert (∃ f, VirtualMachine.preamble self c (VirtualMachine.init self)
    = (Raised (SystemExit ("Error fetching network interface " +:+ bad +:+ " - "
                           +:+ exn_str (sdk_exn e))), f,
       [VirtualMachine.EvGetResourceGroup (VirtualMachine.self_resource_group self);
        VirtualMachine.EvSizesList
          (if truthy_str (VirtualMachine.arg_location self)
           then VirtualMachine.arg_location self
           else VirtualMachine.resource_group_location info)]
       ++ map (VirtualMachine.EvNicGet (VirtualMachine.self_resource_group self))
              (pre ++ [bad]))) as [f Hp].
  { vm_preamble_exec. rewrite Hrg, Hstate, Hnames. simpl.
    destruct (truthy_str (VirtualMachine.arg_location self)) eqn:Hloc; simpl;
      rewrite Hsizes; simpl;
      edestruct Hloop as [f' Hl]; erewrite Hl; simpl; eauto. }
  by rewrite (vm_run_stops_with_preamble c self check_mode _ _ _ Hp).
Qed.

(** X25 (unknown image version).  A version other than [latest] that is not
    among the versions listed ends the run with "could not find image";
    the storage account and the machine are not looked up. *)
Theorem vm_unknown_image_is_fatal (c : VirtualMachine.Cloud)
    (self : VirtualMachine.Self) (check_mode : bool)
    (info : VirtualMachine.ResourceGroupInfo)
    (sizes : list VirtualMachine.VirtualMachineSize)
    (names : list string) (nics : list VirtualMachine.NetworkInterface)
    (versions : list VirtualMachine.VirtualMachineImageResource) :
  let rg := VirtualMachine.self_resource_group self in
  let location := if truthy_str (VirtualMachine.arg_location self)
                  then VirtualMachine.arg_location self
                  else VirtualMachine.resource_group_location info in
  VirtualMachine.self_state self = VirtualMachine.started →
  VirtualMachine.get_resource_group c rg = inr info →
  VirtualMachine.virtual_machine_sizes_list c location = inr sizes →
  VirtualMachine.self_network_interface_names self = Some names →
  Forall2 (λ name nic, VirtualMachine.network_interfaces_get c rg name = inr nic) names nics →
  VirtualMachine.arg_image_version self ≠ Some "latest" →
  VirtualMachine.virtual_machine_images_list c location
    (VirtualMachine.self_image_publisher self) (VirtualMachine.self_image_offer self)
    (VirtualMachine.self_image_sku self) = inr versions →
  Forall (λ v, Some (VirtualMachine.image_name v) ≠ VirtualMachine.arg_image_version self)
         versions →
  outcome_of (VirtualMachine.run check_mode self c)
    = Raised (SystemExit
        ("Error could not find image " +:+ py_str (VirtualMachine.self_image_publisher self)
         +:+ " " +:+ py_str (VirtualMachine.self_image_offer self)
         +:+ " " +:+ py_str (VirtualMachine.self_image_sku self)
         +:+ " " +:+ py_str (VirtualMachine.arg_image_version self)))
  ∧ trace_of (VirtualMachine.run check_mode self c)
    = [VirtualMachine.EvGetResourceGroup rg; VirtualMachine.EvSizesList location]
      ++ map (VirtualMachine.EvNicGet rg) names
      ++ [VirtualMachine.EvImagesList location (VirtualMachine.self_image_publisher self)
            (VirtualMachine.self_image_offer self) (VirtualMachine.self_image_sku self)].
Proof.
  intros rg location Hstate Hrg Hsizes Hnames Hnics Hver Himages Hnone.
  subst rg location.
  pose proof (λ f, vm_interface_loop_ok c self names nics f Hnics) as Hloop.
  assert (find (λ version, bool_decide (Some (VirtualMachine.image_name version)
                                        = VirtualMachine.arg_image_version self)) versions
          = None) as Hfind.
  { clear Himages. induction Hnone as [|v vs Hv _ IH]; [done|]. cbn [find].
    by rewrite bool_decide_eq_false_2. }
  assert (∃ f, VirtualMachine.preamble self c (VirtualMachine.init self)
    = (Raised (SystemExit
        ("Error could not find image " +:+ py_str (VirtualMachine.self_image_publisher self)
         +:+ " " +:+ py_str (VirtualMachine.self_image_offer self)
         +:+ " " +:+ py_str (VirtualMachine.self_image_sku self)
         +:+ " " +:+ py_str (VirtualMachine.arg_image_version self))), f,
       [VirtualMachine.EvGetResourceGroup (VirtualMachine.self_resource_group self);
        VirtualMachine.EvSizesList
          (if truthy_str (VirtualMachine.arg_location self)
           then VirtualMachine.arg_location self
           else VirtualMachine.resource_group_location info)]
       ++ map (VirtualMachine.EvNicGet (VirtualMachine.self_resource_group self)) names
       ++ [VirtualMachine.EvImagesList
             (if truthy_str (VirtualMachine.arg_location self)
              then VirtualMachine.arg_location self
              else VirtualMachine.resource_group_location info)
             (VirtualMachine.self_image_publisher self)
             (VirtualMachine.self_image_offer self)
             (VirtualMachine.self_image_sku self)])) as [f Hp].
  { vm_preamble_exec. rewrite Hrg, Hstate, Hnames. simpl.
    destruct (truthy_str (VirtualMachine.arg_location self)) eqn:Hloc; simpl;
      rewrite Hsizes; simpl; rewrite Hloop; simpl;
      destruct (truthy_str (VirtualMachine.arg_storage_blob_name self)); simpl;
      rewrite Himages; simpl;
      (destruct versions as [|v0 vs];
       [simpl
       |assert (v0 :: vs ≠ []) as Hne by done; decide_true Hne; simpl;
        match goal with
        | |- context [@bool_decide (VirtualMachine.arg_image_version self = Some "latest") ?i] =>
            rewrite (@bool_decide_eq_false_2 _ i Hver)
        end; simpl in *; rewrite Hfind; simpl]);
      rewrite ?app_nil_r, <- ?app_assoc; eauto. }
  by rewrite (vm_run_stops_with_preamble c self check_mode _ _ _ Hp).
Qed.

(** * Virtual machine: more of the life cycle *)

(** X26 (public addresses without interfaces).  Without
    [delete_network_interfaces] no interface name is captured and so no
    public address either: the only call of [delete_vm] is the deletion
    of the machine, also when [delete_public_ips] is set. *)
Theorem vm_public_ips_need_interfaces (c : VirtualMachine.Cloud) (self : VirtualMachine.Self)
    (f : VirtualMachine.Frame) :
  VirtualMachine.self_delete_network_interfaces self = false →
  VirtualMachine.self_delete_virtual_storage self = false →
  trace_of (VirtualMachine.delete_vm self c f)
    = [VirtualMachine.EvVmDelete (VirtualMachine.self_resource_group self)
         (VirtualMachine.self_name self)]
  ∧ (VirtualMachine.virtual_machines_delete c (VirtualMachine.self_resource_group self)
       (VirtualMachine.self_name self) = inr tt →
     VirtualMachine.delete_vm self c f
     = (Ok true, f, [VirtualMachine.EvVmDelete (VirtualMachine.self_resource_group self)
                       (VirtualMachine.self_name self)])).
Proof.
  intros Hdni Hdvs.
  unfold VirtualMachine.delete_vm, VirtualMachine.delete_vm_capture,
    VirtualMachine.delete_vm_cleanup, VirtualMachine.self_attr_delete_virtual_storage,
    VirtualMachine.getattr, VirtualMachine.attr_truth.
  rewrite Hdni, Hdvs. unfold_monad. simpl.
  destruct (VirtualMachine.virtual_machines_delete c _ _) as [[]|[]]; simpl.
  1,2: by split.
  by destruct (VirtualMachine.self_delete_public_ips self).
Qed.

(** The decision for a machine that is not there. *)
Lemma vm_decide_not_found (c : VirtualMachine.Cloud) (self : VirtualMachine.Self)
    (msg : string) :
  outcome_of (VirtualMachine.preamble self c (VirtualMachine.init self)) = Ok tt →
  VirtualMachine.virtual_machines_get c (VirtualMachine.self_resource_group self)
    (VirtualMachine.self_name self) = inl (ErrCloud msg) →
  let p := VirtualMachine.preamble self c (VirtualMachine.init self) in
  let d := VirtualMachine.decide self c (VirtualMachine.init self) in
  let wanted := bool_decide (VirtualMachine.self_state self = VirtualMachine.started) in
  outcome_of d = Ok tt
  ∧ trace_of d = trace_of p ++ [VirtualMachine.EvVmGet (VirtualMachine.self_resource_group self)
                                  (VirtualMachine.self_name self)]
  ∧ VirtualMachine.changed (frame_of d) = wanted
  ∧ VirtualMachine.self_results_changed (frame_of d) = wanted
  ∧ VirtualMachine.self_results_results (frame_of d) = VirtualMachine.EmptyDict
  ∧ VirtualMachine.vm (frame_of d) = None
  ∧ VirtualMachine.vm_resource self (frame_of d) = VirtualMachine.vm_resource self (frame_of p).
Proof.
  intros Hp Hget p d wanted. subst p d wanted.
  destruct (vm_preamble_locals c self (VirtualMachine.init self)) as (Hc & Hv & Hr).
  unfold VirtualMachine.decide, VirtualMachine.fetch, VirtualMachine.set_vm,
    VirtualMachine.set_changed, VirtualMachine.set_self_results_changed,
    VirtualMachine.set_self_results_results.
  unfold_monad.
  destruct (VirtualMachine.preamble self c (VirtualMachine.init self)) as [[o f1] t1].
  simpl in *. subst o. rewrite Hget. simpl.
  destruct (bool_decide (VirtualMachine.self_state self = VirtualMachine.started));
    simpl; rewrite ?Hc, ?Hr, ?Hv, ?app_nil_r; done.
Qed.

(** X27 (creation).  A machine that is not there and is to be started,
    without [force]: after the verification and the fetch the one call is
    the create-or-update, with the machine built from the resolved
    parameters; its reply decides the outcome. *)
Theorem vm_created_when_absent (c : VirtualMachine.Cloud) (self : VirtualMachine.Self)
    (msg : string) :
  VirtualMachine.self_state self = VirtualMachine.started →
  VirtualMachine.self_force self = false →
  outcome_of (VirtualMachine.preamble self c (VirtualMachine.init self)) = Ok tt →
  VirtualMachine.virtual_machines_get c (VirtualMachine.self_resource_group self)
    (VirtualMachine.self_name self) = inl (ErrCloud msg) →
  let p := VirtualMachine.preamble self c (VirtualMachine.init self) in
  let params := VirtualMachine.vm_resource self (frame_of p) in
  let rg := VirtualMachine.self_resource_group self in
  let name := VirtualMachine.self_name self in
  VirtualMachine.serialize_obj c params = None →
  trace_of (VirtualMachine.run false self c)
    = trace_of p ++ [VirtualMachine.EvVmGet rg name;
                     VirtualMachine.EvVmCreateOrUpdate rg name params]
  ∧ (∀ created,
       VirtualMachine.virtual_machines_create_or_update c rg name params
         = inr (inr created) →
       VirtualMachine.serialize_obj c created = None →
       ∃ res, outcome_of (VirtualMachine.run false self c) = Ok res
            ∧ VirtualMachine.r_changed res = true
            ∧ VirtualMachine.r_results res = VirtualMachine.Serialized created)
  ∧ (∀ e,
       VirtualMachine.virtual_machines_create_or_update c rg name params = inl e →
       outcome_of (VirtualMachine.run false self c)
       = Raised (SystemExit ("Error creating or updating virtual machine " +:+ name
                             +:+ " - " +:+ exn_str (sdk_exn e)))).
Proof.
  intros Hstate Hforce Hp Hget p params rg name Hserp. subst p params rg name.
  destruct (vm_decide_not_found c self msg Hp Hget) as (Ho & Ht & Hc & Hrc & Hrr & Hv & Hres).
  rewrite Hstate in Hc, Hrc. simpl in Hc, Hrc. rewrite <- Hres in *. clear Hres.
  unfold VirtualMachine.run, VirtualMachine.exec_module_impl, VirtualMachine.apply_plan,
    VirtualMachine.return_results, VirtualMachine.create_vm,
    VirtualMachine.set_self_results_results.
  unfold_monad.
  destruct (VirtualMachine.decide self c (VirtualMachine.init self)) as [[o fd] td].
  simpl in *. subst o td.
  rewrite Hc, Hstate, Hforce. simpl. rewrite Hv. simpl. rewrite Hserp. simpl.
  split; [|split].
  - destruct (VirtualMachine.virtual_machines_create_or_update _ _ _ _) as [[]|[e0|v0]];
      simpl; try destruct (VirtualMachine.serialize_obj c v0); simpl;
      rewrite ?app_nil_r, <- ?app_assoc; reflexivity.
  - intros created Hcreate Hserc. rewrite Hcreate. simpl. rewrite Hserc. simpl. eauto.
  - intros e Hcreate. rewrite Hcreate. by destruct e.
Qed.

(** X28 ([absent] is not applied).  A machine that is there and is to be
    absent: the module reports [changed=true] and deletes nothing, in
    check mode or not. *)
Theorem vm_absent_is_reported_not_applied (c : VirtualMachine.Cloud)
    (self : VirtualMachine.Self) (check_mode : bool) (v : VirtualMachine.VirtualMachine)
    (info : VirtualMachine.ResourceGroupInfo) :
  VirtualMachine.self_state self = VirtualMachine.absent →
  VirtualMachine.get_resource_group c (VirtualMachine.self_resource_group self) = inr info →
  VirtualMachine.virtual_machines_get c (VirtualMachine.self_resource_group self)
    (VirtualMachine.self_name self) = inr v →
  VirtualMachine.check_provisioning_state c v = None →
  VirtualMachine.serialize_obj c v = None →
  outcome_of (VirtualMachine.run check_mode self c)
    = Ok {| VirtualMachine.r_changed := true;
            VirtualMachine.r_check_mode := check_mode;
            VirtualMachine.r_results := VirtualMachine.EmptyDict;
            VirtualMachine.r_deleted_vhd_uris := None;
            VirtualMachine.r_deleted_network_interfaces := None;
            VirtualMachine.r_deleted_public_ips := None |}
  ∧ trace_of (VirtualMachine.run check_mode self c)
    = [VirtualMachine.EvGetResourceGroup (VirtualMachine.self_resource_group self);
       VirtualMachine.EvVmGet (VirtualMachine.self_resource_group self)
         (VirtualMachine.self_name self)].
Proof.
  intros Hstate Hrg Hget Hcheck Hser.
  unfold VirtualMachine.run, VirtualMachine.exec_module_impl, VirtualMachine.apply_plan,
    VirtualMachine.init.
  autounfold with prog. unfold_monad. simpl.
  rewrite Hrg. simpl. rewrite Hstate. simpl.
  destruct (negb (truthy_str (VirtualMachine.arg_location self))); simpl;
    rewrite Hget; simpl; rewrite Hcheck, Hser; simpl; by destruct check_mode.
Qed.

(** X29 (a failing image listing).  When the listing of the image versions
    itself fails, the run does not end with a failure message of the
    module: the message of [get_image_version] names a fifth argument
    where four are given, so formatting it raises [IndexError]. *)
Theorem vm_image_listing_error_is_not_reported (c : VirtualMachine.Cloud)
    (self : VirtualMachine.Self) (check_mode : bool)
    (info : VirtualMachine.ResourceGroupInfo)
    (sizes : list VirtualMachine.VirtualMachineSize)
    (names : list string) (nics : list VirtualMachine.NetworkInterface)
    (e : SdkError) :
  let rg := VirtualMachine.self_resource_group self in
  let location := if truthy_str (VirtualMachine.arg_location self)
                  then VirtualMachine.arg_location self
                  else VirtualMachine.resource_group_location info in
  VirtualMachine.self_state self = VirtualMachine.started →
  VirtualMachine.get_resource_group c rg = inr info →
  VirtualMachine.virtual_machine_sizes_list c location = inr sizes →
  VirtualMachine.self_network_interface_names self = Some names →
  Forall2 (λ name nic, VirtualMachine.network_interfaces_get c rg name = inr nic) names nics →
  VirtualMachine.virtual_machine_images_list c location
    (VirtualMachine.self_image_publisher self) (VirtualMachine.self_image_offer self)
    (VirtualMachine.self_image_sku self) = inl e →
  outcome_of (VirtualMachine.run check_mode self c)
    = Raised (IndexError "tuple index out of range")
  ∧ trace_of (VirtualMachine.run check_mode self c)
    = [VirtualMachine.EvGetResourceGroup rg; VirtualMachine.EvSizesList location]
      ++ map (VirtualMachine.EvNicGet rg) names
      ++ [VirtualMachine.EvImagesList location (VirtualMachine.self_image_publisher self)
            (VirtualMachine.self_image_offer self) (VirtualMachine.self_image_sku self)].
Proof.
  intros rg location Hstate Hrg Hsizes Hnames Hnics Himages. subst rg location.
  pose proof (λ f, vm_interface_loop_ok c self names nics f Hnics) as Hloop.
  assert (∃ f, VirtualMachine.preamble self c (VirtualMachine.init self)
    = (Raised (IndexError "tuple index out of range"), f,
       [VirtualMachine.EvGetResourceGroup (VirtualMachine.self_resource_group self);
        VirtualMachine.EvSizesList
          (if truthy_str (VirtualMachine.arg_location self)
           then VirtualMachine.arg_location self
           else VirtualMachine.resource_group_location info)]
       ++ map (VirtualMachine.EvNicGet (VirtualMachine.self_resource_group self)) names
       ++ [VirtualMachine.EvImagesList
             (if truthy_str (VirtualMachine.arg_location self)
              then VirtualMachine.arg_location self
              else VirtualMachine.resource_group_location info)
             (VirtualMachine.self_image_publisher self)
             (VirtualMachine.self_image_offer self)
             (VirtualMachine.self_image_sku self)])) as [f Hp].
  { vm_preamble_exec. rewrite Hrg, Hstate, Hnames. simpl.
    destruct (truthy_str (VirtualMachine.arg_location self)) eqn:Hloc; simpl;
      rewrite Hsizes; simpl; rewrite Hloop; simpl;
      destruct (truthy_str (VirtualMachine.arg_storage_blob_name self)); simpl;
      rewrite Himages; destruct e; simpl;
      rewrite ?app_nil_r, <- ?app_assoc; eauto. }
  by rewrite (vm_run_stops_with_preamble c self check_mode _ _ _ Hp).
Qed.

(** X30 ([force] on a missing machine).  With [force] a machine that is not
    there is deleted before it is created (no cascade asked): when the
    provider refuses to delete what is not there the run fails with the
    message of [delete_vm] and nothing is created; when it accepts, the
    create-or-update follows. *)
Theorem vm_force_on_absent_deletes_first (c : VirtualMachine.Cloud)
    (self : VirtualMachine.Self) (msg : string) :
  let rg := VirtualMachine.self_resource_group self in
  let name := VirtualMachine.self_name self in
  VirtualMachine.self_state self = VirtualMachine.started →
  VirtualMachine.self_force self = true →
  VirtualMachine.self_delete_network_interfaces self = false →
  VirtualMachine.self_delete_virtual_storage self = false →
  outcome_of (VirtualMachine.preamble self c (VirtualMachine.init self)) = Ok tt →
  VirtualMachine.virtual_machines_get c rg name = inl (ErrCloud msg) →
  let p := VirtualMachine.preamble self c (VirtualMachine.init self) in
  (∀ e, VirtualMachine.virtual_machines_delete c rg name = inl e →
     outcome_of (VirtualMachine.run false self c)
     = Raised (SystemExit ("Error deleting virtual machine " +:+ name +:+ " - "
                           +:+ exn_str (sdk_exn e)))
     ∧ trace_of (VirtualMachine.run false self c)
       = trace_of p ++ [VirtualMachine.EvVmGet rg name; VirtualMachine.EvVmDelete rg name])
  ∧ (VirtualMachine.virtual_machines_delete c rg name = inr tt →
     VirtualMachine.serialize_obj c (VirtualMachine.vm_resource self (frame_of p)) = None →
     trace_of (VirtualMachine.run false self c)
     = trace_of p ++ [VirtualMachine.EvVmGet rg name; VirtualMachine.EvVmDelete rg name;
                      VirtualMachine.EvVmCreateOrUpdate rg name
                        (VirtualMachine.vm_resource self (frame_of p))]).
Proof.
  intros rg name Hstate Hforce Hdni Hdvs Hp Hget p. subst rg name p.
  destruct (vm_decide_not_found c self msg Hp Hget) as (Ho & Ht & Hc & Hrc & Hrr & Hv & Hres).
  rewrite Hstate in Hc, Hrc. simpl in Hc, Hrc. rewrite <- Hres. clear Hres.
  unfold VirtualMachine.run, VirtualMachine.exec_module_impl, VirtualMachine.apply_plan,
    VirtualMachine.return_results, VirtualMachine.create_vm,
    VirtualMachine.set_self_results_results, VirtualMachine.set_vm,
    VirtualMachine.delete_vm, VirtualMachine.delete_vm_capture,
    VirtualMachine.delete_vm_cleanup, VirtualMachine.self_attr_delete_virtual_storage,
    VirtualMachine.getattr, VirtualMachine.attr_truth.
  unfold_monad.
  destruct (VirtualMachine.decide self c (VirtualMachine.init self)) as [[o fd] td].
  simpl in *. subst o td.
  rewrite Hc, Hstate, Hforce, Hdni, Hdvs. simpl.
  split.
  - intros e Hdel. rewrite Hdel. destruct e; simpl;
      by rewrite ?app_nil_r, <- ?app_assoc.
  - intros Hdel Hser. rewrite Hdel. simpl.
    destruct (VirtualMachine.self_delete_public_ips self); simpl.
    all: repeat match goal with
         | H : VirtualMachine.vm ?fd = None
           |- context [VirtualMachine.vm_resource ?s ?f] =>
             lazymatch f with
             | fd => fail
             | _ => change (VirtualMachine.vm_resource s f)
                      with (VirtualMachine.vm_resource s fd)
             end
         end.
    all: rewrite Hser; simpl.
    all: destruct (VirtualMachine.virtual_machines_create_or_update _ _ _ _) as [[]|[e0|v0]];
      simpl; try destruct (VirtualMachine.serialize_obj c v0); simpl;
      rewrite ?app_nil_r, <- ?app_assoc; reflexivity.
Qed.

(** * The theorems above, on the scenarios *)

Lemma rg_absent_is_stable_witness :
  outcome_of (ResourceGroup.run false
    (RgCases.invocation ResourceGroup.absent None (Some {[ "a" := "1" ]}) true)
    RgCases.empty_cloud)
  = Ok {| ResourceGroup.r_changed := false;
          ResourceGroup.r_check_mode := false;
          ResourceGroup.r_results := ResourceGroup.EmptyDict |}
  ∧ trace_of (ResourceGroup.run false
      (RgCases.invocation ResourceGroup.absent None (Some {[ "a" := "1" ]}) true)
      RgCases.empty_cloud)
    = [ResourceGroup.EvGet "Testing"].
Proof.
  apply (rg_absent_is_stable RgCases.empty_cloud
           (RgCases.invocation ResourceGroup.absent None (Some {[ "a" := "1" ]}) true)
           false "ResourceGroupNotFound");
    reflexivity.
Defined.

Lemma rg_fetch_error_is_fatal_witness :
  outcome_of (ResourceGroup.run false
    (RgCases.invocation ResourceGroup.present (Some "eastus2") None false)
    RgCases.unreachable_cloud)
  = Raised (Exception "ConnectionError")
  ∧ trace_of (ResourceGroup.run false
      (RgCases.invocation ResourceGroup.present (Some "eastus2") None false)
      RgCases.unreachable_cloud)
    = [ResourceGroup.EvGet "Testing"].
Proof.
  apply (rg_fetch_error_is_fatal RgCases.unreachable_cloud
           (RgCases.invocation ResourceGroup.present (Some "eastus2") None false)
           false "ConnectionError");
    reflexivity.
Defined.

Lemma rg_unchanged_is_noop_witness :
  outcome_of (ResourceGroup.run false
    (RgCases.invocation ResourceGroup.present (Some "eastus2") (Some {[ "a" := "1" ]}) false)
    RgScenario.cloud)
  = Ok {| ResourceGroup.r_changed := false;
          ResourceGroup.r_check_mode := false;
          ResourceGroup.r_results :=
            ResourceGroup.Dict (ResourceGroup.resource_group_to_dict RgScenario.testing) |}
  ∧ trace_of (ResourceGroup.run false
      (RgCases.invocation ResourceGroup.present (Some "eastus2") (Some {[ "a" := "1" ]}) false)
      RgScenario.cloud)
    = [ResourceGroup.EvGet "Testing"].
Proof.
  apply (rg_unchanged_is_noop RgScenario.cloud
           (RgCases.invocation ResourceGroup.present (Some "eastus2")
              (Some {[ "a" := "1" ]}) false)
           false RgScenario.testing);
    reflexivity.
Defined.

Lemma rg_created_when_absent_witness :
  trace_of (ResourceGroup.run false
    (RgCases.invocation ResourceGroup.present (Some "westus") (Some {[ "a" := "1" ]}) false)
    RgCases.empty_cloud)
  = [ResourceGroup.EvGet "Testing";
     ResourceGroup.EvCreateOrUpdate "Testing"
       {| ResourceGroup.rg_id := None; ResourceGroup.rg_name := None;
          ResourceGroup.rg_location := "westus";
          ResourceGroup.rg_tags := Some {[ "a" := "1" ]};
          ResourceGroup.rg_provisioning_state := None |}].
Proof.
  apply (rg_created_when_absent RgCases.empty_cloud
           (RgCases.invocation ResourceGroup.present (Some "westus")
              (Some {[ "a" := "1" ]}) false)
           "ResourceGroupNotFound" "westus");
    [reflexivity | reflexivity | reflexivity | reflexivity | discriminate].
Defined.

Lemma rg_create_requires_location_witness :
  outcome_of (ResourceGroup.run false
    (RgCases.invocation ResourceGroup.present None None false) RgCases.empty_cloud)
  = Raised (SystemExit
      "Parameter error: location is required when creating a resource group.")
  ∧ trace_of (ResourceGroup.run false
      (RgCases.invocation ResourceGroup.present None None false) RgCases.empty_cloud)
    = [ResourceGroup.EvGet "Testing"].
Proof.
  apply (rg_create_requires_location RgCases.empty_cloud
           (RgCases.invocation ResourceGroup.present None None false)
           "ResourceGroupNotFound");
    reflexivity.
Defined.

Lemma rg_deleted_when_present_witness :
  trace_of (ResourceGroup.run false
    (RgCases.invocation ResourceGroup.absent None None false) RgScenario.cloud)
  = [ResourceGroup.EvGet "Testing"; ResourceGroup.EvDelete "Testing"].
Proof.
  apply (rg_deleted_when_present RgScenario.cloud
           (RgCases.invocation ResourceGroup.absent None None false)
           RgScenario.testing);
    reflexivity.
Defined.

Lemma rg_force_on_absent_deletes_first_witness :
  outcome_of (ResourceGroup.run false
    (RgCases.invocation ResourceGroup.present (Some "westus") None true) RgCases.empty_cloud)
  = Raised (SystemExit "Error delete resource group Testing - ResourceGroupNotFound")
  ∧ trace_of (ResourceGroup.run false
      (RgCases.invocation ResourceGroup.present (Some "westus") None true)
      RgCases.empty_cloud)
    = [ResourceGroup.EvGet "Testing"; ResourceGroup.EvDelete "Testing"].
Proof.
  apply (rg_force_on_absent_deletes_first RgCases.empty_cloud
           (RgCases.invocation ResourceGroup.present (Some "westus") None true)
           "ResourceGroupNotFound" (ErrOther "ResourceGroupNotFound"));
    reflexivity.
Defined.

Lemma rg_absent_never_creates_witness :
  Forall (λ ev, match ev with
                | ResourceGroup.EvCreateOrUpdate _ _ => False
                | _ => True
                end)
         (trace_of (ResourceGroup.run false
            (RgCases.invocation ResourceGroup.absent (Some "eastus2") None true)
            RgScenario.cloud)).
Proof.
  apply (rg_absent_never_creates
           (RgCases.invocation ResourceGroup.absent (Some "eastus2") None true) false).
  reflexivity.
Defined.

Lemma rg_present_unforced_never_deletes_witness :
  Forall (λ ev, match ev with
                | ResourceGroup.EvDelete _ => False
                | _ => True
                end)
         (trace_of (ResourceGroup.run false
            (RgCases.invocation ResourceGroup.present (Some "eastus2")
               (Some {[ "b" := "2" ]}) false)
            RgScenario.cloud)).
Proof.
  apply (rg_present_unforced_never_deletes
           (RgCases.invocation ResourceGroup.present (Some "eastus2")
              (Some {[ "b" := "2" ]}) false) false);
    reflexivity.
Defined.

Lemma nic_absent_touches_only_the_interface_witness :
  Forall (λ ev, match ev with
                | NetworkInterface.EvGetResourceGroup _
                | NetworkInterface.EvNicGet _ _
                | NetworkInterface.EvNicDelete _ _ => True
                | _ => False
                end)
         (trace_of (NetworkInterface.run false
            (NicCases.invocation "nic003" NetworkInterface.absent None (Some "publicip001"))
            (NicCases.cloud true true))).
Proof.
  apply (nic_absent_touches_only_the_interface
           (NicCases.invocation "nic003" NetworkInterface.absent None (Some "publicip001"))
           false).
  reflexivity.
Defined.

Lemma nic_present_never_deletes_witness :
  Forall (λ ev, match ev with
                | NetworkInterface.EvNicDelete _ _ => False
                | _ => True
                end)
         (trace_of (NetworkInterface.run false
            (NicCases.invocation "nic003" NetworkInterface.present (Some {[ "b" := "2" ]}) None)
            (NicCases.cloud true true))).
Proof.
  apply (nic_present_never_deletes
           (NicCases.invocation "nic003" NetworkInterface.present (Some {[ "b" := "2" ]}) None)
           false).
  reflexivity.
Defined.

Lemma vm_not_started_never_mutates_witness :
  Forall (λ ev, VirtualMachine.is_mutation ev = false)
         (trace_of (VirtualMachine.run false
            (VmCases.invocation VirtualMachine.absent true ["nic001"] "latest")
            (VmScenario.cloud true true []))).
Proof.
  apply (vm_not_started_never_mutates
           (VmCases.invocation VirtualMachine.absent true ["nic001"] "latest") false).
  discriminate.
Defined.

Lemma vm_unforced_never_deletes_witness :
  Forall (λ ev, match ev with
                | VirtualMachine.EvVmDelete _ _
                | VirtualMachine.EvNicDelete _ _
                | VirtualMachine.EvPublicIpDelete _ _
                | VirtualMachine.EvBlobDelete _ _ _ => False
                | _ => True
                end)
         (trace_of (VirtualMachine.run false
            (VmCases.invocation VirtualMachine.started false ["nic001"] "latest")
            (VmScenario.cloud true true []))).
Proof.
  apply (vm_unforced_never_deletes
           (VmCases.invocation VirtualMachine.started false ["nic001"] "latest") false).
  reflexivity.
Defined.

Lemma vm_public_ips_need_interfaces_witness :
  VirtualMachine.delete_vm
    (VmCases.invocation VirtualMachine.started true ["nic001"] "latest")
    (VmScenario.cloud true true [])
    (VirtualMachine.init (VmCases.invocation VirtualMachine.started true ["nic001"] "latest"))
  = (Ok true,
     VirtualMachine.init (VmCases.invocation VirtualMachine.started true ["nic001"] "latest"),
     [VirtualMachine.EvVmDelete "Testing" "testvm002"]).
Proof.
  apply (vm_public_ips_need_interfaces (VmScenario.cloud true true [])
           (VmCases.invocation VirtualMachine.started true ["nic001"] "latest"));
    reflexivity.
Defined.

Lemma vm_created_when_absent_witness :
  trace_of (VirtualMachine.run false
    (VmCases.invocation VirtualMachine.started false ["nic001"] "latest")
    (VmScenario.cloud false false []))
  = [VirtualMachine.EvGetResourceGroup "Testing";
     VirtualMachine.EvSizesList (Some "eastus");
     VirtualMachine.EvNicGet "Testing" "nic001";
     VirtualMachine.EvImagesList (Some "eastus") (Some "OpenLogic") (Some "CentOS")
       (Some "7.1");
     VirtualMachine.EvStorageAccountGet "Testing" (Some "testaccount001");
     VirtualMachine.EvVmGet "Testing" "testvm002";
     VirtualMachine.EvVmCreateOrUpdate "Testing" "testvm002"
       (VirtualMachine.vm_resource
          (VmCases.invocation VirtualMachine.started false ["nic001"] "latest")
          (frame_of (VirtualMachine.preamble
             (VmCases.invocation VirtualMachine.started false ["nic001"] "latest")
             (VmScenario.cloud false false [])
             (VirtualMachine.init
                (VmCases.invocation VirtualMachine.started false ["nic001"] "latest")))))]
  ∧ ∃ res,
      outcome_of (VirtualMachine.run false
        (VmCases.invocation VirtualMachine.started false ["nic001"] "latest")
        (VmScenario.cloud false false [])) = Ok res
      ∧ VirtualMachine.r_changed res = true.
Proof.
  destruct (vm_created_when_absent (VmScenario.cloud false false [])
              (VmCases.invocation VirtualMachine.started false ["nic001"] "latest")
              "NotFound" eq_refl eq_refl eq_refl eq_refl eq_refl) as (Ht & Hok & _).
  split; [exact Ht|].
  destruct (Hok _ eq_refl eq_refl) as (res & Hres & Hch & _). eauto.
Defined.

Lemma vm_absent_is_reported_not_applied_witness :
  outcome_of (VirtualMachine.run false
    (VmCases.invocation VirtualMachine.absent false ["nic001"] "latest")
    (VmScenario.cloud true true []))
  = Ok {| VirtualMachine.r_changed := true;
          VirtualMachine.r_check_mode := false;
          VirtualMachine.r_results := VirtualMachine.EmptyDict;
          VirtualMachine.r_deleted_vhd_uris := None;
          VirtualMachine.r_deleted_network_interfaces := None;
          VirtualMachine.r_deleted_public_ips := None |}
  ∧ trace_of (VirtualMachine.run false
      (VmCases.invocation VirtualMachine.absent false ["nic001"] "latest")
      (VmScenario.cloud true true []))
    = [VirtualMachine.EvGetResourceGroup "Testing";
       VirtualMachine.EvVmGet "Testing" "testvm002"].
Proof.
  apply (vm_absent_is_reported_not_applied (VmScenario.cloud true true [])
           (VmCases.invocation VirtualMachine.absent false ["nic001"] "latest") false
           VmScenario.testvm002
           {| VirtualMachine.resource_group_location := Some "eastus" |});
    reflexivity.
Defined.

Lemma name_pattern_sound_witness :
  ∃ core tail,
    "nic003" = core +:+ tail
    ∧ (tail = "" ∨ tail = String (ascii_of_nat 10) "")
    ∧ (3 ≤ String.length core ≤ 63)%nat
    ∧ (∃ c rest, core = String c rest ∧ NetworkInterface.is_lower c = true)
    ∧ Forall (λ a, NetworkInterface.is_lower a || NetworkInterface.is_digit a
                   || NetworkInterface.is_hyphen a = true)
             (list_ascii_of_string core).
Proof. apply (name_pattern_sound "nic003"). reflexivity. Defined.

Lemma nic_invalid_name_is_refused_witness :
  outcome_of (NetworkInterface.run false
    (NicCases.invocation "Nic003" NetworkInterface.present None None)
    (NicCases.cloud true true))
  = Raised (SystemExit
      ("Parameter error: name must begin with a letter or number, end with a letter "
       +:+ "or number and contain at least one number."))
  ∧ trace_of (NetworkInterface.run false
      (NicCases.invocation "Nic003" NetworkInterface.present None None)
      (NicCases.cloud true true))
    = [NetworkInterface.EvGetResourceGroup "Testing"].
Proof.
  apply (nic_invalid_name_is_refused (NicCases.cloud true true)
           (NicCases.invocation "Nic003" NetworkInterface.present None None) false
           {| NetworkInterface.resource_group_location := Some "eastus2" |});
    reflexivity.
Defined.

Lemma nic_missing_subnet_is_fatal_witness :
  outcome_of (NetworkInterface.run false
    (NicCases.invocation "nic003" NetworkInterface.present None None)
    (NicCases.cloud false true))
  = Raised (SystemExit
      "Parameter error: subnet subnet001 not found in virtual network vnet001")
  ∧ trace_of (NetworkInterface.run false
      (NicCases.invocation "nic003" NetworkInterface.present None None)
      (NicCases.cloud false true))
    = [NetworkInterface.EvGetResourceGroup "Testing";
       NetworkInterface.EvSubnetGet "Testing" (Some "vnet001") (Some "subnet001")].
Proof.
  apply (nic_missing_subnet_is_fatal (NicCases.cloud false true)
           (NicCases.invocation "nic003" NetworkInterface.present None None) false
           {| NetworkInterface.resource_group_location := Some "eastus2" |} "NotFound");
    reflexivity.
Defined.

Lemma nic_absent_is_stable_witness :
  outcome_of (NetworkInterface.run false
    (NicCases.invocation "nic001" NetworkInterface.absent None (Some "publicip001"))
    (NicCases.cloud false false))
  = Ok {| NetworkInterface.r_changed := false;
          NetworkInterface.r_check_mode := false;
          NetworkInterface.r_results := NetworkInterface.EmptyDict |}
  ∧ trace_of (NetworkInterface.run false
      (NicCases.invocation "nic001" NetworkInterface.absent None (Some "publicip001"))
      (NicCases.cloud false false))
    = [NetworkInterface.EvGetResourceGroup "Testing";
       NetworkInterface.EvNicGet "Testing" "nic001"].
Proof.
  apply (nic_absent_is_stable (NicCases.cloud false false)
           (NicCases.invocation "nic001" NetworkInterface.absent None (Some "publicip001"))
           false {| NetworkInterface.resource_group_location := Some "eastus2" |}
           "NotFound");
    reflexivity.
Defined.

Lemma nic_deleted_when_present_witness :
  trace_of (NetworkInterface.run false
    (NicCases.invocation "nic003" NetworkInterface.absent None None)
    (NicCases.cloud true true))
  = [NetworkInterface.EvGetResourceGroup "Testing";
     NetworkInterface.EvNicGet "Testing" "nic003";
     NetworkInterface.EvNicDelete "Testing" "nic003"]
  ∧ outcome_of (NetworkInterface.run false
      (NicCases.invocation "nic003" NetworkInterface.absent None None)
      (NicCases.cloud true true))
    = Ok {| NetworkInterface.r_changed := true;
            NetworkInterface.r_check_mode := false;
            NetworkInterface.r_results := NetworkInterface.Deleted |}.
Proof.
  edestruct (nic_deleted_when_present (NicCases.cloud true true)
               (NicCases.invocation "nic003" NetworkInterface.absent None None)
               {| NetworkInterface.resource_group_location := Some "eastus2" |}
               NicScenario.nic003) as (Ht & Hok & _);
    [reflexivity ..|].
  split; [exact Ht | exact (Hok eq_refl)].
Defined.

Lemma nic_unchanged_is_noop_witness :
  (∃ d, outcome_of (NetworkInterface.run false
          (NicCases.invocation "nic003" NetworkInterface.present (Some {[ "a" := "1" ]}) None)
          (NicCases.cloud true true))
        = Ok {| NetworkInterface.r_changed := false;
                NetworkInterface.r_check_mode := false;
                NetworkInterface.r_results := NetworkInterface.Dict d |})
  ∧ trace_of (NetworkInterface.run false
      (NicCases.invocation "nic003" NetworkInterface.present (Some {[ "a" := "1" ]}) None)
      (NicCases.cloud true true))
    = [NetworkInterface.EvGetResourceGroup "Testing";
       NetworkInterface.EvSubnetGet "Testing" (Some "vnet001") (Some "subnet001");
       NetworkInterface.EvNicGet "Testing" "nic003"].
Proof.
  edestruct (nic_unchanged_is_noop (NicCases.cloud true true)
               (NicCases.invocation "nic003" NetworkInterface.present
                  (Some {[ "a" := "1" ]}) None)
               false {| NetworkInterface.resource_group_location := Some "eastus2" |}
               NicScenario.subnet001 NicScenario.secgroup001 NicScenario.nic003)
    as (Ho & Ht);
    [try reflexivity; try discriminate ..|].
  split; [eexists; exact Ho | exact Ht].
Defined.

Lemma nic_public_ip_is_not_attached_on_update_witness :
  (∃ res, outcome_of (NetworkInterface.run true
            (NicCases.invocation_in_group (Some "secgroup001") (Some "publicip001"))
            (NicCases.cloud true true)) = Ok res
          ∧ NetworkInterface.r_changed res = true)
  ∧ ∃ submitted,
      trace_of (NetworkInterface.run false
        (NicCases.invocation_in_group (Some "secgroup001") (Some "publicip001"))
        (NicCases.cloud true true))
      = [NetworkInterface.EvGetResourceGroup "Testing";
         NetworkInterface.EvSubnetGet "Testing" (Some "vnet001") (Some "subnet001");
         NetworkInterface.EvPublicIpGet "Testing" (Some "publicip001");
         NetworkInterface.EvSecurityGroupGet "Testing" (Some "secgroup001");
         NetworkInterface.EvNicGet "Testing" "nic003";
         NetworkInterface.EvNicCreateOrUpdate "Testing" "nic003" submitted]
      ∧ Forall (λ ipc, NetworkInterface.ipc_public_ip_address ipc = None)
               (NetworkInterface.nic_ip_configurations submitted).
Proof.
  edestruct (nic_public_ip_is_not_attached_on_update (NicCases.cloud true true)
               (NicCases.invocation_in_group (Some "secgroup001") (Some "publicip001"))
               {| NetworkInterface.resource_group_location := Some "eastus2" |}
               NicScenario.subnet001 NicCases.publicip001
               NicScenario.secgroup001 NicScenario.secgroup001 NicScenario.nic003)
    as (Hcheck & submitted & Htrace & Hnone);
    [try reflexivity; discriminate ..|].
  split; [exact Hcheck|]. exists submitted. split; [exact Htrace | exact Hnone].
Defined.

Lemma vm_parameters_are_resolved_witness :
  let self := VmCases.invocation VirtualMachine.started false ["nic001"; "nic002"] "latest" in
  let c := VmCases.cloud []
             (inr [ {| VirtualMachine.image_name := "7.1.20160101" |};
                    {| VirtualMachine.image_name := "7.1.20160308" |} ]) in
  let p := VirtualMachine.preamble self c (VirtualMachine.init self) in
  outcome_of p = Ok tt
  ∧ trace_of p
    = [VirtualMachine.EvGetResourceGroup "Testing";
       VirtualMachine.EvSizesList (Some "eastus");
       VirtualMachine.EvNicGet "Testing" "nic001";
       VirtualMachine.EvNicGet "Testing" "nic002";
       VirtualMachine.EvImagesList (Some "eastus") (Some "OpenLogic") (Some "CentOS")
         (Some "7.1");
       VirtualMachine.EvStorageAccountGet "Testing" (Some "testaccount001")]
  ∧ VirtualMachine.self_location (frame_of p) = Some "eastus"
  ∧ VirtualMachine.self_storage_blob_name (frame_of p) = Some "testvm002.vsd"
  ∧ VirtualMachine.self_image_version (frame_of p) = Some "7.1.20160308"
  ∧ VirtualMachine.local_network_interfaces (frame_of p)
    = [ {| VirtualMachine.ref_id := Some (VmScenario.nic_uri "nic001") |};
        {| VirtualMachine.ref_id := Some (VmScenario.nic_uri "nic002") |} ].
Proof.
  cbv zeta.
  destruct (vm_parameters_are_resolved
              (VmCases.cloud []
                 (inr [ {| VirtualMachine.image_name := "7.1.20160101" |};
                        {| VirtualMachine.image_name := "7.1.20160308" |} ]))
              (VmCases.invocation VirtualMachine.started false ["nic001"; "nic002"] "latest")
              {| VirtualMachine.resource_group_location := Some "eastus" |}
              [ {| VirtualMachine.size_name := "Standard_D1" |} ]
              ["nic001"; "nic002"]
              (map (λ n, {| VirtualMachine.nic_id := Some (VmScenario.nic_uri n);
                            VirtualMachine.nic_ip_configurations :=
                              [ {| VirtualMachine.ipc_public_ip_address :=
                                     Some {| VirtualMachine.pip_id :=
                                               Some (VmScenario.pip_uri "publicip001") |} |} ] |})
                   ["nic001"; "nic002"])
              [ {| VirtualMachine.image_name := "7.1.20160101" |} ]
              {| VirtualMachine.image_name := "7.1.20160308" |})
    as (Ho & Ht & Hl & Hb & Hv & Hn);
    [reflexivity | reflexivity | reflexivity | reflexivity
    | by repeat constructor | reflexivity | reflexivity | reflexivity |].
  repeat split; assumption.
Defined.

Lemma vm_missing_interface_is_fatal_witness :
  outcome_of (VirtualMachine.run false
    (VmCases.invocation VirtualMachine.started false ["nic001"; "nic002"; "nic003"] "latest")
    (VmCases.cloud ["nic002"] (inr [ {| VirtualMachine.image_name := "7.1.20160308" |} ])))
  = Raised (SystemExit "Error fetching network interface nic002 - NotFound")
  ∧ trace_of (VirtualMachine.run false
      (VmCases.invocation VirtualMachine.started false ["nic001"; "nic002"; "nic003"] "latest")
      (VmCases.cloud ["nic002"] (inr [ {| VirtualMachine.image_name := "7.1.20160308" |} ])))
    = [VirtualMachine.EvGetResourceGroup "Testing";
       VirtualMachine.EvSizesList (Some "eastus");
       VirtualMachine.EvNicGet "Testing" "nic001";
       VirtualMachine.EvNicGet "Testing" "nic002"].
Proof.
  eapply (vm_missing_interface_is_fatal
            (VmCases.cloud ["nic002"]
               (inr [ {| VirtualMachine.image_name := "7.1.20160308" |} ]))
            (VmCases.invocation VirtualMachine.started false
               ["nic001"; "nic002"; "nic003"] "latest")
            false {| VirtualMachine.resource_group_location := Some "eastus" |}
            [ {| VirtualMachine.size_name := "Standard_D1" |} ]
            ["nic001"] ["nic003"] "nic002" _ (ErrCloud "NotFound"));
    try reflexivity.
  repeat constructor.
Defined.

Lemma vm_unknown_image_is_fatal_witness :
  outcome_of (VirtualMachine.run false
    (VmCases.invocation VirtualMachine.started false ["nic001"] "7.2")
    (VmCases.cloud [] (inr [ {| VirtualMachine.image_name := "7.1.20160308" |} ])))
  = Raised (SystemExit "Error could not find image OpenLogic CentOS 7.1 7.2")
  ∧ trace_of (VirtualMachine.run false
      (VmCases.invocation VirtualMachine.started false ["nic001"] "7.2")
      (VmCases.cloud [] (inr [ {| VirtualMachine.image_name := "7.1.20160308" |} ])))
    = [VirtualMachine.EvGetResourceGroup "Testing";
       VirtualMachine.EvSizesList (Some "eastus");
       VirtualMachine.EvNicGet "Testing" "nic001";
       VirtualMachine.EvImagesList (Some "eastus") (Some "OpenLogic") (Some "CentOS")
         (Some "7.1")].
Proof.
  eapply (vm_unknown_image_is_fatal
            (VmCases.cloud [] (inr [ {| VirtualMachine.image_name := "7.1.20160308" |} ]))
            (VmCases.invocation VirtualMachine.started false ["nic001"] "7.2")
            false {| VirtualMachine.resource_group_location := Some "eastus" |}
            [ {| VirtualMachine.size_name := "Standard_D1" |} ]
            ["nic001"] _ [ {| VirtualMachine.image_name := "7.1.20160308" |} ]);
    try reflexivity; try discriminate.
  - repeat constructor.
  - repeat constructor. discriminate.
Defined.

Lemma vm_image_listing_error_is_not_reported_witness :
  outcome_of (VirtualMachine.run false
    (VmCases.invocation VirtualMachine.started false ["nic001"] "latest")
    (VmCases.cloud [] (inl (ErrCloud "NotFound"))))
  = Raised (IndexError "tuple index out of range")
  ∧ trace_of (VirtualMachine.run false
      (VmCases.invocation VirtualMachine.started false ["nic001"] "latest")
      (VmCases.cloud [] (inl (ErrCloud "NotFound"))))
    = [VirtualMachine.EvGetResourceGroup "Testing";
       VirtualMachine.EvSizesList (Some "eastus");
       VirtualMachine.EvNicGet "Testing" "nic001";
       VirtualMachine.EvImagesList (Some "eastus") (Some "OpenLogic") (Some "CentOS")
         (Some "7.1")].
Proof.
  eapply (vm_image_listing_error_is_not_reported
            (VmCases.cloud [] (inl (ErrCloud "NotFound")))
            (VmCases.invocation VirtualMachine.started false ["nic001"] "latest")
            false {| VirtualMachine.resource_group_location := Some "eastus" |}
            [ {| VirtualMachine.size_name := "Standard_D1" |} ]
            ["nic001"] _ (ErrCloud "NotFound"));
    try reflexivity.
  repeat constructor.
Defined.

Lemma vm_force_on_absent_deletes_first_witness :
  (outcome_of (VirtualMachine.run false
     (VmCases.invocation VirtualMachine.started true ["nic001"] "latest")
     (VmCases.cloud [] (inr [ {| VirtualMachine.image_name := "7.1.20160308" |} ])))
   = Raised (SystemExit "Error deleting virtual machine testvm002 - NotFound")
   ∧ trace_of (VirtualMachine.run false
       (VmCases.invocation VirtualMachine.started true ["nic001"] "latest")
       (VmCases.cloud [] (inr [ {| VirtualMachine.image_name := "7.1.20160308" |} ])))
     = [VirtualMachine.EvGetResourceGroup "Testing";
        VirtualMachine.EvSizesList (Some "eastus");
        VirtualMachine.EvNicGet "Testing" "nic001";
        VirtualMachine.EvImagesList (Some "eastus") (Some "OpenLogic") (Some "CentOS")
          (Some "7.1");
        VirtualMachine.EvStorageAccountGet "Testing" (Some "testaccount001");
        VirtualMachine.EvVmGet "Testing" "testvm002";
        VirtualMachine.EvVmDelete "Testing" "testvm002"])
  ∧ last (trace_of (VirtualMachine.run false
       (VmCases.invocation VirtualMachine.started true ["nic001"] "latest")
       (VmScenario.cloud false false [])))
    = Some (VirtualMachine.EvVmCreateOrUpdate "Testing" "testvm002"
        (VirtualMachine.vm_resource
           (VmCases.invocation VirtualMachine.started true ["nic001"] "latest")
           (frame_of (VirtualMachine.preamble
              (VmCases.invocation VirtualMachine.started true ["nic001"] "latest")
              (VmScenario.cloud false false [])
              (VirtualMachine.init
                 (VmCases.invocation VirtualMachine.started true ["nic001"] "latest")))))).
Proof.
  split.
  - destruct (vm_force_on_absent_deletes_first
                (VmCases.cloud [] (inr [ {| VirtualMachine.image_name := "7.1.20160308" |} ]))
                (VmCases.invocation VirtualMachine.started true ["nic001"] "latest")
                "NotFound" eq_refl eq_refl eq_refl eq_refl eq_refl eq_refl) as [Hfail _].
    exact (Hfail (ErrCloud "NotFound") eq_refl).
  - destruct (vm_force_on_absent_deletes_first (VmScenario.cloud false false [])
                (VmCases.invocation VirtualMachine.started true ["nic001"] "latest")
                "NotFound" eq_refl eq_refl eq_refl eq_refl eq_refl eq_refl) as [_ Hok].
    rewrite (Hok eq_refl eq_refl). reflexivity.
Defined.
